(** * python-github-webhooks: the request handler of [webhooks.py]

    A shallow embedding of [index], the WSGI entry point of the receiver:
    origin check, signature check, metadata extraction, hook resolution and
    hook dispatch.  Python values are embedded as a [json] tree, Python
    exceptions and Flask's [abort] as an [outcome], and every interaction
    with the outside (logging, temporary files, processes) as an entry of
    the trace the handler returns next to its outcome.

    Conventions.
    - The interpreter is Python 3, which line 111 ([bytes(secret, 'utf-8')])
      asks for; [constant_time_compare] is then [hmac.compare_digest].
    - A Python [str] is a Rocq [string] holding its UTF-8 encoding, so
      [bytes(s, 'utf-8')] is the identity and [b.decode('utf-8')] is a
      validity check.
    - What the libraries compute from the outside ([ip_address],
      [ip_network], the ranges fetched from GitHub, [isfile], [access],
      what a hook prints and exits with) is read from a [world].
    - [mkstemp], [fdopen], [write] and [remove] are taken to succeed; what
      they do is recorded in the trace.  [Popen] is not: it raises
      [ValueError] for an argument that holds a NUL character and [OSError]
      when the system cannot execute the file, and only a process that was
      started is recorded.
    - A hook that is waited for ends: [communicate] returns what the world
      says the hook printed and exited with (the handler sets no timeout).
    - [mkstemp] never hands out the name of an existing file, so the
      temporary files of one request are named by the order of their
      creation.
    - Line numbers are those of [webhooks.py]. *)

From stdpp Require Import base option list gmap strings.
From Stdlib Require Import ZArith Ascii String DecimalString Lia.

#[local] Set Warnings "-register-all".
#[local] Open Scope string_scope.
#[local] Open Scope list_scope.

(** ** Python strings *)

Module PyStr.

(** [s.split(sep, maxsplit)] for a one-character separator; [None] is
    the unlimited form [s.split(sep)]. *)
Fixpoint split (sep : ascii) (maxsplit : option nat) (s : string) : list string :=
  match maxsplit with
  | Some O => [s]
  | _ =>
    match s with
    | EmptyString => [EmptyString]
    | String c rest =>
      if Ascii.eqb c sep
      then EmptyString :: split sep (Nat.pred <$> maxsplit) rest
      else match split sep maxsplit rest with
           | piece :: pieces => String c piece :: pieces
           | [] => [String c EmptyString]
           end
    end
  end.

(** [s.startswith(p)] *)
Definition startswith (p s : string) : bool := String.prefix p s.

(** [s.endswith(suffix)] *)
Definition endswith (suffix s : string) : bool :=
  let n := String.length s in
  let k := String.length suffix in
  if (n <? k)%nat then false
  else String.eqb (String.substring (n - k) k s) suffix.

(** [needle in s] on two strings *)
Definition contains (needle s : string) : bool :=
  match String.index 0 needle s with
  | Some _ => true
  | None => false
  end.

(** Whether every character is below 128: what [hmac.compare_digest]
    demands of [str] arguments. *)
Fixpoint isascii (s : string) : bool :=
  match s with
  | EmptyString => true
  | String c rest => (N_of_ascii c <? 128)%N && isascii rest
  end.

(** [s.count(c)] for a character [c] *)
Fixpoint count (c : ascii) (s : string) : nat :=
  match s with
  | EmptyString => 0
  | String x rest => (if Ascii.eqb x c then 1 else 0) + count c rest
  end.

(** Whether the string holds a NUL character, which no argument of a
    process may. *)
Fixpoint has_nul (s : string) : bool :=
  match s with
  | EmptyString => false
  | String c rest => Ascii.eqb c Ascii.zero || has_nul rest
  end.

(** [str(n)] of an [int] *)
Definition of_Z (z : Z) : string := NilZero.string_of_int (Z.to_int z).

End PyStr.

(** ** [os.path] (POSIX flavour) *)

Module OsPath.

(** [join(a, b)]: an absolute [b] replaces [a]; otherwise one slash
    separates the two unless [a] is empty or already ends in one. *)
Definition join (a b : string) : string :=
  if PyStr.startswith "/" b then b
  else if String.eqb a "" || PyStr.endswith "/" a then a +:+ b
  else a +:+ "/" +:+ b.

(** The text after the last slash, scanning with the piece collected
    since the last slash seen. *)
Fixpoint basename_from (piece s : string) : string :=
  match s with
  | EmptyString => piece
  | String c rest =>
    if Ascii.eqb c "/" then basename_from "" rest
    else basename_from (piece +:+ String c "") rest
  end.

(** [basename(p)] *)
Definition basename (p : string) : string := basename_from "" p.

End OsPath.

(** ** SHA-1 and HMAC-SHA1 ([hashlib.sha1], [hmac.new]) on lists of bytes *)

Module Sha1.
#[local] Open Scope Z_scope.

Definition word (x : Z) : Z := Z.land x 0xFFFFFFFF.
Definition add (x y : Z) : Z := word (x + y).
Definition rotl (n x : Z) : Z := word (Z.lor (Z.shiftl x n) (Z.shiftr x (32 - n))).

Definition bytes_of_string (s : string) : list Z :=
  (fun c => Z.of_N (N_of_ascii c)) <$> list_ascii_of_string s.

(** The [n] low bytes of [x], most significant first. *)
Fixpoint be_bytes (n : nat) (x : Z) : list Z :=
  match n with
  | O => []
  | S m => be_bytes m (Z.shiftr x 8) ++ [Z.land x 0xFF]
  end.

Definition be_word (bs : list Z) : Z :=
  fold_left (fun acc b => Z.lor (Z.shiftl acc 8) b) bs 0.

Definition pad (msg : list Z) : list Z :=
  let len := Z.of_nat (List.length msg) in
  msg ++ [0x80] ++ replicate (Z.to_nat ((55 - len) mod 64)) 0 ++ be_bytes 8 (8 * len).

(** Cut into pieces of [n] items (the last may be shorter). *)
Fixpoint chunks {A} (fuel n : nat) (l : list A) : list (list A) :=
  match fuel, l with
  | _, [] => []
  | O, _ => []
  | S fuel', _ => take n l :: chunks fuel' n (drop n l)
  end.

Definition words_of_block (block : list Z) : list Z :=
  be_word <$> chunks 16 4 block.

Definition nth_word (w : list Z) (i : nat) : Z := default 0 (w !! i).

(** Message schedule: extend 16 words to 80. *)
Fixpoint schedule (steps : nat) (w : list Z) : list Z :=
  match steps with
  | O => w
  | S steps' =>
    let t := List.length w in
    let x := Z.lxor (Z.lxor (nth_word w (t - 3)) (nth_word w (t - 8)))
                    (Z.lxor (nth_word w (t - 14)) (nth_word w (t - 16))) in
    schedule steps' (w ++ [rotl 1 x])
  end.

Record state := State { ha : Z; hb : Z; hc : Z; hd : Z; he : Z }.

Definition init : state :=
  State 0x67452301 0xEFCDAB89 0x98BADCFE 0x10325476 0xC3D2E1F0.

Definition f (t : nat) (b c d : Z) : Z :=
  if (t <? 20)%nat then Z.lor (Z.land b c) (Z.land (Z.lxor b 0xFFFFFFFF) d)
  else if (t <? 40)%nat then Z.lxor (Z.lxor b c) d
  else if (t <? 60)%nat then Z.lor (Z.lor (Z.land b c) (Z.land b d)) (Z.land c d)
  else Z.lxor (Z.lxor b c) d.

Definition k (t : nat) : Z :=
  if (t <? 20)%nat then 0x5A827999
  else if (t <? 40)%nat then 0x6ED9EBA1
  else if (t <? 60)%nat then 0x8F1BBCDC
  else 0xCA62C1D6.

Definition round (s : state) (tw : nat * Z) : state :=
  let '(t, w) := tw in
  let temp := add (add (add (add (rotl 5 (ha s)) (f t (hb s) (hc s) (hd s))) (he s)) (k t)) w in
  State temp (ha s) (rotl 30 (hb s)) (hc s) (hd s).

Definition compress (h : state) (block : list Z) : state :=
  let w := schedule 64 (words_of_block block) in
  let s := fold_left round (imap (fun t x => (t, x)) w) h in
  State (add (ha h) (ha s)) (add (hb h) (hb s)) (add (hc h) (hc s))
        (add (hd h) (hd s)) (add (he h) (he s)).

(** The 20-byte digest. *)
Definition digest (msg : list Z) : list Z :=
  let padded := pad msg in
  let h := fold_left compress (chunks (List.length padded) 64 padded) init in
  be_bytes 4 (ha h) ++ be_bytes 4 (hb h) ++ be_bytes 4 (hc h)
    ++ be_bytes 4 (hd h) ++ be_bytes 4 (he h).

Definition hex_digit (x : Z) : ascii :=
  ascii_of_N (Z.to_N (if x <? 10 then 48 + x else 87 + x)).

Fixpoint hex (bs : list Z) : string :=
  match bs with
  | [] => ""
  | b :: rest => String (hex_digit (Z.shiftr b 4)) (String (hex_digit (Z.land b 0xF)) (hex rest))
  end.
End Sha1.

Module Hmac.
#[local] Open Scope Z_scope.

(** [hmac.new(key, msg, sha1).digest()] *)
Definition digest (key msg : list Z) : list Z :=
  let key0 := if (64 <? List.length key)%nat then Sha1.digest key else key in
  let key1 := key0 ++ replicate (64 - List.length key0) 0 in
  let inner := Sha1.digest ((Z.lxor 0x36 <$> key1) ++ msg) in
  Sha1.digest ((Z.lxor 0x5C <$> key1) ++ inner).

(** [hmac.new(key, msg, sha1).hexdigest()] on strings of bytes *)
Definition hexdigest (key msg : string) : string :=
  Sha1.hex (digest (Sha1.bytes_of_string key) (Sha1.bytes_of_string msg)).
End Hmac.


(** ** Python values

    What [json.loads] produces.  A float is seen by this program only
    through [bool()] and [str()], so it is kept as those two answers. *)

Inductive json : Type :=
| JNull
| JBool (b : bool)
| JInt (z : Z)
| JFloat (nonzero : bool) (repr : string)
| JStr (s : string)
| JList (items : list json)
| JDict (fields : gmap string json).

(** Exceptions the handler can raise. *)
Inductive exn : Type :=
| KeyError (key : string)
| TypeError
| IndexError
| AttributeError
| ValueError
| UnicodeDecodeError
| OSError.

(** How a piece of the handler ends: with a value, with Flask's
    [abort(status)], or with an exception nobody catches (which the server
    turns into a 500 response). *)
Inductive outcome (A : Type) : Type :=
| Ok (a : A)
| Abort (status : Z)
| Raise (e : exn).
Arguments Ok {A} a.
Arguments Abort {A} status.
Arguments Raise {A} e.

Definition obind {A B} (c : outcome A) (k : A -> outcome B) : outcome B :=
  match c with
  | Ok a => k a
  | Abort st => Abort st
  | Raise e => Raise e
  end.

Notation "'let?' x := c 'in' k" := (obind c (fun x => k))
  (at level 10, x name, c at level 100, k at level 200).

(** [try: c  except KeyError: h] *)
Definition except_KeyError {A} (c h : outcome A) : outcome A :=
  match c with
  | Raise (KeyError _) => h
  | _ => c
  end.

Module Py.

(** [bool(v)] *)
Definition truthy (v : json) : bool :=
  match v with
  | JNull => false
  | JBool b => b
  | JInt z => negb (z =? 0)%Z
  | JFloat nonzero _ => nonzero
  | JStr s => negb (String.eqb s "")
  | JList items => match items with [] => false | _ => true end
  | JDict fields => negb (bool_decide (fields = ∅))
  end.

(** [v == s] for a string literal [s] *)
Definition eq_str (v : json) (s : string) : bool :=
  match v with
  | JStr t => String.eqb t s
  | _ => false
  end.

(** [key in v] for a string literal [key] *)
Definition contains (key : string) (v : json) : outcome bool :=
  match v with
  | JDict fields => Ok (bool_decide (is_Some (fields !! key)))
  | JList items => Ok (existsb (fun x => eq_str x key) items)
  | JStr s => Ok (PyStr.contains key s)
  | _ => Raise TypeError
  end.

(** [v[key]] for a string literal [key] *)
Definition getitem (v : json) (key : string) : outcome json :=
  match v with
  | JDict fields =>
    match fields !! key with
    | Some x => Ok x
    | None => Raise (KeyError key)
    end
  | _ => Raise TypeError
  end.

(** [v.split(sep, maxsplit)] *)
Definition split (v : json) (sep : ascii) (maxsplit : nat) : outcome (list string) :=
  match v with
  | JStr s => Ok (PyStr.split sep (Some maxsplit) s)
  | _ => Raise AttributeError
  end.

(** [pieces[i]] *)
Definition item (pieces : list string) (i : nat) : outcome json :=
  match pieces !! i with
  | Some piece => Ok (JStr piece)
  | None => Raise IndexError
  end.

(** [d.get(key, dflt)] *)
Definition get (d : json) (key : string) (dflt : json) : outcome json :=
  match d with
  | JDict fields => Ok (default dflt (fields !! key))
  | _ => Raise AttributeError
  end.

End Py.


(** ** UTF-8 ([bytes.decode('utf-8')], strict) *)

Module Utf8.
#[local] Open Scope Z_scope.

Definition between (lo hi x : Z) : bool := (lo <=? x) && (x <=? hi).
Definition tail_byte : Z -> bool := between 0x80 0xBF.

(** Well-formed byte sequences of RFC 3629: no overlong forms, no
    surrogates, nothing above U+10FFFF. *)
Fixpoint valid_bytes (bs : list Z) : bool :=
  match bs with
  | [] => true
  | b0 :: r1 =>
    if b0 <=? 0x7F then valid_bytes r1
    else match r1 with
    | [] => false
    | b1 :: r2 =>
      if between 0xC2 0xDF b0 then tail_byte b1 && valid_bytes r2
      else match r2 with
      | [] => false
      | b2 :: r3 =>
        if between 0xE0 0xEF b0 then
          (if b0 =? 0xE0 then between 0xA0 0xBF b1
           else if b0 =? 0xED then between 0x80 0x9F b1
           else tail_byte b1)
          && tail_byte b2 && valid_bytes r3
        else match r3 with
        | [] => false
        | b3 :: r4 =>
          between 0xF0 0xF4 b0
          && (if b0 =? 0xF0 then between 0x90 0xBF b1
              else if b0 =? 0xF4 then between 0x80 0x8F b1
              else tail_byte b1)
          && tail_byte b2 && tail_byte b3 && valid_bytes r4
        end
      end
    end
  end.

Definition valid (s : string) : bool := valid_bytes (Sha1.bytes_of_string s).

(** [raw.decode('utf-8')] *)
Definition decode (raw : string) : outcome string :=
  if valid raw then Ok raw else Raise UnicodeDecodeError.

End Utf8.

(** ** The outside world *)

(** What a hook process leaves behind when waited for. *)
Record completed : Type := Completed {
  returncode : Z;
  stdout : string;
  stderr : string
}.

(** State of [config.json] next to the program. *)
Inductive config_file : Type :=
| NoFile
| BadFile
| Parsed (config : json).

Record world : Type := World {
  (** directory of [webhooks.py] *)
  w_path : string;
  w_config : config_file;
  (** whether [ip_address] accepts the text *)
  w_ip_address : string -> bool;
  (** the [hooks] ranges served by [https://api.github.com/meta];
      [None] when fetching them fails *)
  w_whitelist : option (list string);
  (** [src_ip in ip_network(valid_ip)] *)
  w_in_network : string -> string -> bool;
  w_isfile : string -> bool;
  (** [access(s, X_OK)] *)
  w_access : string -> bool;
  (** [repr] of a list or a dict *)
  w_repr : json -> string;
  (** whether the system executes the file [s] for the hook at position
      [i] of the resolved list; [Popen] raises [OSError] when it does not *)
  w_spawn : nat -> string -> bool;
  (** what the hook at position [i] of the resolved list, started from
      path [s] and waited for, ends with *)
  w_communicate : nat -> string -> completed
}.

Record request : Type := Request {
  r_method : string;
  (** [request.access_route[0]] *)
  r_remote : string;
  (** header [X-Hub-Signature] *)
  r_signature : option string;
  (** header [X-GitHub-Event] *)
  r_event : option string;
  (** [request.data], the raw body *)
  r_data : string;
  (** [request.get_json()]; [None] when it raises *)
  r_json : option json
}.

Record metadata : Type := Metadata {
  name : json;
  branch : json;
  event : string
}.

Inductive level : Type := INFO | WARNING | ERROR.

Inductive message : Type :=
| IpNotAllowed (src_ip : string)
| NoSignature
| UnsupportedMech (sha_name : string)
| InvalidDigest
| ParsingFailed
| MetadataIs (meta : metadata)
| Skipping (meta : metadata)
| Trying (hook : string)
| HookFailed (script : string) (code : Z) (err : string)
| Output (ran : gmap string json).

(** Temporary files, named by the order [mkstemp] created them in. *)
Definition tmpfile : Type := nat.

Inductive effect : Type :=
| Log (lvl : level) (msg : message)
(** [mkstemp()] *)
| MkStemp (file : tmpfile)
(** [pf.write(dumps(payload))] *)
| Write (file : tmpfile) (payload : json)
(** [Popen([script, file, event, name, branch], stdout=PIPE, stderr=PIPE)]
    started a process *)
| Popen (script : string) (file : tmpfile) (event name branch : string)
(** [proc.communicate()] on the process started from [script] *)
| Communicate (script : string)
(** [remove(file)] *)
| Remove (file : tmpfile).

(** What the handler hands back to Flask. *)
Inductive response : Type :=
(** [dumps(doc)] *)
| Dumps (doc : json)
(** [dumps(ran, sort_keys=True, indent=4)] *)
| DumpsSorted (ran : gmap string json).

(** ** Actions: an outcome together with the trace produced on the way *)

Definition act (A : Type) : Type := list effect * outcome A.

Definition ret {A} (a : A) : act A := ([], Ok a).

Definition bind {A B} (c : act A) (k : A -> act B) : act B :=
  match c with
  | (t, Ok a) => let '(t', r) := k a in (t ++ t', r)
  | (t, Abort st) => (t, Abort st)
  | (t, Raise e) => (t, Raise e)
  end.

Definition lift {A} (o : outcome A) : act A := ([], o).
Definition emit (e : effect) : act unit := ([e], Ok tt).
Definition logging (lvl : level) (msg : message) : act unit := emit (Log lvl msg).
Definition abort {A} (status : Z) : act A := ([], Abort status).

Notation "'do' x <- c ; k" := (bind c (fun x => k))
  (at level 10, x name, c at level 100, k at level 200).

(** ** [constant_time_compare] *)

(** Python 2.7.7 and later: [hmac.compare_digest], which refuses [str]
    arguments that are not ASCII. *)
Definition constant_time_compare (val1 val2 : string) : outcome bool :=
  if PyStr.isascii val1 && PyStr.isascii val2
  then Ok (String.eqb val1 val2)
  else Raise TypeError.

(** Earlier Pythons: the loop that folds the differences together. *)
Fixpoint zip_differences (val1 val2 : string) (result : N) : N :=
  match val1, val2 with
  | String x rest1, String y rest2 =>
    zip_differences rest1 rest2 (N.lor result (N.lxor (N_of_ascii x) (N_of_ascii y)))
  | _, _ => result
  end.

Definition constant_time_compare_legacy (val1 val2 : string) : bool :=
  if negb (String.length val1 =? String.length val2)%nat then false
  else (zip_differences val1 val2 0 =? 0)%N.

(** ** The handler, piece by piece *)

Definition default_config : json :=
  JDict {[ "github_ips_only" := JBool false;
           "enforce_secret" := JStr "";
           "return_scripts_info" := JBool false;
           "hooks_path" := JStr "/missing" ]}.

(** Lines 65-76 *)
Definition load_config (w : world) : outcome json :=
  match w_config w with
  | Parsed config => Ok config
  | BadFile => Raise ValueError
  | NoFile => Ok default_config
  end.

(** Lines 82-94: the source address against the published ranges. *)
Definition check_origin (w : world) (r : request) : act unit :=
  if w_ip_address w (r_remote r) then
    match w_whitelist w with
    | None => lift (Raise OSError)
    | Some whitelist =>
      if existsb (w_in_network w (r_remote r)) whitelist then ret tt
      else do _ <- logging ERROR (IpNotAllowed (r_remote r)); abort 403
    end
  else lift (Raise ValueError).

(** Lines 80-94: allow GitHub addresses only. *)
Definition github_ips_only (w : world) (config : json) (r : request) : act unit :=
  do enabled <- lift (Py.get config "github_ips_only" (JBool true));
  if Py.truthy enabled then check_origin w r else ret tt.

(** [bytes(secret, 'utf-8')] *)
Definition bytes_utf8 (v : json) : outcome string :=
  match v with
  | JStr s => Ok s
  | _ => Raise TypeError
  end.

(** Lines 99-115: the signature header against the body. *)
Definition check_signature (secret : json) (r : request) : act unit :=
  match r_signature r with
  | None => do _ <- logging WARNING NoSignature; abort 403
  | Some header_signature =>
    match PyStr.split "=" None header_signature with
    | [sha_name; signature] =>
      if negb (String.eqb sha_name "sha1")
      then do _ <- logging WARNING (UnsupportedMech sha_name); abort 501
      else
        do key <- lift (bytes_utf8 secret);
        let hexdigest := Hmac.hexdigest key (r_data r) in
        do same <- lift (constant_time_compare hexdigest signature);
        if negb same then do _ <- logging WARNING InvalidDigest; abort 403
        else ret tt
    | _ => lift (Raise ValueError)
    end
  end.

(** Lines 96-115: enforce the secret. *)
Definition enforce_secret (config : json) (r : request) : act unit :=
  do secret <- lift (Py.get config "enforce_secret" (JStr ""));
  if Py.truthy secret then check_signature secret r else ret tt.

(** Lines 123-127 *)
Definition get_json (r : request) : act json :=
  match r_json r with
  | Some payload => ret payload
  | None => do _ <- logging WARNING ParsingFailed; abort 400
  end.

(** Lines 131-153: the branch, [JNull] standing for [None]. *)
Definition derive_branch (event : string) (payload : json) : outcome json :=
  except_KeyError
    (let? has_ref_type := Py.contains "ref_type" payload in
     if has_ref_type then
       let? ref_type := Py.getitem payload "ref_type" in
       if Py.eq_str ref_type "branch" then Py.getitem payload "ref"
       else Ok JNull
     else
       let? has_pull_request := Py.contains "pull_request" payload in
       if has_pull_request then
         let? pull_request := Py.getitem payload "pull_request" in
         let? base := Py.getitem pull_request "base" in
         Py.getitem base "ref"
       else if String.eqb event "push" then
         let? ref := Py.getitem payload "ref" in
         let? pieces := Py.split ref "/" 2 in
         Py.item pieces 2
       else Ok JNull)
    (Ok JNull).

(** Line 157: the repository name. *)
Definition derive_name (payload : json) : outcome json :=
  let? has_repository := Py.contains "repository" payload in
  if has_repository then
    let? repository := Py.getitem payload "repository" in
    Py.getitem repository "name"
  else Ok JNull.

(** Line 167: [event == 'push' and payload['deleted']] *)
Definition is_push_delete (event : string) (payload : json) : outcome bool :=
  if String.eqb event "push" then
    let? deleted := Py.getitem payload "deleted" in
    Ok (Py.truthy deleted)
  else Ok false.

(** [str(v)], which is also what [format] puts in place of a field. *)
Definition py_str (w : world) (v : json) : string :=
  match v with
  | JNull => "None"
  | JBool true => "True"
  | JBool false => "False"
  | JInt z => PyStr.of_Z z
  | JFloat _ repr => repr
  | JStr s => s
  | JList _ | JDict _ => w_repr w v
  end.

(** [join(hooks, leaf)]; [hooks] comes from the configuration and may be
    anything. *)
Definition join_hooks (hooks : json) (leaf : string) : outcome string :=
  match hooks with
  | JStr dir => Ok (OsPath.join dir leaf)
  | _ => Raise TypeError
  end.

(** ['{event}-{name}-{branch}'] formatted with the metadata *)
Definition event_name_branch (w : world) (m : metadata) : string :=
  event m +:+ "-" +:+ py_str w (name m) +:+ "-" +:+ py_str w (branch m).

(** ['{event}-{name}'] formatted with the metadata *)
Definition event_name (w : world) (m : metadata) : string :=
  event m +:+ "-" +:+ py_str w (name m).

(** [scripts.append(join(hooks, leaf))] for the leaves of one tier, after
    the two [logging.info('Trying: ...')] lines when the tier has them. *)
Definition append_tier (announce : bool) (hooks : json) (leaf : string)
    (scripts : list string) : act (list string) :=
  do _ <- (if announce
           then do _ <- logging INFO (Trying leaf);
                logging INFO (Trying (leaf +:+ "-background"))
           else ret tt);
  do plain <- lift (join_hooks hooks leaf);
  do background <- lift (join_hooks hooks (leaf +:+ "-background"));
  ret (scripts ++ [plain; background]).

(** Lines 171-186: possible hooks. *)
Definition possible_hooks (w : world) (hooks : json) (m : metadata) : act (list string) :=
  do scripts <- (if Py.truthy (branch m) && Py.truthy (name m)
                 then append_tier true hooks (event_name_branch w m) []
                 else ret []);
  do scripts <- (if Py.truthy (name m)
                 then append_tier true hooks (event_name w m) scripts
                 else ret scripts);
  do scripts <- append_tier false hooks (event m) scripts;
  append_tier false hooks "all" scripts.

(** Line 189: [isfile(s) and access(s, X_OK)] *)
Definition runnable (w : world) (s : string) : bool := w_isfile w s && w_access w s.

Definition check_permissions (w : world) (scripts : list string) : list string :=
  filter (fun s => runnable w s = true) scripts.

Definition backgrounded : json := JDict {[ "backgrounded" := JStr "yes" ]}.

Definition finished (code : Z) (out err : string) : json :=
  JDict {[ "returncode" := JInt code; "stdout" := JStr out; "stderr" := JStr err ]}.

(** [Popen([s, file, event, str(name), str(branch)], stdout=PIPE,
    stderr=PIPE)] for the script at position [i].  An argument that holds
    a NUL character is refused with [ValueError] before anything is
    started (the name of the payload file, made by [mkstemp], holds none);
    a file that the system cannot execute gives [OSError]. *)
Definition popen (w : world) (i : nat) (s : string) (file : tmpfile)
    (m : metadata) : act unit :=
  if existsb PyStr.has_nul [s; event m; py_str w (name m); py_str w (branch m)]
  then lift (Raise ValueError)
  else if w_spawn w i s
  then emit (Popen s file (event m) (py_str w (name m)) (py_str w (branch m)))
  else lift (Raise OSError).

(** Lines 202-236: the body of the loop for the script at position [i],
    with [next] temporary files created so far; gives the updated [ran]. *)
Definition run_script (w : world) (payload : json) (m : metadata)
    (shared : tmpfile) (i : nat) (next : nat) (s : string)
    (ran : gmap string json) : act (gmap string json) :=
  if PyStr.endswith "-background" s then
    do _ <- emit (MkStemp next);
    do _ <- emit (Write next payload);
    do _ <- popen w i s next m;
    ret (<[OsPath.basename s := backgrounded]> ran)
  else
    do _ <- popen w i s shared m;
    do _ <- emit (Communicate s);
    let proc := w_communicate w i s in
    do out <- lift (Utf8.decode (stdout proc));
    do err <- lift (Utf8.decode (stderr proc));
    let ran' := <[OsPath.basename s := finished (returncode proc) out err]> ran in
    do _ <- (if negb (returncode proc =? 0)%Z
             then logging ERROR (HookFailed s (returncode proc) (stderr proc))
             else ret tt);
    ret ran'.

(** Number of temporary files one script makes the loop create. *)
Definition files_of (s : string) : nat :=
  if PyStr.endswith "-background" s then 1 else 0.

(** Lines 200-236: [for s in scripts]. *)
Fixpoint run_scripts (w : world) (payload : json) (m : metadata)
    (shared : tmpfile) (i : nat) (next : nat) (scripts : list string)
    (ran : gmap string json) : act (gmap string json) :=
  match scripts with
  | [] => ret ran
  | s :: rest =>
    do ran' <- run_script w payload m shared i next s ran;
    run_scripts w payload m shared (S i) (next + files_of s) rest ran'
  end.

Definition status (s : string) : json := JDict {[ "status" := JStr s ]}.

(** Lines 193-247: dispatch to a non-empty list of scripts. *)
Definition dispatch (w : world) (config payload : json) (m : metadata)
    (scripts : list string) : act response :=
  do _ <- emit (MkStemp 0);
  do _ <- emit (Write 0 payload);
  do ran <- run_scripts w payload m 0 0 1 scripts ∅;
  do _ <- emit (Remove 0);
  do info <- lift (Py.get config "return_scripts_info" (JBool false));
  if negb (Py.truthy info) then ret (Dumps (status "done"))
  else
    do _ <- logging INFO (Output ran);
    ret (DumpsSorted ran).

(** Lines 171-191 and on: resolve the hooks, then run them if there are
    any. *)
Definition resolve_and_dispatch (w : world) (config hooks payload : json)
    (meta : metadata) : act response :=
  do scripts <- possible_hooks w hooks meta;
  let scripts := check_permissions w scripts in
  match scripts with
  | [] => ret (Dumps (status "nop"))
  | _ :: _ => dispatch w config payload meta scripts
  end.

(** Lines 131-247: what happens to a parsed payload of an event other
    than ping. *)
Definition handle_event (w : world) (config hooks : json) (event : string)
    (payload : json) : act response :=
  do branch <- lift (derive_branch event payload);
  do name <- lift (derive_name payload);
  let meta := Metadata name branch event in
  do _ <- logging INFO (MetadataIs meta);
  do skip <- lift (is_push_delete event payload);
  if skip then
    do _ <- logging INFO (Skipping meta);
    ret (Dumps (status "skipped"))
  else resolve_and_dispatch w config hooks payload meta.

(** Lines 117-247: what a request that passed the checks is answered. *)
Definition answer (w : world) (config hooks : json) (r : request) : act response :=
  let event := default "ping" (r_event r) in
  if String.eqb event "ping" then ret (Dumps (JDict {[ "msg" := JStr "pong" ]}))
  else
    do payload <- get_json r;
    handle_event w config hooks event payload.

(** [index()], the handler of [POST /]. *)
Definition index (w : world) (r : request) : act response :=
  if negb (String.eqb (r_method r) "POST") then abort 405
  else
    do config <- lift (load_config w);
    do hooks <- lift (Py.get config "hooks_path" (JStr (OsPath.join (w_path w) "hooks")));
    do _ <- github_ips_only w config r;
    do _ <- enforce_secret config r;
    answer w config hooks r.

(** ** Vocabulary of the statements *)

(** The hooks directory a configuration names. *)
Definition hooks_of (w : world) (cfg : gmap string json) : json :=
  default (JStr (OsPath.join (w_path w) "hooks")) (cfg !! "hooks_path").

(** A [POST] request, a configuration that is a JSON object, and an
    origin check that lets the request through. *)
Record reaches_signature (w : world) (r : request) (cfg : gmap string json)
    : Prop := ReachesSignature {
  rs_method : r_method r = "POST";
  rs_config : load_config w = Ok (JDict cfg);
  rs_origin : snd (github_ips_only w (JDict cfg) r) = Ok tt
}.

(** A request that moreover passes the signature check, names the event
    [ev], which is not a ping, and whose body parses to [payload]: the
    requests that get as far as metadata extraction. *)
Record reaches_extraction (w : world) (r : request) (cfg : gmap string json)
    (ev : string) (payload : json) : Prop := ReachesExtraction {
  re_signature : reaches_signature w r cfg;
  re_secret : snd (enforce_secret (JDict cfg) r) = Ok tt;
  re_event : r_event r = Some ev;
  re_not_ping : ev <> "ping";
  re_json : r_json r = Some payload
}.

(** Entries of a trace that touch neither files nor processes. *)
Definition is_log (e : effect) : bool :=
  match e with
  | Log _ _ => true
  | _ => false
  end.

Definition only_logs (t : list effect) : Prop := Forall (fun e => is_log e = true) t.

(** Scripts started, in order. *)
Definition invoked (t : list effect) : list string :=
  omap (fun e => match e with Popen s _ _ _ _ => Some s | _ => None end) t.

(** Scripts started together with the payload file each was given. *)
Definition launches (t : list effect) : list (string * tmpfile) :=
  omap (fun e => match e with Popen s f _ _ _ => Some (s, f) | _ => None end) t.

(** Scripts waited for. *)
Definition waited (t : list effect) : list string :=
  omap (fun e => match e with Communicate s => Some s | _ => None end) t.

(** Temporary files created, written and removed. *)
Definition created (t : list effect) : list tmpfile :=
  omap (fun e => match e with MkStemp f => Some f | _ => None end) t.

Definition written (t : list effect) : list (tmpfile * json) :=
  omap (fun e => match e with Write f p => Some (f, p) | _ => None end) t.

Definition removed (t : list effect) : list tmpfile :=
  omap (fun e => match e with Remove f => Some f | _ => None end) t.

(** The two file names of one tier: the hook and its backgrounded form. *)
Definition tier (leaf : string) : list string := [leaf; leaf +:+ "-background"].

(** Whether a script is run in the background. *)
Definition is_background (s : string) : bool := PyStr.endswith "-background" s.

(** ** Hooks that print text *)

(** Both outputs of a finished hook are valid UTF-8, so that
    [decode('utf-8')] returns. *)
Definition prints_text (p : completed) : Prop :=
  Utf8.valid (stdout p) = true /\ Utf8.valid (stderr p) = true.

(** Every hook of the list that is waited for prints text; [first] is the
    position of the head of the list. *)
Definition hooks_print_text (w : world) (first : nat) (scripts : list string) : Prop :=
  forall (i : nat) (s : string),
    scripts !! i = Some s -> is_background s = false ->
    prints_text (w_communicate w (first + i) s).

(** ** Hooks that can be started *)

(** [Popen] starts the script at position [i]: no argument holds a NUL
    character and the system executes the file. *)
Definition starts (w : world) (m : metadata) (i : nat) (s : string) : Prop :=
  existsb PyStr.has_nul [s; event m; py_str w (name m); py_str w (branch m)] = false
  /\ w_spawn w i s = true.

(** Every hook of the list can be started; [first] is the position of the
    head of the list. *)
Definition hooks_start (w : world) (m : metadata) (first : nat)
    (scripts : list string) : Prop :=
  forall (i : nat) (s : string), scripts !! i = Some s -> starts w m (first + i) s.

(** What the loop stores in [ran] for the script at position [i]. *)
Definition record_of (w : world) (i : nat) (s : string) : json :=
  if is_background s then backgrounded
  else finished (returncode (w_communicate w i s)) (stdout (w_communicate w i s))
                (stderr (w_communicate w i s)).

(** [ran] after the loop went through [scripts]. *)
Fixpoint records (w : world) (i : nat) (scripts : list string)
    (ran : gmap string json) : gmap string json :=
  match scripts with
  | [] => ran
  | s :: rest => records w (S i) rest (<[OsPath.basename s := record_of w i s]> ran)
  end.

(** Number of backgrounded scripts. *)
Definition backgrounds (scripts : list string) : nat :=
  List.length (List.filter is_background scripts).

(** Scripts that are waited for. *)
Definition foreground (scripts : list string) : list string :=
  List.filter (fun s => negb (is_background s)) scripts.

(** Payload files handed to the backgrounded scripts, in order. *)
Definition background_files (t : list effect) : list tmpfile :=
  snd <$> List.filter (fun sf => is_background (fst sf)) (launches t).

(** What [dispatch] answers after the loop went through [scripts]:
    [done], or the results when the configuration asks for them. *)
Definition done_or_results (w : world) (cfg : gmap string json)
    (scripts : list string) : response :=
  if Py.truthy (default (JBool false) (cfg !! "return_scripts_info"))
  then DumpsSorted (records w 0 scripts ∅)
  else Dumps (status "done").

(** An action or a computation that never ends with [abort]. *)
Definition never_aborts {A} (c : act A) : Prop := forall st, snd c <> Abort st.
Definition no_abort {A} (o : outcome A) : Prop := forall st, o <> Abort st.

(** What the trace of the loop shows when it went through [scripts], the
    shared payload file being file 0 and the files of the backgrounded
    scripts being numbered from 1. *)
Record went_through (w : world) (payload : json) (scripts : list string)
    (loop : list effect) : Prop := WentThrough {
  wt_invoked : invoked loop = scripts;
  wt_waited : waited loop = foreground scripts;
  wt_created : created loop = seq 1 (backgrounds scripts);
  wt_written : written loop = (fun f => (f, payload)) <$> seq 1 (backgrounds scripts);
  wt_removed : removed loop = [];
  wt_background : background_files loop = seq 1 (backgrounds scripts);
  wt_foreground :
    forall s f, (s, f) ∈ launches loop -> is_background s = false -> f = 0%nat;
  wt_failures :
    forall j s, scripts !! j = Some s -> is_background s = false ->
      returncode (w_communicate w j s) <> 0%Z ->
      Log ERROR (HookFailed s (returncode (w_communicate w j s))
                   (stderr (w_communicate w j s))) ∈ loop
}.

(** ** Sample worlds and requests *)

Module Sample.

(** A host whose [config.json] is [config] and whose only runnable files
    are [files]; the system executes every file, and the hook at position
    [i] exits with code [i + 1] after printing [out] and [err]. *)
Definition host (config : json) (files : list string) : world :=
  {| w_path := "/srv/webhooks";
     w_config := Parsed config;
     w_ip_address := fun _ => true;
     w_whitelist := Some ["192.30.252.0/22"];
     w_in_network := fun ip range => String.eqb ip "192.30.252.1";
     w_isfile := fun s => bool_decide (s ∈ files);
     w_access := fun _ => true;
     w_repr := fun _ => "[...]";
     w_spawn := fun _ _ => true;
     w_communicate := fun i _ => Completed (Z.of_nat (S i)) "out" "err" |}.

Definition settings (secret : string) (info : bool) : gmap string json :=
  {[ "github_ips_only" := JBool false;
     "enforce_secret" := JStr secret;
     "return_scripts_info" := JBool info;
     "hooks_path" := JStr "/hooks" ]}.

Definition push_main : gmap string json :=
  {[ "ref" := JStr "refs/heads/main";
     "deleted" := JBool false;
     "repository" := JDict {[ "name" := JStr "repo1" ]} ]}.

Definition push_deleted : gmap string json :=
  {[ "ref" := JStr "refs/heads/main";
     "deleted" := JBool true;
     "repository" := JDict {[ "name" := JStr "repo1" ]} ]}.

Definition post (signature : option string) (event : string) (body : string)
    (payload : option json) : request :=
  {| r_method := "POST";
     r_remote := "192.30.252.1";
     r_signature := signature;
     r_event := Some event;
     r_data := body;
     r_json := payload |}.

(** A push payload as line 167 does not expect it: no [deleted] key. *)
Definition push_without_deleted : gmap string json :=
  {[ "ref" := JStr "refs/heads/main";
     "repository" := JDict {[ "name" := JStr "repo1" ]} ]}.

(** A payload whose [repository] object has no [name]. *)
Definition issue_without_repository_name : gmap string json :=
  {[ "action" := JStr "opened"; "repository" := JDict ∅ ]}.

(** A host with the hooks [push] and [all] in place, where every hook
    waited for prints the single byte 255 and exits with code 0. *)
Definition binary_host : world :=
  {| w_path := "/srv/webhooks";
     w_config := Parsed (JDict (settings "" false));
     w_ip_address := fun _ => true;
     w_whitelist := Some [];
     w_in_network := fun _ _ => false;
     w_isfile := fun s => bool_decide (s ∈ ["/hooks/push"; "/hooks/all"]);
     w_access := fun _ => true;
     w_repr := fun _ => "[...]";
     w_spawn := fun _ _ => true;
     w_communicate := fun _ _ => Completed 0 (String "255" "") "" |}.

End Sample.

(** ** More vocabulary and sample hosts *)

(** A JSON value that is neither text nor a container: what [in] and
    subscription refuse. *)
Definition is_scalar (v : json) : bool :=
  match v with
  | JNull | JBool _ | JInt _ | JFloat _ _ => true
  | JStr _ | JList _ | JDict _ => false
  end.

(** Whether a value is a JSON object, resp. a string. *)
Definition is_object (v : json) : bool :=
  match v with
  | JDict _ => true
  | _ => false
  end.

Definition is_text (v : json) : bool :=
  match v with
  | JStr _ => true
  | _ => false
  end.

(** The answer to a ping. *)
Definition pong : json := JDict {[ "msg" := JStr "pong" ]}.

(** How a process was started: script, payload file and the three
    arguments after it. *)
Definition processes (t : list effect) : list (string * tmpfile * (string * string * string)) :=
  omap (fun e => match e with
                 | Popen s f ev n b => Some (s, f, (ev, n, b))
                 | _ => None
                 end) t.

(** An action that, after log lines, is a dispatch of the configuration
    [cfg] to scripts that passed the permission check. *)
Definition dispatched (w : world) (cfg : gmap string json) (c : act response) : Prop :=
  exists (logs : list effect) (payload : json) (m : metadata) (scripts : list string),
    only_logs logs
    /\ (forall s, s ∈ scripts -> runnable w s = true)
    /\ c = (logs ++ fst (dispatch w (JDict cfg) payload m scripts),
            snd (dispatch w (JDict cfg) payload m scripts)).

(** A host on which every file that passes the permission check can be
    started with the metadata [m]: neither the event, nor [str(name)], nor
    [str(branch)], nor the path of such a file holds a NUL character, and
    the system executes the file. *)
Definition starts_all (w : world) (m : metadata) : Prop :=
  existsb PyStr.has_nul [event m; py_str w (name m); py_str w (branch m)] = false
  /\ forall (i : nat) (s : string),
       runnable w s = true -> PyStr.has_nul s = false /\ w_spawn w i s = true.

Module Cases.

(** A host without [config.json], that knows no address and whose only
    runnable files are [files]; every hook prints nothing and exits with
    code 0. *)
Definition unconfigured (files : list string) : world :=
  {| w_path := "/srv/webhooks";
     w_config := NoFile;
     w_ip_address := fun _ => false;
     w_whitelist := None;
     w_in_network := fun _ _ => false;
     w_isfile := fun s => bool_decide (s ∈ files);
     w_access := fun _ => true;
     w_repr := fun _ => "[...]";
     w_spawn := fun _ _ => true;
     w_communicate := fun _ _ => Completed 0 "" "" |}.

(** A host whose [config.json] holds [config], that takes no text for an
    address. *)
Definition deaf (config : json) : world :=
  {| w_path := "/srv/webhooks";
     w_config := Parsed config;
     w_ip_address := fun _ => false;
     w_whitelist := Some ["192.30.252.0/22"];
     w_in_network := fun _ _ => true;
     w_isfile := fun _ => false;
     w_access := fun _ => true;
     w_repr := fun _ => "[...]";
     w_spawn := fun _ _ => true;
     w_communicate := fun _ _ => Completed 0 "" "" |}.

(** A request from an address outside the published ranges. *)
Definition stranger (signature : option string) (event : option string)
    (payload : option json) : request :=
  {| r_method := "POST";
     r_remote := "203.0.113.7";
     r_signature := signature;
     r_event := event;
     r_data := "(body)";
     r_json := payload |}.

(** A host like [Sample.host], on which the system executes no file:
    every file that passes the permission check fails to start. *)
Definition without_exec (config : json) (files : list string) : world :=
  {| w_path := "/srv/webhooks";
     w_config := Parsed config;
     w_ip_address := fun _ => true;
     w_whitelist := Some ["192.30.252.0/22"];
     w_in_network := fun ip range => String.eqb ip "192.30.252.1";
     w_isfile := fun s => bool_decide (s ∈ files);
     w_access := fun _ => true;
     w_repr := fun _ => "[...]";
     w_spawn := fun _ _ => false;
     w_communicate := fun i _ => Completed (Z.of_nat (S i)) "out" "err" |}.

(** A push that marks its ref as deleted, the ref being a bare name. *)
Definition push_deleted_bare_ref : gmap string json :=
  {[ "ref" := JStr "main";
     "deleted" := JBool true;
     "repository" := JDict {[ "name" := JStr "repo1" ]} ]}.

(** A push to [main] of a repository whose name holds a NUL character. *)
Definition push_nul_name : gmap string json :=
  {[ "ref" := JStr "refs/heads/main";
     "deleted" := JBool false;
     "repository" := JDict {[ "name" := JStr (String "r" (String Ascii.zero "")) ]} ]}.

(** A pushed tag. *)
Definition push_tag : gmap string json :=
  {[ "ref" := JStr "refs/tags/v1";
     "deleted" := JBool false;
     "repository" := JDict {[ "name" := JStr "repo1" ]} ]}.

(** A push whose [ref] is a bare name. *)
Definition push_bare_ref : gmap string json :=
  {[ "ref" := JStr "main";
     "deleted" := JBool false;
     "repository" := JDict {[ "name" := JStr "repo1" ]} ]}.

(** A pull request against [main]. *)
Definition pull_request_to_main : gmap string json :=
  {[ "action" := JStr "opened";
     "pull_request" :=
       JDict {[ "base" := JDict {[ "ref" := JStr "main" ]};
                "head" := JDict {[ "ref" := JStr "feature" ]} ]} ]}.

(** A created branch. *)
Definition create_branch : gmap string json :=
  {[ "ref_type" := JStr "branch"; "ref" := JStr "dev" ]}.

End Cases.

(** * Checks of the embedding on known values *)

Module Checks.

Example split_ref : PyStr.split "/" (Some 2) "refs/heads/foo/bar" = ["refs"; "heads"; "foo/bar"].
Proof. reflexivity. Qed.

Example split_short_ref : PyStr.split "/" (Some 2) "main" = ["main"].
Proof. reflexivity. Qed.

Example split_header : PyStr.split "=" None "sha1=abc=def" = ["sha1"; "abc"; "def"].
Proof. reflexivity. Qed.

Example split_empty : PyStr.split "=" None "" = [""].
Proof. reflexivity. Qed.

Example join_paths :
  OsPath.join "/hooks" "push" = "/hooks/push"
  /\ OsPath.join "/hooks/" "push" = "/hooks/push"
  /\ OsPath.join "/hooks" "/bin/ls" = "/bin/ls"
  /\ OsPath.join "" "push" = "push".
Proof. repeat split; reflexivity. Qed.

Example basenames :
  OsPath.basename "/hooks/push-repo1-feature/x" = "x"
  /\ OsPath.basename "push" = "push"
  /\ OsPath.basename "/hooks/" = "".
Proof. repeat split; reflexivity. Qed.

Example endings :
  PyStr.endswith "-background" "/hooks/push-background" = true
  /\ PyStr.endswith "-background" "/hooks/push" = false
  /\ PyStr.endswith "-background" "d" = false.
Proof. repeat split; reflexivity. Qed.

Example numbers : PyStr.of_Z 0 = "0" /\ PyStr.of_Z (-12) = "-12" /\ PyStr.of_Z 305 = "305".
Proof. repeat split; reflexivity. Qed.

Example truth :
  Py.truthy (JDict ∅) = false /\ Py.truthy (JDict {[ "a" := JNull ]}) = true
  /\ Py.truthy (JStr "") = false /\ Py.truthy (JInt 0) = false
  /\ Py.truthy (JStr "yes") = true.
Proof. repeat split; vm_compute; reflexivity. Qed.

(** FIPS 180 and RFC 2202 style test vectors. *)
Example sha1_abc :
  Sha1.hex (Sha1.digest (Sha1.bytes_of_string "abc"))
  = "a9993e364706816aba3e25717850c26c9cd0d89d".
Proof. vm_compute. reflexivity. Qed.

Example sha1_empty : Sha1.hex (Sha1.digest []) = "da39a3ee5e6b4b0d3255bfef95601890afd80709".
Proof. vm_compute. reflexivity. Qed.

Example sha1_two_blocks :
  Sha1.hex (Sha1.digest (Sha1.bytes_of_string
    "abcdbcdecdefdefgefghfghighijhijkijkljklmklmnlmnomnopnopq"))
  = "84983e441c3bd26ebaae4aa1f95129e5e54670f1".
Proof. vm_compute. reflexivity. Qed.

Example hmac_fox :
  Hmac.hexdigest "key" "The quick brown fox jumps over the lazy dog"
  = "de7c9b85b8b78aa6bc8a7a36f70a90701c9db4d9".
Proof. vm_compute. reflexivity. Qed.

Example hmac_empty : Hmac.hexdigest "" "" = "fbdb1d1b18aa6c08324b7d64b71fb76370690e1d".
Proof. vm_compute. reflexivity. Qed.

(** RFC 2202, test case 6: a key longer than one block is hashed first. *)
Example hmac_long_key :
  Sha1.hex (Hmac.digest (replicate 80 0xaa%Z)
              (Sha1.bytes_of_string "Test Using Larger Than Block-Size Key - Hash Key First"))
  = "aa4ae5e15272d00e95705637ce8a3b55ed402112".
Proof. vm_compute. reflexivity. Qed.

Example utf8 :
  Utf8.valid_bytes [0x63; 0xC3; 0xA9]%Z = true
  /\ Utf8.valid_bytes [0xE2; 0x82; 0xAC]%Z = true
  /\ Utf8.valid_bytes [0xF0; 0x9F; 0x98; 0x80]%Z = true
  /\ Utf8.valid_bytes [0xC0; 0x80]%Z = false
  /\ Utf8.valid_bytes [0xED; 0xA0; 0x80]%Z = false
  /\ Utf8.valid_bytes [0xF4; 0x90; 0x80; 0x80]%Z = false
  /\ Utf8.valid_bytes [0xE2; 0x82]%Z = false
  /\ Utf8.valid_bytes [0xFF]%Z = false.
Proof. repeat split; reflexivity. Qed.

(** A ping is answered before the body is looked at. *)
Example ping :
  index (Sample.host (JDict (Sample.settings "" false)) ["/hooks/all"])
        (Sample.post None "ping" "(body)" None)
  = ([], Ok (Dumps (JDict {[ "msg" := JStr "pong" ]}))).
Proof. vm_compute. reflexivity. Qed.

(** A request without the event header is a ping. *)
Example no_event_header :
  snd (index (Sample.host (JDict (Sample.settings "" false)) ["/hooks/all"])
         {| r_method := "POST"; r_remote := "192.30.252.1"; r_signature := None;
            r_event := None; r_data := "(body)"; r_json := None |})
  = Ok (Dumps (JDict {[ "msg" := JStr "pong" ]})).
Proof. vm_compute. reflexivity. Qed.

(** Without [config.json] the hooks directory is [/missing]: nothing to
    run. *)
Example no_config_file :
  snd (index {| w_path := "/srv/webhooks"; w_config := NoFile;
                w_ip_address := fun _ => true; w_whitelist := None;
                w_in_network := fun _ _ => false;
                w_isfile := fun s => String.prefix "/hooks/" s;
                w_access := fun _ => true; w_repr := fun _ => "";
                w_spawn := fun _ _ => true;
                w_communicate := fun _ _ => Completed 0 "" "" |}
             (Sample.post None "push" "(body)" (Some (JDict Sample.push_main))))
  = Ok (Dumps (status "nop")).
Proof. vm_compute. reflexivity. Qed.

(** The branch of a pull request is its base, whatever the head. *)
Example pull_request_base :
  derive_branch "pull_request"
    (JDict {[ "pull_request" :=
                JDict {[ "base" := JDict {[ "ref" := JStr "main" ]};
                         "head" := JDict {[ "ref" := JStr "feature" ]} ]} ]})
  = Ok (JStr "main").
Proof. vm_compute. reflexivity. Qed.

(** A created tag has no branch; a created branch has. *)
Example create_events :
  derive_branch "create" (JDict {[ "ref_type" := JStr "tag"; "ref" := JStr "v1" ]})
  = Ok JNull
  /\ derive_branch "create" (JDict {[ "ref_type" := JStr "branch"; "ref" := JStr "dev" ]})
  = Ok (JStr "dev").
Proof. split; vm_compute; reflexivity. Qed.

(** Only [push-repo1] in place: it alone is started, on the shared file,
    and waited for; its exit code and output are the answer. *)
Example only_push_repo1 :
  index (Sample.host (JDict (Sample.settings "" true)) ["/hooks/push-repo1"])
        (Sample.post None "push" "(body)" (Some (JDict Sample.push_main)))
  = ([Log INFO (MetadataIs (Metadata (JStr "repo1") (JStr "main") "push"));
      Log INFO (Trying "push-repo1-main");
      Log INFO (Trying "push-repo1-main-background");
      Log INFO (Trying "push-repo1");
      Log INFO (Trying "push-repo1-background");
      MkStemp 0; Write 0 (JDict Sample.push_main);
      Popen "/hooks/push-repo1" 0 "push" "repo1" "main";
      Communicate "/hooks/push-repo1";
      Log ERROR (HookFailed "/hooks/push-repo1" 1 "err");
      Remove 0;
      Log INFO (Output {[ "push-repo1" := finished 1 "out" "err" ]})],
     Ok (DumpsSorted {[ "push-repo1" := finished 1 "out" "err" ]})).
Proof. vm_compute. reflexivity. Qed.

(** A payload without [repository]: the name is [None], which is what the
    hooks are told. *)
Example no_repository :
  invoked (fst (index (Sample.host (JDict (Sample.settings "" false)) ["/hooks/all"])
     (Sample.post None "fork" "(body)" (Some (JDict {[ "forkee" := JNull ]})))))
  = ["/hooks/all"]
  /\ launches (fst (index (Sample.host (JDict (Sample.settings "" false)) ["/hooks/all"])
     (Sample.post None "fork" "(body)" (Some (JDict {[ "forkee" := JNull ]})))))
  = [("/hooks/all", 0%nat)].
Proof. split; vm_compute; reflexivity. Qed.

(** A repository name that holds a NUL character: [Popen] refuses the
    arguments of [all] with [ValueError]; the shared file was made and
    written, no hook was started and the file is not removed. *)
Example nul_in_name :
  index (Sample.host (JDict (Sample.settings "" false)) ["/hooks/all"])
        (Sample.post None "push" "(body)" (Some (JDict Cases.push_nul_name)))
  = ([Log INFO (MetadataIs (Metadata (JStr (String "r" (String Ascii.zero "")))
                                     (JStr "main") "push"));
      Log INFO (Trying (String "p" (String "u" (String "s" (String "h" (String "-"
                 (String "r" (String Ascii.zero (String "-" "main")))))))));
      Log INFO (Trying (String "p" (String "u" (String "s" (String "h" (String "-"
                 (String "r" (String Ascii.zero (String "-" "main-background")))))))));
      Log INFO (Trying (String "p" (String "u" (String "s" (String "h" (String "-"
                 (String "r" (String Ascii.zero ""))))))));
      Log INFO (Trying (String "p" (String "u" (String "s" (String "h" (String "-"
                 (String "r" (String Ascii.zero "-background"))))))));
      MkStemp 0; Write 0 (JDict Cases.push_nul_name)],
     Raise ValueError).
Proof. vm_compute. reflexivity. Qed.

(** A hook that passed the permission check and that the system does not
    execute: [Popen] raises [OSError], with the shared file left behind. *)
Example not_executed :
  index (Cases.without_exec (JDict (Sample.settings "" false)) ["/hooks/all"])
        (Sample.post None "fork" "(body)" (Some (JDict ∅)))
  = ([Log INFO (MetadataIs (Metadata JNull JNull "fork"));
      MkStemp 0; Write 0 (JDict ∅)],
     Raise OSError).
Proof. vm_compute. reflexivity. Qed.

(** A backgrounded hook that cannot be started leaves its own file
    behind as well. *)
Example background_not_executed :
  index (Cases.without_exec (JDict (Sample.settings "" false)) ["/hooks/all-background"])
        (Sample.post None "fork" "(body)" (Some (JDict ∅)))
  = ([Log INFO (MetadataIs (Metadata JNull JNull "fork"));
      MkStemp 0; Write 0 (JDict ∅); MkStemp 1; Write 1 (JDict ∅)],
     Raise OSError).
Proof. vm_compute. reflexivity. Qed.

End Checks.

(** ** Suffixes and base names *)

Module PathFacts.

Lemma app_cons (c : ascii) (s t : string) : String c s +:+ t = String c (s +:+ t).
Proof. reflexivity. Qed.

Lemma app_nil (t : string) : "" +:+ t = t.
Proof. reflexivity. Qed.

Lemma app_empty (s : string) : s +:+ "" = s.
Proof. induction s as [|c s IH]; [reflexivity | now rewrite app_cons, IH]. Qed.

Lemma app_assoc (a b c : string) : (a +:+ b) +:+ c = a +:+ (b +:+ c).
Proof. induction a as [|x a IH]; [reflexivity | now rewrite !app_cons, IH]. Qed.

Lemma length_app (a b : string) :
  String.length (a +:+ b) = (String.length a + String.length b)%nat.
Proof. induction a as [|x a IH]; [reflexivity | rewrite app_cons; simpl; now rewrite IH]. Qed.

Lemma count_app (c : ascii) (a b : string) :
  PyStr.count c (a +:+ b) = (PyStr.count c a + PyStr.count c b)%nat.
Proof.
  induction a as [|x a IH]; [reflexivity | rewrite app_cons; simpl; rewrite IH; lia].
Qed.

Lemma substring_whole (s : string) : String.substring 0 (String.length s) s = s.
Proof. induction s as [|c s IH]; simpl; [reflexivity | now rewrite IH]. Qed.

Lemma substring_after (p q : string) :
  String.substring (String.length p) (String.length q) (p +:+ q) = q.
Proof.
  induction p as [|c p IH]; [apply substring_whole | rewrite app_cons; exact IH].
Qed.

Lemma cut_at (s : string) :
  forall m : nat, (m <= String.length s)%nat ->
  s = String.substring 0 m s +:+ String.substring m (String.length s - m) s.
Proof.
  induction s as [|c s IH]; intros [|m] Hm; simpl in *; try lia; try reflexivity.
  - now rewrite substring_whole.
  - rewrite app_cons. f_equal. apply IH. lia.
Qed.

(** [s.endswith(suffix)] says that [s] is something followed by
    [suffix]. *)
Lemma endswith_spec (suffix s : string) :
  PyStr.endswith suffix s = true <-> exists p, s = p +:+ suffix.
Proof.
  unfold PyStr.endswith. split.
  - remember (String.length suffix) as k eqn:Hk.
    destruct (Nat.ltb_spec (String.length s) k) as [|Hle]; [discriminate|].
    intros Heq. apply String.eqb_eq in Heq.
    exists (String.substring 0 (String.length s - k) s).
    pose proof (cut_at s (String.length s - k)) as Hcut.
    replace (String.length s - (String.length s - k))%nat with k in Hcut by lia.
    rewrite Heq in Hcut. apply Hcut. lia.
  - intros [p ->]. rewrite length_app.
    destruct (Nat.ltb_spec (String.length p + String.length suffix)
                (String.length suffix)) as [|_]; [lia|].
    replace (String.length p + String.length suffix - String.length suffix)%nat
      with (String.length p) by lia.
    rewrite substring_after. apply String.eqb_refl.
Qed.

(** Two ways of cutting one string: one of the two tails ends the
    other. *)
Lemma two_cuts (pre : string) :
  forall rest p suffix : string,
  pre +:+ rest = p +:+ suffix ->
  (exists y, rest = y +:+ suffix)
  \/ (exists z, suffix = z +:+ rest /\ pre = p +:+ z /\ z <> "").
Proof.
  induction pre as [|c pre IH]; intros rest p suffix Heq.
  - left. now exists p.
  - destruct p as [|c' p]; rewrite ?app_cons, ?app_nil in Heq.
    + right. exists (String c pre). repeat split; [now rewrite <- Heq | discriminate].
    + injection Heq as -> Heq. destruct (IH _ _ _ Heq) as [?|(z & Hs & Hp & Hz)];
        [now left|].
      right. exists z. repeat split; [assumption | now rewrite Hp, app_cons | assumption].
Qed.

Lemma tail_of_slash (p : string) :
  forall x z : string, p +:+ z = x +:+ "/" -> z <> "" -> (1 <= PyStr.count "/" z)%nat.
Proof.
  induction p as [|c p IH]; intros x z Heq Hz; rewrite ?app_cons, ?app_nil in Heq.
  - subst z. rewrite count_app. simpl. lia.
  - destruct x as [|c' x]; rewrite ?app_cons, ?app_nil in Heq.
    + injection Heq as _ Heq. destruct p; [|discriminate].
      rewrite app_nil in Heq. contradiction.
    + injection Heq as _ Heq. exact (IH _ _ Heq Hz).
Qed.

(** What precedes a slash does not matter to a suffix without slashes. *)
Lemma endswith_after_slash (suffix x rest : string) :
  PyStr.count "/" suffix = 0%nat ->
  PyStr.endswith suffix (x +:+ String "/" rest) = PyStr.endswith suffix rest.
Proof.
  intros Hfree. apply eq_true_iff_eq. rewrite !endswith_spec. split.
  - intros [p Heq].
    change (x +:+ String "/" rest) with (x +:+ ("/" +:+ rest)) in Heq.
    rewrite <- app_assoc in Heq.
    destruct (two_cuts _ _ _ _ Heq) as [?|(z & Hs & Hp & Hz)]; [assumption|].
    exfalso. pose proof (tail_of_slash _ _ _ (eq_sym Hp) Hz) as Hslash.
    rewrite Hs, count_app in Hfree. lia.
  - intros [p ->]. exists (x +:+ String "/" p).
    rewrite app_assoc. reflexivity.
Qed.

Lemma basename_from_ends (suffix : string) :
  PyStr.count "/" suffix = 0%nat ->
  forall s piece : string,
  PyStr.endswith suffix (OsPath.basename_from piece s)
  = PyStr.endswith suffix (piece +:+ s).
Proof.
  intros Hfree. induction s as [|c s IH]; intros piece; simpl.
  - now rewrite app_empty.
  - destruct (Ascii.eqb_spec c "/") as [->|_].
    + rewrite IH, app_nil. symmetry. now apply endswith_after_slash.
    + rewrite IH, app_assoc. reflexivity.
Qed.

(** A path ends in [-background] exactly when its base name does. *)
Lemma basename_background (s : string) :
  PyStr.endswith "-background" (OsPath.basename s) = PyStr.endswith "-background" s.
Proof. unfold OsPath.basename. now rewrite basename_from_ends. Qed.

End PathFacts.

(** * Properties *)

(** ** Splitting *)

Module PyStrFacts.

Lemma split_nonempty sep maxsplit s : PyStr.split sep maxsplit s <> [].
Proof.
  revert maxsplit; induction s as [|c s IH]; intros [[|n]|]; simpl; try discriminate.
  - destruct (Ascii.eqb c sep); [discriminate|].
    destruct (PyStr.split sep (Some (S n)) s); discriminate.
  - destruct (Ascii.eqb c sep); [discriminate|].
    destruct (PyStr.split sep None s); discriminate.
Qed.

(** An unlimited split gives one piece more than there are separators. *)
Lemma split_length sep s :
  List.length (PyStr.split sep None s) = S (PyStr.count sep s).
Proof.
  induction s as [|c s IH]; simpl; [reflexivity|].
  destruct (Ascii.eqb c sep); simpl.
  - now rewrite IH.
  - pose proof (split_nonempty sep None s) as Hne.
    destruct (PyStr.split sep None s); [contradiction|]. simpl in *. lia.
Qed.

(** A limited split never gives more than [maxsplit + 1] pieces. *)
Lemma split_length_le sep n s :
  (List.length (PyStr.split sep (Some n) s) <= S n)%nat.
Proof.
  revert n; induction s as [|c s IH]; intros [|n]; simpl; try lia.
  destruct (Ascii.eqb c sep); simpl.
  - specialize (IH n). lia.
  - pose proof (split_nonempty sep (Some (S n)) s) as Hne.
    specialize (IH (S n)).
    destruct (PyStr.split sep (Some (S n)) s); [contradiction|]. simpl in *. lia.
Qed.

(** Splitting stops at the first separator after a piece without one. *)
Lemma split_piece sep n piece rest :
  PyStr.count sep piece = 0%nat ->
  PyStr.split sep (Some (S n)) (piece +:+ String sep rest)
  = piece :: PyStr.split sep (Some n) rest.
Proof.
  induction piece as [|c piece IH]; simpl; intros Hfree.
  - now rewrite Ascii.eqb_refl.
  - destruct (Ascii.eqb c sep); [discriminate|].
    now rewrite IH.
Qed.

(** With [maxsplit = 2] the third piece is everything after the second
    separator, further separators included. *)
Lemma split_twice sep first second rest :
  PyStr.count sep first = 0%nat -> PyStr.count sep second = 0%nat ->
  PyStr.split sep (Some 2) (first +:+ String sep (second +:+ String sep rest))
  = [first; second; rest].
Proof.
  intros H1 H2. rewrite split_piece by assumption.
  rewrite split_piece by assumption. now destruct rest.
Qed.

End PyStrFacts.

(** ** Branch of a push event *)

Section PushBranch.

Variable fields : gmap string json.
Hypothesis no_ref_type : fields !! "ref_type" = None.
Hypothesis no_pull_request : fields !! "pull_request" = None.

(** A push payload without [ref_type] and [pull_request] reaches line
    148, whatever else it carries. *)
Lemma push_branch_line_148 :
  derive_branch "push" (JDict fields)
  = except_KeyError
      (let? ref := Py.getitem (JDict fields) "ref" in
       let? pieces := Py.split ref "/" 2 in
       Py.item pieces 2)
      (Ok JNull).
Proof.
  unfold derive_branch. simpl.
  rewrite no_ref_type, no_pull_request.
  rewrite !bool_decide_eq_false_2 by (intros [? ?]; discriminate).
  reflexivity.
Qed.

(** The branch is what follows the second slash. *)
Lemma push_branch_after_second_slash first second rest :
  PyStr.count "/" first = 0%nat -> PyStr.count "/" second = 0%nat ->
  fields !! "ref" = Some (JStr (first +:+ String "/" (second +:+ String "/" rest))) ->
  derive_branch "push" (JDict fields) = Ok (JStr rest).
Proof.
  intros H1 H2 Href. rewrite push_branch_line_148. simpl. rewrite Href. simpl.
  rewrite PyStrFacts.split_twice by assumption. reflexivity.
Qed.

End PushBranch.

(** C1, as stated, fails: for the payload [{"ref": "refs/heads/foo/bar"}]
    of a push event the derived branch is not ["foo"]. *)
Lemma push_branch_foo_bar_is_not_foo :
  ~ (forall fields : gmap string json,
       fields !! "ref_type" = None -> fields !! "pull_request" = None ->
       fields !! "ref" = Some (JStr "refs/heads/foo/bar") ->
       derive_branch "push" (JDict fields) = Ok (JStr "foo")).
Proof.
  intros H.
  specialize (H {[ "ref" := JStr "refs/heads/foo/bar" ]}).
  assert (derive_branch "push" (JDict {[ "ref" := JStr "refs/heads/foo/bar" ]})
          = Ok (JStr "foo/bar")) as E by (vm_compute; reflexivity).
  rewrite E in H.
  assert (Ok (JStr "foo/bar") = Ok (JStr "foo")) as Heq
    by (apply H; vm_compute; reflexivity).
  discriminate Heq.
Qed.

(** C1, amended: for every push event whose payload carries no [ref_type]
    and no [pull_request] field and whose [ref] is ["refs/heads/foo/bar"],
    the derived branch is ["foo/bar"], all that follows the second slash:
    [split('/', 2)] cuts at most twice, so it never returns more than three
    pieces, however many slashes the ref has. *)
Theorem push_branch_keeps_later_slashes (fields : gmap string json) :
  fields !! "ref_type" = None -> fields !! "pull_request" = None ->
  fields !! "ref" = Some (JStr "refs/heads/foo/bar") ->
  derive_branch "push" (JDict fields) = Ok (JStr "foo/bar")
  /\ forall ref : string, (List.length (PyStr.split "/" (Some 2) ref) <= 3)%nat.
Proof.
  intros Hrt Hpr Href. split.
  - apply (push_branch_after_second_slash fields Hrt Hpr "refs" "heads" "foo/bar");
      [reflexivity | reflexivity | exact Href].
  - intros ref. apply PyStrFacts.split_length_le.
Qed.

Lemma push_branch_keeps_later_slashes_witness :
  derive_branch "push" (JDict {[ "ref" := JStr "refs/heads/foo/bar" ]}) = Ok (JStr "foo/bar")
  /\ forall ref : string, (List.length (PyStr.split "/" (Some 2) ref) <= 3)%nat.
Proof.
  apply (push_branch_keeps_later_slashes {[ "ref" := JStr "refs/heads/foo/bar" ]});
    vm_compute; reflexivity.
Defined.


(** ** Actions *)

Lemma bind_Ok {A B} (t : list effect) (a : A) (k : A -> act B) :
  bind (t, Ok a) k = (t ++ fst (k a), snd (k a)).
Proof. unfold bind. now destruct (k a). Qed.

Lemma bind_lift_Ok {A B} (a : A) (k : A -> act B) : bind (lift (Ok a)) k = k a.
Proof. unfold lift. rewrite bind_Ok. now destruct (k a). Qed.

Lemma bind_ret {A B} (a : A) (k : A -> act B) : bind (ret a) k = k a.
Proof. apply bind_lift_Ok. Qed.

Lemma bind_nil_Ok {A B} (a : A) (k : A -> act B) : bind ([], Ok a) k = k a.
Proof. apply bind_lift_Ok. Qed.

Lemma bind_emit {B} (e : effect) (k : unit -> act B) :
  bind (emit e) k = (e :: fst (k tt), snd (k tt)).
Proof. unfold emit. now rewrite bind_Ok. Qed.

Lemma bind_Abort {A B} (t : list effect) (st : Z) (k : A -> act B) :
  bind (t, Abort st) k = (t, Abort st).
Proof. reflexivity. Qed.

Lemma bind_Raise {A B} (t : list effect) (e : exn) (k : A -> act B) :
  bind (t, Raise e) k = (t, Raise e).
Proof. reflexivity. Qed.

(** ** Requests that get as far as the signature check *)

(** The checks leave no trace when they let a request through. *)
Lemma check_origin_silent w r : snd (check_origin w r) = Ok tt -> check_origin w r = ret tt.
Proof.
  unfold check_origin. destruct (w_ip_address w (r_remote r)); [|discriminate].
  destruct (w_whitelist w) as [whitelist|]; [|discriminate].
  destruct (existsb _ whitelist); [reflexivity | discriminate].
Qed.

Lemma github_ips_only_silent w config r :
  snd (github_ips_only w config r) = Ok tt -> github_ips_only w config r = ret tt.
Proof.
  unfold github_ips_only.
  destruct (Py.get config "github_ips_only" (JBool true)) as [enabled| |]; try discriminate.
  rewrite bind_lift_Ok. destruct (Py.truthy enabled); [apply check_origin_silent | reflexivity].
Qed.

Lemma check_signature_silent secret r :
  snd (check_signature secret r) = Ok tt -> check_signature secret r = ret tt.
Proof.
  unfold check_signature. destruct (r_signature r) as [header|]; [|discriminate].
  destruct (PyStr.split "=" None header) as [|sha_name [|signature [|? ?]]]; try discriminate.
  destruct (negb (String.eqb sha_name "sha1")); [discriminate|].
  destruct (bytes_utf8 secret) as [key| |]; try discriminate. rewrite bind_lift_Ok.
  destruct (constant_time_compare _ signature) as [same| |]; try discriminate.
  rewrite bind_lift_Ok. destruct same; [reflexivity | discriminate].
Qed.

Lemma enforce_secret_silent config r :
  snd (enforce_secret config r) = Ok tt -> enforce_secret config r = ret tt.
Proof.
  unfold enforce_secret.
  destruct (Py.get config "enforce_secret" (JStr "")) as [secret| |]; try discriminate.
  rewrite bind_lift_Ok. destruct (Py.truthy secret); [apply check_signature_silent | reflexivity].
Qed.

Lemma index_reaches_signature w r cfg :
  reaches_signature w r cfg ->
  index w r
  = bind (enforce_secret (JDict cfg) r) (fun _ =>
      answer w (JDict cfg) (hooks_of w cfg) r).
Proof.
  intros [Hm Hc Ho]. unfold index. rewrite Hm. simpl negb. cbv iota.
  rewrite Hc, bind_lift_Ok. simpl Py.get. rewrite bind_lift_Ok.
  rewrite (github_ips_only_silent _ _ _ Ho). now rewrite bind_ret.
Qed.

Lemma index_reaches_extraction w r cfg ev payload :
  reaches_extraction w r cfg ev payload ->
  index w r = handle_event w (JDict cfg) (hooks_of w cfg) ev payload.
Proof.
  intros [Hsig Hsec Hev Hping Hjson].
  rewrite (index_reaches_signature _ _ _ Hsig), (enforce_secret_silent _ _ Hsec), bind_ret.
  unfold answer. rewrite Hev. simpl default.
  destruct (String.eqb_spec ev "ping"); [contradiction|].
  unfold get_json. rewrite Hjson. now rewrite bind_ret.
Qed.

(** ** Hexadecimal digests *)

Module HexFacts.

Lemma land_byte (x : Z) : (0 <= Z.land x 0xFF < 256)%Z.
Proof.
  change 0xFF%Z with (Z.ones 8). rewrite Z.land_ones by lia.
  apply Z.mod_pos_bound. lia.
Qed.

Lemma be_bytes_range (n : nat) (x : Z) :
  Forall (fun b => 0 <= b < 256)%Z (Sha1.be_bytes n x).
Proof.
  revert x; induction n as [|n IH]; intros x; simpl; [constructor|].
  apply Forall_app; split; [apply IH|].
  constructor; [apply land_byte | constructor].
Qed.

Lemma digest_range (msg : list Z) : Forall (fun b => 0 <= b < 256)%Z (Sha1.digest msg).
Proof.
  unfold Sha1.digest. rewrite !Forall_app. repeat split; apply be_bytes_range.
Qed.

Lemma nibbles (b : Z) :
  (0 <= b < 256)%Z -> (0 <= Z.shiftr b 4 < 16)%Z /\ (0 <= Z.land b 0xF < 16)%Z.
Proof.
  intros Hb. split.
  - rewrite Z.shiftr_div_pow2 by lia. change (2 ^ 4)%Z with 16%Z.
    split; [apply Z.div_pos; lia | apply Z.div_lt_upper_bound; lia].
  - change 0xF%Z with (Z.ones 4). rewrite Z.land_ones by lia.
    apply Z.mod_pos_bound. lia.
Qed.

(** A hexadecimal digit is an ASCII character other than ['=']. *)
Lemma hex_digit_plain (x : Z) :
  (0 <= x < 16)%Z ->
  (N_of_ascii (Sha1.hex_digit x) <? 128)%N = true
  /\ Ascii.eqb (Sha1.hex_digit x) "=" = false.
Proof.
  intros Hx.
  assert (x = 0 \/ x = 1 \/ x = 2 \/ x = 3 \/ x = 4 \/ x = 5 \/ x = 6 \/ x = 7
          \/ x = 8 \/ x = 9 \/ x = 10 \/ x = 11 \/ x = 12 \/ x = 13 \/ x = 14
          \/ x = 15)%Z as Hcases by lia.
  repeat (destruct Hcases as [-> | Hcases]; [split; reflexivity|]).
  subst x; split; reflexivity.
Qed.

Lemma hex_plain (bs : list Z) :
  Forall (fun b => 0 <= b < 256)%Z bs ->
  PyStr.isascii (Sha1.hex bs) = true /\ PyStr.count "=" (Sha1.hex bs) = 0%nat.
Proof.
  induction 1 as [|b bs Hb _ [IHa IHc]]; [split; reflexivity|].
  destruct (nibbles b Hb) as [Hhi Hlo].
  destruct (hex_digit_plain _ Hhi) as [Ha1 He1].
  destruct (hex_digit_plain _ Hlo) as [Ha2 He2].
  cbn [Sha1.hex PyStr.isascii PyStr.count].
  rewrite Ha1, Ha2, He1, He2, IHa, IHc. split; reflexivity.
Qed.

(** What [hexdigest()] returns is ASCII and holds no ['=']. *)
Lemma hexdigest_plain (key msg : string) :
  PyStr.isascii (Hmac.hexdigest key msg) = true
  /\ PyStr.count "=" (Hmac.hexdigest key msg) = 0%nat.
Proof. unfold Hmac.hexdigest, Hmac.digest. apply hex_plain, digest_range. Qed.

End HexFacts.

(** ** Comparing digests *)

Lemma ascii_xor_zero (x y : ascii) : N.lxor (N_of_ascii x) (N_of_ascii y) = 0%N <-> x = y.
Proof.
  rewrite N.lxor_eq_0_iff. split; [|now intros ->].
  intros H. rewrite <- (ascii_N_embedding x), <- (ascii_N_embedding y). now rewrite H.
Qed.

Lemma zip_differences_zero (val1 val2 : string) (result : N) :
  String.length val1 = String.length val2 ->
  zip_differences val1 val2 result = 0%N <-> result = 0%N /\ val1 = val2.
Proof.
  revert val2 result; induction val1 as [|x rest1 IH];
    intros [|y rest2] result Hlen; simpl in *; try discriminate.
  - tauto.
  - injection Hlen as Hlen. rewrite (IH _ _ Hlen), N.lor_eq_0_iff, ascii_xor_zero.
    split.
    + intros [[-> ->] ->]. tauto.
    + intros [-> Heq]. injection Heq as -> ->. tauto.
Qed.

(** The loop of the older Pythons decides equality of the two strings,
    like [hmac.compare_digest] does. *)
Lemma constant_time_compare_legacy_eqb (val1 val2 : string) :
  constant_time_compare_legacy val1 val2 = String.eqb val1 val2.
Proof.
  unfold constant_time_compare_legacy.
  destruct (Nat.eqb_spec (String.length val1) (String.length val2)) as [Hlen|Hlen]; simpl.
  - destruct (String.eqb_spec val1 val2) as [->|Hne].
    + apply N.eqb_eq, zip_differences_zero; auto.
    + apply N.eqb_neq. rewrite zip_differences_zero by assumption. tauto.
  - symmetry. apply String.eqb_neq. intros ->. contradiction.
Qed.

Lemma constant_time_compare_ascii (val1 val2 : string) :
  PyStr.isascii val1 = true -> PyStr.isascii val2 = true ->
  constant_time_compare val1 val2 = Ok (constant_time_compare_legacy val1 val2).
Proof.
  intros H1 H2. unfold constant_time_compare.
  now rewrite H1, H2, constant_time_compare_legacy_eqb.
Qed.

(** ** The signature check *)

Module SplitFacts.

Lemma split_free sep s : PyStr.count sep s = 0%nat -> PyStr.split sep None s = [s].
Proof.
  induction s as [|c s IH]; simpl; [reflexivity|].
  destruct (Ascii.eqb c sep); [discriminate|].
  intros H. now rewrite IH.
Qed.

Lemma split_head sep piece rest :
  PyStr.count sep piece = 0%nat ->
  PyStr.split sep None (piece +:+ String sep rest) = piece :: PyStr.split sep None rest.
Proof.
  induction piece as [|c piece IH]; simpl; intros Hfree.
  - now rewrite Ascii.eqb_refl.
  - destruct (Ascii.eqb c sep); [discriminate|]. now rewrite IH.
Qed.

(** A header [name=digest] with a single ['='] unpacks into its two
    sides. *)
Lemma split_pair name digest :
  PyStr.count "=" name = 0%nat -> PyStr.count "=" digest = 0%nat ->
  PyStr.split "=" None (name +:+ "=" +:+ digest) = [name; digest].
Proof.
  intros Hn Hd. change ("=" +:+ digest) with (String "=" digest).
  rewrite split_head by assumption. now rewrite split_free.
Qed.

(** Any other number of ['='] gives a list that does not unpack into
    two names. *)
Lemma split_not_pair header :
  PyStr.count "=" header <> 1%nat ->
  match PyStr.split "=" None header with
  | [_; _] => False
  | _ => True
  end.
Proof.
  intros Hn. pose proof (PyStrFacts.split_length "=" header) as Hlen.
  destruct (PyStr.split "=" None header) as [|a [|b [|c l]]]; simpl in *;
    try exact I. lia.
Qed.

End SplitFacts.

Section SecretConfigured.

Variables (w : world) (r : request) (cfg : gmap string json) (secret : string).
Hypothesis configured : cfg !! "enforce_secret" = Some (JStr secret).
Hypothesis nonempty : secret <> "".

Lemma enforce_secret_checks :
  enforce_secret (JDict cfg) r = check_signature (JStr secret) r.
Proof.
  unfold enforce_secret. simpl Py.get. rewrite configured. simpl default.
  rewrite bind_lift_Ok. simpl.
  destruct (String.eqb_spec secret ""); [contradiction | reflexivity].
Qed.

Lemma check_signature_missing :
  r_signature r = None ->
  check_signature (JStr secret) r = ([Log WARNING NoSignature], Abort 403).
Proof. intros H. unfold check_signature. now rewrite H. Qed.

Lemma check_signature_unsupported sha_name signature :
  PyStr.count "=" sha_name = 0%nat -> PyStr.count "=" signature = 0%nat ->
  r_signature r = Some (sha_name +:+ "=" +:+ signature) ->
  sha_name <> "sha1" ->
  check_signature (JStr secret) r = ([Log WARNING (UnsupportedMech sha_name)], Abort 501).
Proof.
  intros Hn Hs Hh Hne. unfold check_signature. rewrite Hh.
  rewrite SplitFacts.split_pair by assumption.
  destruct (String.eqb_spec sha_name "sha1"); [contradiction | reflexivity].
Qed.

Lemma check_signature_sha1 signature :
  PyStr.count "=" signature = 0%nat ->
  PyStr.isascii signature = true ->
  r_signature r = Some ("sha1=" +:+ signature) ->
  check_signature (JStr secret) r
  = if String.eqb (Hmac.hexdigest secret (r_data r)) signature
    then ([], Ok tt)
    else ([Log WARNING InvalidDigest], Abort 403).
Proof.
  intros Hs Ha Hh. unfold check_signature. rewrite Hh.
  change ("sha1=" +:+ signature) with ("sha1" +:+ "=" +:+ signature).
  rewrite SplitFacts.split_pair by (reflexivity || assumption).
  simpl negb. cbv iota. simpl bytes_utf8. rewrite bind_lift_Ok.
  unfold constant_time_compare.
  rewrite (proj1 (HexFacts.hexdigest_plain secret (r_data r))), Ha. simpl andb.
  cbv iota. rewrite bind_lift_Ok.
  now destruct (String.eqb (Hmac.hexdigest secret (r_data r)) signature).
Qed.

Lemma check_signature_malformed header :
  r_signature r = Some header -> PyStr.count "=" header <> 1%nat ->
  check_signature (JStr secret) r = ([], Raise ValueError).
Proof.
  intros Hh Hc. unfold check_signature. rewrite Hh.
  pose proof (SplitFacts.split_not_pair header Hc) as Hsplit.
  destruct (PyStr.split "=" None header) as [|a [|b [|c l]]];
    try reflexivity. contradiction.
Qed.

End SecretConfigured.

(** Without a secret ([enforce_secret] empty or not set) nothing of the
    request is looked at. *)
Lemma enforce_secret_open (cfg : gmap string json) (r : request) :
  cfg !! "enforce_secret" = Some (JStr "") \/ cfg !! "enforce_secret" = None ->
  enforce_secret (JDict cfg) r = ([], Ok tt).
Proof.
  intros H. unfold enforce_secret. simpl Py.get.
  destruct H as [-> | ->]; reflexivity.
Qed.

(** C2.  For a request that gets as far as the signature check (a POST,
    a configuration that is a JSON object, an origin check passed):
    - with a non-empty secret configured, a request without the
      [X-Hub-Signature] header is aborted with 403; a header [name=digest]
      whose name is not [sha1] is aborted with 501; a header [sha1=digest]
      whose digest is not the hexadecimal HMAC-SHA1 of the raw body under
      the secret is aborted with 403; the header carrying that very digest
      lets the request go on to [answer];
    - with an empty or missing secret the request goes on to [answer]
      whatever its header says.
    The comparison is [constant_time_compare], which agrees with string
    equality ([constant_time_compare_legacy_eqb]); its running time is not
    part of this model. *)
Theorem signature_verification (w : world) (r : request)
    (cfg : gmap string json) :
  reaches_signature w r cfg ->
  (forall secret : string,
     cfg !! "enforce_secret" = Some (JStr secret) -> secret <> "" ->
     (r_signature r = None ->
      index w r = ([Log WARNING NoSignature], Abort 403))
     /\ (forall sha_name signature : string,
           PyStr.count "=" sha_name = 0%nat -> PyStr.count "=" signature = 0%nat ->
           r_signature r = Some (sha_name +:+ "=" +:+ signature) ->
           sha_name <> "sha1" ->
           index w r = ([Log WARNING (UnsupportedMech sha_name)], Abort 501))
     /\ (forall signature : string,
           PyStr.count "=" signature = 0%nat -> PyStr.isascii signature = true ->
           r_signature r = Some ("sha1=" +:+ signature) ->
           signature <> Hmac.hexdigest secret (r_data r) ->
           index w r = ([Log WARNING InvalidDigest], Abort 403))
     /\ (r_signature r = Some ("sha1=" +:+ Hmac.hexdigest secret (r_data r)) ->
         index w r = answer w (JDict cfg) (hooks_of w cfg) r))
  /\ (cfg !! "enforce_secret" = Some (JStr "") \/ cfg !! "enforce_secret" = None ->
      index w r = answer w (JDict cfg) (hooks_of w cfg) r).
Proof.
  intros Hreach. rewrite (index_reaches_signature w r cfg Hreach).
  split.
  - intros secret Hcfg Hne.
    rewrite (enforce_secret_checks r cfg secret Hcfg Hne).
    repeat split.
    + intros Hsig. now rewrite (check_signature_missing r secret Hsig).
    + intros sha_name signature Hn Hs Hsig Hname.
      now rewrite (check_signature_unsupported r secret sha_name signature Hn Hs Hsig Hname).
    + intros signature Hs Ha Hsig Hdiff.
      rewrite (check_signature_sha1 r secret signature Hs Ha Hsig).
      destruct (String.eqb_spec (Hmac.hexdigest secret (r_data r)) signature) as [E|_];
        [now subst | reflexivity].
    + intros Hsig.
      destruct (HexFacts.hexdigest_plain secret (r_data r)) as [Ha Hc].
      rewrite (check_signature_sha1 r secret _ Hc Ha Hsig), String.eqb_refl.
      now rewrite bind_nil_Ok.
  - intros Hopen. rewrite (enforce_secret_open cfg r Hopen). now rewrite bind_nil_Ok.
Qed.

(** A signed ping, answered; the same ping with one digit of the digest
    changed, turned away. *)
Lemma signature_verification_witness :
  index (Sample.host (JDict (Sample.settings "s3cret" false)) [])
        (Sample.post (Some "sha1=e7e0225292f975eab7d48999ea520020ef91b18d") "ping" "{}" None)
  = ([], Ok (Dumps (JDict {[ "msg" := JStr "pong" ]})))
  /\ index (Sample.host (JDict (Sample.settings "s3cret" false)) [])
        (Sample.post (Some "sha1=e7e0225292f975eab7d48999ea520020ef91b18e") "ping" "{}" None)
  = ([Log WARNING InvalidDigest], Abort 403).
Proof.
  assert (forall sig, reaches_signature
            (Sample.host (JDict (Sample.settings "s3cret" false)) [])
            (Sample.post sig "ping" "{}" None) (Sample.settings "s3cret" false))
    as Hreach by (intros sig; split; reflexivity).
  split.
  - destruct (signature_verification _ _ _
                (Hreach (Some "sha1=e7e0225292f975eab7d48999ea520020ef91b18d")))
      as [Hsecret _].
    destruct (Hsecret "s3cret") as (_ & _ & _ & Hgood);
      [reflexivity | discriminate |].
    apply Hgood. vm_compute. reflexivity.
  - destruct (signature_verification _ _ _
                (Hreach (Some "sha1=e7e0225292f975eab7d48999ea520020ef91b18e")))
      as [Hsecret _].
    destruct (Hsecret "s3cret") as (_ & _ & Hbad & _);
      [reflexivity | discriminate |].
    apply (Hbad "e7e0225292f975eab7d48999ea520020ef91b18e");
      [reflexivity | reflexivity | reflexivity |].
    vm_compute. discriminate.
Defined.

(** C10.  With a non-empty secret configured and an [X-Hub-Signature]
    header that does not hold exactly one ['='] (["sha1"] alone, or
    ["sha1=abc=def"]), unpacking the split header raises [ValueError]: the
    handler ends with that exception, not with a 403 or 501 abort. *)
Theorem malformed_signature_header_raises (w : world) (r : request)
    (cfg : gmap string json) (secret header : string) :
  reaches_signature w r cfg ->
  cfg !! "enforce_secret" = Some (JStr secret) -> secret <> "" ->
  r_signature r = Some header ->
  PyStr.count "=" header <> 1%nat ->
  index w r = ([], Raise ValueError).
Proof.
  intros Hreach Hcfg Hne Hsig Hcount.
  rewrite (index_reaches_signature w r cfg Hreach).
  rewrite (enforce_secret_checks r cfg secret Hcfg Hne).
  now rewrite (check_signature_malformed r secret header Hsig Hcount).
Qed.

Lemma malformed_signature_header_raises_witness :
  index (Sample.host (JDict (Sample.settings "s3cret" false)) [])
        (Sample.post (Some "sha1") "push" "{}" (Some (JDict Sample.push_main)))
  = ([], Raise ValueError)
  /\ index (Sample.host (JDict (Sample.settings "s3cret" false)) [])
        (Sample.post (Some "sha1=abc=def") "push" "{}" (Some (JDict Sample.push_main)))
  = ([], Raise ValueError).
Proof.
  split.
  - apply (malformed_signature_header_raises _ _ (Sample.settings "s3cret" false)
             "s3cret" "sha1");
      [split; reflexivity | reflexivity | discriminate | reflexivity | simpl; lia].
  - apply (malformed_signature_header_raises _ _ (Sample.settings "s3cret" false)
             "s3cret" "sha1=abc=def");
      [split; reflexivity | reflexivity | discriminate | reflexivity | simpl; lia].
Defined.

(** ** Metadata extraction *)

(** A missing key never escapes the branch derivation. *)
Lemma derive_branch_recovers (ev : string) (payload : json) (key : string) :
  derive_branch ev payload <> Raise (KeyError key).
Proof.
  unfold derive_branch, except_KeyError.
  match goal with |- context [match ?c with Ok _ => _ | _ => _ end] => destruct c as [v| |[]] end;
    discriminate.
Qed.

(** A payload object without the keys the branch derivation looks for
    gives no branch. *)
Lemma derive_branch_absent (ev : string) (fields : gmap string json) :
  fields !! "ref_type" = None -> fields !! "pull_request" = None ->
  fields !! "ref" = None ->
  derive_branch ev (JDict fields) = Ok JNull.
Proof.
  intros Hrt Hpr Href. unfold derive_branch. simpl.
  rewrite Hrt, Hpr, Href.
  rewrite !bool_decide_eq_false_2 by (intros [? ?]; discriminate).
  simpl. now destruct (String.eqb ev "push").
Qed.

Lemma derive_name_absent (fields : gmap string json) :
  fields !! "repository" = None -> derive_name (JDict fields) = Ok JNull.
Proof.
  intros H. unfold derive_name. simpl. rewrite H.
  now rewrite bool_decide_eq_false_2 by (intros [? ?]; discriminate).
Qed.

Section Extracted.

Variables (w : world) (config hooks : json) (ev : string) (payload : json).
Variables (b n : json).
Hypothesis branch_is : derive_branch ev payload = Ok b.
Hypothesis name_is : derive_name payload = Ok n.

Lemma handle_event_skips :
  is_push_delete ev payload = Ok true ->
  handle_event w config hooks ev payload
  = ([Log INFO (MetadataIs (Metadata n b ev)); Log INFO (Skipping (Metadata n b ev))],
     Ok (Dumps (status "skipped"))).
Proof.
  intros Hskip. unfold handle_event.
  rewrite branch_is, name_is, Hskip, !bind_lift_Ok. reflexivity.
Qed.

Lemma handle_event_raises (e : exn) :
  is_push_delete ev payload = Raise e ->
  handle_event w config hooks ev payload
  = ([Log INFO (MetadataIs (Metadata n b ev))], Raise e).
Proof.
  intros Hskip. unfold handle_event.
  rewrite branch_is, name_is, Hskip, !bind_lift_Ok. reflexivity.
Qed.

Lemma handle_event_resolves :
  is_push_delete ev payload = Ok false ->
  handle_event w config hooks ev payload
  = (Log INFO (MetadataIs (Metadata n b ev))
       :: fst (resolve_and_dispatch w config hooks payload (Metadata n b ev)),
     snd (resolve_and_dispatch w config hooks payload (Metadata n b ev))).
Proof.
  intros Hskip. unfold handle_event.
  rewrite branch_is, name_is, !bind_lift_Ok.
  unfold logging. rewrite bind_emit. now rewrite Hskip, bind_lift_Ok.
Qed.

End Extracted.

(** Line 167 looks [deleted] up without a guard: a push payload that
    lacks the key ends the request with [KeyError], after the metadata
    were logged. *)
Lemma push_without_deleted_raises (w : world) (r : request) (cfg : gmap string json)
    (fields : gmap string json) (b n : json) :
  reaches_extraction w r cfg "push" (JDict fields) ->
  derive_branch "push" (JDict fields) = Ok b ->
  derive_name (JDict fields) = Ok n ->
  fields !! "deleted" = None ->
  index w r = ([Log INFO (MetadataIs (Metadata n b "push"))], Raise (KeyError "deleted")).
Proof.
  intros Hreach Hb Hn Hdel. rewrite (index_reaches_extraction _ _ _ _ _ Hreach).
  apply handle_event_raises; [assumption | assumption |].
  unfold is_push_delete. simpl. now rewrite Hdel.
Qed.

(** C3, the code at the failing inputs.  A push event whose payload has a
    [ref] and a [repository] but no [deleted] key is not answered: the
    lookup of line 167 raises [KeyError].  So does, for any event, the
    lookup of line 157 on a [repository] object without a [name]. *)
Theorem missing_deleted_key_escalates :
  index (Sample.host (JDict (Sample.settings "" false)) ["/hooks/push"])
        (Sample.post None "push" "(body)" (Some (JDict Sample.push_without_deleted)))
  = ([Log INFO (MetadataIs (Metadata (JStr "repo1") (JStr "main") "push"))],
     Raise (KeyError "deleted"))
  /\ index (Sample.host (JDict (Sample.settings "" false)) ["/hooks/issues"])
        (Sample.post None "issues" "(body)" (Some (JDict Sample.issue_without_repository_name)))
  = ([], Raise (KeyError "name")).
Proof. split; vm_compute; reflexivity. Qed.

(** ** Deleted refs *)

(** C4, as stated, fails: a push that marks its ref as deleted but whose
    [ref] is the bare name [main] is not skipped; line 148 raises
    [IndexError] before line 167 is reached, and the request ends with
    that exception. *)
Lemma deleted_push_with_bare_ref_is_not_skipped :
  Cases.push_deleted_bare_ref !! "deleted" = Some (JBool true)
  /\ index (Sample.host (JDict (Sample.settings "" false)) ["/hooks/push"])
           (Sample.post None "push" "(body)" (Some (JDict Cases.push_deleted_bare_ref)))
     = ([], Raise IndexError).
Proof. split; vm_compute; reflexivity. Qed.

(** C4, amended.  For every push event that gets as far as metadata
    extraction, whose branch and repository name are derived without an
    exception (lines 131-157) and whose payload carries a true [deleted]
    field, the handler answers [{"status": "skipped"}]; its whole trace is
    the two log lines, so no hook was resolved or started and no temporary
    file was created. *)
Theorem push_delete_is_skipped (w : world) (r : request) (cfg : gmap string json)
    (fields : gmap string json) (deleted b n : json) :
  reaches_extraction w r cfg "push" (JDict fields) ->
  derive_branch "push" (JDict fields) = Ok b ->
  derive_name (JDict fields) = Ok n ->
  fields !! "deleted" = Some deleted ->
  Py.truthy deleted = true ->
  index w r
  = ([Log INFO (MetadataIs (Metadata n b "push")); Log INFO (Skipping (Metadata n b "push"))],
     Ok (Dumps (status "skipped")))
  /\ invoked (fst (index w r)) = []
  /\ created (fst (index w r)) = [].
Proof.
  intros Hreach Hb Hn Hdel Htrue.
  rewrite (index_reaches_extraction _ _ _ _ _ Hreach).
  rewrite (handle_event_skips w (JDict cfg) (hooks_of w cfg) "push" (JDict fields) b n Hb Hn).
  - repeat split.
  - unfold is_push_delete, Py.getitem, obind.
    change (String.eqb "push" "push") with true. cbv iota.
    now rewrite Hdel, Htrue.
Qed.

(** The deleted [refs/heads/main] of [repo1], with every hook in place. *)
Lemma push_delete_is_skipped_witness :
  index (Sample.host (JDict (Sample.settings "" false))
           ["/hooks/push-repo1-main"; "/hooks/push-repo1"; "/hooks/push"; "/hooks/all"])
        (Sample.post None "push" "(body)" (Some (JDict Sample.push_deleted)))
  = ([Log INFO (MetadataIs (Metadata (JStr "repo1") (JStr "main") "push"));
      Log INFO (Skipping (Metadata (JStr "repo1") (JStr "main") "push"))],
     Ok (Dumps (status "skipped"))).
Proof.
  apply (push_delete_is_skipped _ _ (Sample.settings "" false) Sample.push_deleted
           (JBool true) (JStr "main") (JStr "repo1")).
  - repeat split; try reflexivity. discriminate.
  - vm_compute; reflexivity.
  - vm_compute; reflexivity.
  - vm_compute; reflexivity.
  - reflexivity.
Defined.

(** ** Hook resolution *)

Section Resolution.

Variables (w : world) (dir : string).

Lemma append_tier_joins (announce : bool) (leaf : string) (scripts : list string) :
  append_tier announce (JStr dir) leaf scripts
  = ((if announce
      then [Log INFO (Trying leaf); Log INFO (Trying (leaf +:+ "-background"))]
      else []),
     Ok (scripts ++ (OsPath.join dir <$> tier leaf))).
Proof. unfold append_tier. now destruct announce. Qed.

(** The list built by lines 172-186, for a hooks directory that is a
    string. *)
Lemma possible_hooks_joins (m : metadata) :
  exists logs : list effect,
    only_logs logs
    /\ possible_hooks w (JStr dir) m
       = (logs,
          Ok (OsPath.join dir <$>
                (if Py.truthy (branch m) && Py.truthy (name m)
                 then tier (event_name_branch w m) else [])
                ++ (if Py.truthy (name m) then tier (event_name w m) else [])
                ++ tier (event m) ++ tier "all")).
Proof.
  unfold possible_hooks.
  destruct (Py.truthy (branch m)), (Py.truthy (name m)); simpl andb; cbv iota;
    rewrite ?append_tier_joins, ?bind_ret, ?bind_Ok; simpl fst; simpl snd;
    rewrite ?append_tier_joins; simpl fst; simpl snd.
  all: eexists; split; [|reflexivity].
  all: repeat constructor.
Qed.

End Resolution.

Lemma only_logs_app (t1 t2 : list effect) : only_logs t1 -> only_logs t2 -> only_logs (t1 ++ t2).
Proof. intros H1 H2. apply Forall_app; split; assumption. Qed.

Lemma only_logs_invoked (t : list effect) : only_logs t -> invoked t = [].
Proof. induction 1 as [|[] t He _ IH]; simpl in *; congruence. Qed.

Lemma only_logs_created (t : list effect) : only_logs t -> created t = [].
Proof. induction 1 as [|[] t He _ IH]; simpl in *; congruence. Qed.

(** The tests of lines 173 and 178 are Python's truth tests: an empty
    name is there, and has no tier. *)
Lemma empty_name_has_no_tier (w : world) (dir ev : string) (b : json) :
  snd (possible_hooks w (JStr dir) (Metadata (JStr "") b ev))
  = Ok (OsPath.join dir <$> [ev; ev +:+ "-background"; "all"; "all-background"]).
Proof.
  destruct (possible_hooks_joins w dir (Metadata (JStr "") b ev)) as (logs & _ & ->).
  simpl. now rewrite andb_false_r.
Qed.

(** C5.  For a request that gets as far as hook resolution (metadata
    extracted, not a deleted push) with a hooks directory [dir]:
    - the candidates are, in this order, [{event}-{name}-{branch}] and its
      [-background] form, only when both name and branch are there (and, as
      Python's truth test has it, are not empty); [{event}-{name}] and its
      [-background] form, only when the name is there; [{event}] and
      [{event}-background]; [all] and [all-background];
    - without a name only the last two tiers remain;
    - each is joined to [dir], and the list is filtered to the regular
      files the process may execute;
    - when nothing is left the answer is [{"status": "nop"}] and the trace
      holds log lines only, so no temporary file was created; otherwise
      the handler goes on to dispatch the filtered list. *)
Theorem hook_resolution (w : world) (r : request) (cfg : gmap string json)
    (ev : string) (payload b n : json) (dir : string) :
  reaches_extraction w r cfg ev payload ->
  derive_branch ev payload = Ok b ->
  derive_name payload = Ok n ->
  is_push_delete ev payload = Ok false ->
  hooks_of w cfg = JStr dir ->
  let meta := Metadata n b ev in
  let leaves :=
    (if Py.truthy b && Py.truthy n
     then [ev +:+ "-" +:+ py_str w n +:+ "-" +:+ py_str w b;
           (ev +:+ "-" +:+ py_str w n +:+ "-" +:+ py_str w b) +:+ "-background"]
     else [])
    ++ (if Py.truthy n
        then [ev +:+ "-" +:+ py_str w n; (ev +:+ "-" +:+ py_str w n) +:+ "-background"]
        else [])
    ++ [ev; ev +:+ "-background"; "all"; "all-background"] in
  let scripts :=
    filter (fun s => w_isfile w s && w_access w s = true) (OsPath.join dir <$> leaves) in
  snd (possible_hooks w (JStr dir) meta) = Ok (OsPath.join dir <$> leaves)
  /\ (Py.truthy n = true -> n <> JNull)
  /\ (Py.truthy b = true -> b <> JNull)
  /\ (n = JNull -> leaves = [ev; ev +:+ "-background"; "all"; "all-background"])
  /\ exists logs : list effect,
       only_logs logs
       /\ index w r
          = match scripts with
            | [] => (logs, Ok (Dumps (status "nop")))
            | _ :: _ =>
              (logs ++ fst (dispatch w (JDict cfg) payload meta scripts),
               snd (dispatch w (JDict cfg) payload meta scripts))
            end.
Proof.
  intros Hreach Hb Hn Hskip Hdir meta leaves scripts.
  destruct (possible_hooks_joins w dir meta) as (logs & Hlogs & Hposs).
  assert (OsPath.join dir <$> leaves
          = OsPath.join dir <$>
              (if Py.truthy (branch meta) && Py.truthy (name meta)
               then tier (event_name_branch w meta) else [])
              ++ (if Py.truthy (name meta) then tier (event_name w meta) else [])
              ++ tier (event meta) ++ tier "all") as Hleaves by reflexivity.
  repeat split.
  - now rewrite Hposs, Hleaves.
  - intros Ht ->. discriminate.
  - intros Ht ->. discriminate.
  - intros ->. subst leaves. simpl. now rewrite andb_false_r.
  - exists (Log INFO (MetadataIs meta) :: logs). split.
    + constructor; [reflexivity | assumption].
    + rewrite (index_reaches_extraction _ _ _ _ _ Hreach).
      rewrite (handle_event_resolves w (JDict cfg) (hooks_of w cfg) ev payload b n Hb Hn Hskip).
      unfold resolve_and_dispatch. rewrite Hdir. fold meta. rewrite Hposs, bind_Ok.
      rewrite <- Hleaves. unfold check_permissions, runnable. fold scripts.
      destruct scripts; simpl; [now rewrite app_nil_r | reflexivity].
Qed.

(** A push to [main] of [repo1] with no hook installed: the eight
    candidates, none of them runnable, and the answer is [nop]. *)
Lemma hook_resolution_witness :
  snd (possible_hooks
         (Sample.host (JDict (Sample.settings "" false)) []) (JStr "/hooks")
         (Metadata (JStr "repo1") (JStr "main") "push"))
  = Ok ["/hooks/push-repo1-main"; "/hooks/push-repo1-main-background";
        "/hooks/push-repo1"; "/hooks/push-repo1-background";
        "/hooks/push"; "/hooks/push-background";
        "/hooks/all"; "/hooks/all-background"]
  /\ exists logs : list effect,
       only_logs logs
       /\ index (Sample.host (JDict (Sample.settings "" false)) [])
                (Sample.post None "push" "(body)" (Some (JDict Sample.push_main)))
          = (logs, Ok (Dumps (status "nop"))).
Proof.
  destruct (hook_resolution
              (Sample.host (JDict (Sample.settings "" false)) [])
              (Sample.post None "push" "(body)" (Some (JDict Sample.push_main)))
              (Sample.settings "" false) "push" (JDict Sample.push_main)
              (JStr "main") (JStr "repo1") "/hooks")
    as (Hlist & _ & _ & _ & Hnop).
  - repeat split; try reflexivity. discriminate.
  - vm_compute; reflexivity.
  - vm_compute; reflexivity.
  - vm_compute; reflexivity.
  - reflexivity.
  - split; [exact Hlist | exact Hnop].
Defined.

(** ** The dispatch loop *)

Section Loop.

Variables (w : world) (payload : json) (m : metadata) (shared : tmpfile).

Let started (s : string) (file : tmpfile) : effect :=
  Popen s file (event m) (py_str w (name m)) (py_str w (branch m)).

(** [Popen], when the script can be started, and when it cannot. *)
Lemma popen_starts (i : nat) (s : string) (file : tmpfile) :
  starts w m i s -> popen w i s file m = emit (started s file).
Proof. intros [Hnul Hspawn]. unfold popen. now rewrite Hnul, Hspawn. Qed.

Lemma popen_outcomes (i : nat) (s : string) (file : tmpfile) :
  popen w i s file m = emit (started s file)
  \/ popen w i s file m = ([], Raise ValueError)
  \/ popen w i s file m = ([], Raise OSError).
Proof.
  unfold popen. destruct (existsb _ _); [now right; left|].
  destruct (w_spawn w i s); [now left | now right; right].
Qed.

(** A backgrounded script that can be started: a file of its own, a
    process nobody waits for, and the marker in [ran]. *)
Lemma run_script_background (i next : nat) (s : string) (ran : gmap string json) :
  is_background s = true -> starts w m i s ->
  run_script w payload m shared i next s ran
  = ([MkStemp next; Write next payload; started s next],
     Ok (<[OsPath.basename s := backgrounded]> ran)).
Proof.
  unfold is_background, run_script. intros -> Hstart.
  now rewrite (popen_starts i s next Hstart).
Qed.

(** A backgrounded script that cannot be started: its file was made and
    written, and stays; nothing is started and nothing recorded. *)
Lemma run_script_background_refused (i next : nat) (s : string)
    (ran : gmap string json) :
  is_background s = true -> ~ starts w m i s ->
  exists e : exn,
    run_script w payload m shared i next s ran
    = ([MkStemp next; Write next payload], Raise e)
    /\ (e = ValueError \/ e = OSError).
Proof.
  unfold is_background, run_script, starts. intros -> Hno.
  unfold popen. destruct (existsb _ _) eqn:Hnul.
  - exists ValueError. split; [reflexivity | now left].
  - destruct (w_spawn w i s) eqn:Hspawn; [exfalso; now apply Hno|].
    exists OSError. split; [reflexivity | now right].
Qed.

(** A script that is waited for and prints text: the shared file, the
    wait, the error line when the exit code is not 0, and the three
    results in [ran] -- whatever the exit code. *)
Lemma run_script_foreground (i next : nat) (s : string) (ran : gmap string json) :
  is_background s = false -> starts w m i s ->
  prints_text (w_communicate w i s) ->
  run_script w payload m shared i next s ran
  = (started s shared :: Communicate s
       :: (if (returncode (w_communicate w i s) =? 0)%Z then []
           else [Log ERROR (HookFailed s (returncode (w_communicate w i s))
                              (stderr (w_communicate w i s)))]),
     Ok (<[OsPath.basename s := record_of w i s]> ran)).
Proof.
  unfold is_background, run_script, record_of, prints_text, Utf8.decode.
  intros Hbg Hstart [-> ->]. unfold is_background.
  rewrite Hbg, (popen_starts i s shared Hstart). unfold emit.
  rewrite !bind_Ok, !bind_lift_Ok. simpl fst. simpl snd.
  destruct (returncode (w_communicate w i s) =? 0)%Z; reflexivity.
Qed.

(** A script that is waited for and whose output is not valid UTF-8 ends
    the loop with [UnicodeDecodeError]. *)
Lemma run_script_binary_output (i next : nat) (s : string) (ran : gmap string json) :
  is_background s = false -> starts w m i s ->
  Utf8.valid (stdout (w_communicate w i s)) = false ->
  run_script w payload m shared i next s ran
  = ([started s shared; Communicate s], Raise UnicodeDecodeError).
Proof.
  unfold is_background, run_script, Utf8.decode. intros -> Hstart ->.
  now rewrite (popen_starts i s shared Hstart).
Qed.

(** A script that is waited for and cannot be started ends the loop
    with the exception of [Popen], before anything was started. *)
Lemma run_script_foreground_refused (i next : nat) (s : string)
    (ran : gmap string json) :
  is_background s = false -> ~ starts w m i s ->
  exists e : exn,
    run_script w payload m shared i next s ran = ([], Raise e)
    /\ (e = ValueError \/ e = OSError).
Proof.
  unfold is_background, run_script, starts. intros -> Hno.
  unfold popen. destruct (existsb _ _) eqn:Hnul.
  - exists ValueError. split; [reflexivity | now left].
  - destruct (w_spawn w i s) eqn:Hspawn; [exfalso; now apply Hno|].
    exists OSError. split; [reflexivity | now right].
Qed.

Lemma hooks_start_cons (i : nat) (s : string) (rest : list string) :
  hooks_start w m i (s :: rest) -> starts w m i s /\ hooks_start w m (S i) rest.
Proof.
  intros H. split.
  - specialize (H 0%nat s eq_refl). now rewrite Nat.add_0_r in H.
  - intros j s' Hj. specialize (H (S j) s' Hj).
    now replace (S i + j)%nat with (i + S j)%nat by lia.
Qed.

Lemma hooks_print_text_cons (i : nat) (s : string) (rest : list string) :
  hooks_print_text w i (s :: rest) ->
  (is_background s = false -> prints_text (w_communicate w i s))
  /\ hooks_print_text w (S i) rest.
Proof.
  intros H. split.
  - intros Hbg. specialize (H 0%nat s eq_refl Hbg). now rewrite Nat.add_0_r in H.
  - intros j s' Hj Hbg. specialize (H (S j) s' Hj Hbg).
    now replace (S i + j)%nat with (i + S j)%nat by lia.
Qed.

(** The loop, when every hook can be started and every hook waited for
    prints text: it goes through the whole list and ends with
    [records]. *)
Lemma run_scripts_completes (scripts : list string) :
  forall (i next : nat) (ran : gmap string json),
  hooks_start w m i scripts ->
  hooks_print_text w i scripts ->
  exists t : list effect,
    run_scripts w payload m shared i next scripts ran = (t, Ok (records w i scripts ran))
    /\ invoked t = scripts
    /\ waited t = foreground scripts
    /\ created t = seq next (backgrounds scripts)
    /\ written t = (fun f => (f, payload)) <$> seq next (backgrounds scripts)
    /\ removed t = []
    /\ background_files t = seq next (backgrounds scripts)
    /\ (forall s f, (s, f) ∈ launches t -> is_background s = false -> f = shared)
    /\ (forall j s, scripts !! j = Some s -> is_background s = false ->
          returncode (w_communicate w (i + j) s) <> 0%Z ->
          Log ERROR (HookFailed s (returncode (w_communicate w (i + j) s))
                       (stderr (w_communicate w (i + j) s))) ∈ t).
Proof.
  unfold invoked, waited, created, written, removed, background_files, launches.
  induction scripts as [|s rest IH]; intros i next ran Hstarts Htext.
  - exists []. repeat split; try reflexivity.
    + intros s f Hin. inversion Hin.
    + intros j s Hj. discriminate.
  - destruct (hooks_print_text_cons i s rest Htext) as [Hhead Htail].
    destruct (hooks_start_cons i s rest Hstarts) as [Hstart Hstarts'].
    cbn [run_scripts records].
    destruct (is_background s) eqn:Hbg.
    + rewrite (run_script_background i next s ran Hbg Hstart), bind_Ok.
      destruct (IH (S i) (next + files_of s)%nat
                  (<[OsPath.basename s := backgrounded]> ran) Hstarts' Htail)
        as (t & Hrun & Hinv & Hwait & Hcre & Hwri & Hrem & Hbgf & Hfile & Hlog).
      assert (files_of s = 1%nat) as Hone by (unfold files_of; unfold is_background in Hbg; now rewrite Hbg).
      rewrite Hone in *. replace (next + 1)%nat with (S next) in * by lia.
      unfold record_of at 1. rewrite Hbg.
      rewrite Hrun. simpl fst. simpl snd.
      exists ([MkStemp next; Write next payload; started s next] ++ t).
      unfold backgrounds, foreground in *. cbn [List.filter]. rewrite Hbg. cbn [negb List.length].
      repeat split.
      * cbn. now rewrite Hinv.
      * cbn. exact Hwait.
      * cbn. now rewrite Hcre.
      * cbn. now rewrite Hwri.
      * cbn. exact Hrem.
      * cbn. rewrite Hbg. cbn. now rewrite Hbgf.
      * intros s' f Hin Hbg'. cbn in Hin. apply elem_of_cons in Hin as [Heq|Hin].
        -- injection Heq as -> ->. congruence.
        -- exact (Hfile s' f Hin Hbg').
      * intros [|j] s' Hj Hbg' Hrc.
        -- injection Hj as <-. congruence.
        -- apply elem_of_app. right.
           replace (i + S j)%nat with (S i + j)%nat in * by lia.
           now apply Hlog.
    + specialize (Hhead eq_refl).
      rewrite (run_script_foreground i next s ran Hbg Hstart Hhead), bind_Ok.
      destruct (IH (S i) (next + files_of s)%nat
                  (<[OsPath.basename s := record_of w i s]> ran) Hstarts' Htail)
        as (t & Hrun & Hinv & Hwait & Hcre & Hwri & Hrem & Hbgf & Hfile & Hlog).
      assert (files_of s = 0%nat) as Hzero by (unfold files_of; unfold is_background in Hbg; now rewrite Hbg).
      rewrite Hzero in *. rewrite Nat.add_0_r in *.
      rewrite Hrun. simpl fst. simpl snd.
      set (failure := if (returncode (w_communicate w i s) =? 0)%Z then []
                      else [Log ERROR (HookFailed s (returncode (w_communicate w i s))
                                         (stderr (w_communicate w i s)))]).
      exists (started s shared :: Communicate s :: failure ++ t).
      split; [reflexivity|].
      assert (forall (B : Type) (f : effect -> option B),
                (forall lvl msg, f (Log lvl msg) = None) -> omap f failure = [])
        as Hfailure.
      { intros B f Hf. unfold failure. destruct (_ =? 0)%Z; cbn; [|rewrite Hf]; reflexivity. }
      unfold backgrounds, foreground in *. cbn [List.filter]. rewrite Hbg. cbn [negb].
      cbn [omap list_omap started]. rewrite !omap_app, !Hfailure by reflexivity.
      cbn [app]. repeat split.
      * now rewrite Hinv.
      * now rewrite Hwait.
      * exact Hcre.
      * exact Hwri.
      * exact Hrem.
      * cbn. rewrite Hbg. exact Hbgf.
      * intros s' f Hin Hbg'. apply elem_of_cons in Hin as [Heq|Hin].
        -- now injection Heq as -> ->.
        -- exact (Hfile s' f Hin Hbg').
      * intros [|j] s' Hj Hbg' Hrc.
        -- injection Hj as <-. rewrite Nat.add_0_r in *.
           do 2 (apply elem_of_cons; right). apply elem_of_app. left.
           unfold failure.
           destruct (Z.eqb_spec (returncode (w_communicate w i s)) 0); [contradiction|].
           apply list_elem_of_singleton. reflexivity.
        -- do 2 (apply elem_of_cons; right). apply elem_of_app. right.
           replace (i + S j)%nat with (S i + j)%nat in * by lia.
           now apply Hlog.
Qed.

End Loop.

(** ** What ends up in [ran] *)

Lemma records_keeps (w : world) (scripts : list string) :
  forall (i : nat) (ran : gmap string json) (key : string),
  (forall s, s ∈ scripts -> OsPath.basename s <> key) ->
  records w i scripts ran !! key = ran !! key.
Proof.
  induction scripts as [|s rest IH]; intros i ran key Hother; [reflexivity|].
  cbn [records]. rewrite IH.
  - apply lookup_insert_ne. apply Hother. left.
  - intros s' Hin. apply Hother. now right.
Qed.

(** The record of a script is the one found under its base name at the
    end, unless a later script of the same base name replaced it. *)
Lemma records_lookup (w : world) (scripts : list string) :
  forall (i j : nat) (ran : gmap string json) (s : string),
  scripts !! j = Some s ->
  (forall j' s', (j < j')%nat -> scripts !! j' = Some s' ->
                 OsPath.basename s' <> OsPath.basename s) ->
  records w i scripts ran !! OsPath.basename s = Some (record_of w (i + j) s).
Proof.
  induction scripts as [|s0 rest IH]; intros i j ran s Hj Hlater; [discriminate|].
  destruct j as [|j]; cbn [records].
  - injection Hj as ->. rewrite Nat.add_0_r, records_keeps.
    + apply lookup_insert_eq.
    + intros s' Hin. apply list_elem_of_lookup in Hin as [j' Hj'].
      apply (Hlater (S j') s'); [lia | exact Hj'].
  - replace (i + S j)%nat with (S i + j)%nat by lia. apply IH; [exact Hj|].
    intros j' s' Hlt Hj'. apply (Hlater (S j') s'); [lia | exact Hj'].
Qed.

(** Scripts of one base name are all backgrounded or all waited for, so
    the marker of a backgrounded script is never replaced by results. *)
Lemma same_basename_same_kind (s s' : string) :
  OsPath.basename s' = OsPath.basename s -> is_background s' = is_background s.
Proof.
  intros Heq. unfold is_background.
  now rewrite <- (PathFacts.basename_background s'), Heq, PathFacts.basename_background.
Qed.

Lemma records_background (w : world) (scripts : list string) :
  forall (i : nat) (ran : gmap string json) (s : string),
  s ∈ scripts -> is_background s = true ->
  records w i scripts ran !! OsPath.basename s = Some backgrounded.
Proof.
  induction scripts as [|s0 rest IH]; intros i ran s Hin Hbg; [inversion Hin|].
  cbn [records].
  destruct (decide (Exists (fun s' => OsPath.basename s' = OsPath.basename s) rest))
    as [Hsome|Hnone]; rewrite Exists_exists in *.
  - destruct Hsome as (s' & Hin' & Heq). rewrite <- Heq. apply IH; [exact Hin'|].
    now rewrite (same_basename_same_kind s s' Heq).
  - assert (OsPath.basename s0 = OsPath.basename s) as Heq0.
    { apply elem_of_cons in Hin as [->|Hin]; [reflexivity|].
      exfalso. apply Hnone. now exists s. }
    rewrite records_keeps.
    + rewrite <- Heq0, lookup_insert_eq. unfold record_of.
      now rewrite (same_basename_same_kind s s0 Heq0), Hbg.
    + intros s' Hin' Heq. apply Hnone. now exists s'.
Qed.

(** ** Dispatch *)

Section Dispatch.

Variables (w : world) (cfg : gmap string json) (payload : json) (m : metadata).
Variable scripts : list string.
Hypothesis start : hooks_start w m 0 scripts.
Hypothesis text : hooks_print_text w 0 scripts.

(** The whole of a dispatch whose hooks can be started and print text:
    the shared file is made and written, the loop runs, the shared file
    is removed, and the answer is given. *)
Lemma dispatch_completes :
  exists loop closing : list effect,
    dispatch w (JDict cfg) payload m scripts
    = (MkStemp 0 :: Write 0 payload :: loop ++ Remove 0 :: closing,
       Ok (done_or_results w cfg scripts))
    /\ only_logs closing
    /\ run_scripts w payload m 0 0 1 scripts ∅ = (loop, Ok (records w 0 scripts ∅))
    /\ went_through w payload scripts loop.
Proof.
  destruct (run_scripts_completes w payload m 0 scripts 0 1 ∅ start text)
    as (loop & Hrun & Hinv & Hwait & Hcre & Hwri & Hrem & Hbgf & Hfile & Hlog).
  exists loop.
  exists (if Py.truthy (default (JBool false) (cfg !! "return_scripts_info"))
          then [Log INFO (Output (records w 0 scripts ∅))] else []).
  split; [|split; [|split; [exact Hrun | now constructor]]].
  - unfold dispatch, done_or_results. rewrite !bind_emit.
    rewrite Hrun, bind_Ok, bind_emit. simpl Py.get. rewrite bind_lift_Ok.
    destruct (Py.truthy (default (JBool false) (cfg !! "return_scripts_info")));
      reflexivity.
  - destruct (Py.truthy _); repeat constructor.
Qed.

End Dispatch.

(** ** Where a request can be turned away *)

Lemma bind_assoc {A B C} (c : act A) (k1 : A -> act B) (k2 : B -> act C) :
  bind (bind c k1) k2 = bind c (fun a => bind (k1 a) k2).
Proof.
  destruct c as [t [a| |]]; try reflexivity.
  unfold bind at 2 3. destruct (k1 a) as [t1 [b| |]]; try reflexivity.
  unfold bind. destruct (k2 b) as [t2 o]. now rewrite app_assoc.
Qed.

Lemma no_abort_obind {A B} (c : outcome A) (k : A -> outcome B) :
  no_abort c -> (forall a, no_abort (k a)) -> no_abort (obind c k).
Proof.
  intros Hc Hk st. destruct c as [a|st'|]; simpl;
    [apply Hk | exfalso; now apply (Hc st') | discriminate].
Qed.

Lemma never_aborts_bind {A B} (c : act A) (k : A -> act B) :
  never_aborts c -> (forall a, never_aborts (k a)) -> never_aborts (bind c k).
Proof.
  intros Hc Hk st. destruct c as [t [a|st'|]]; simpl.
  - specialize (Hk a st). now destruct (k a).
  - exfalso. now apply (Hc st').
  - discriminate.
Qed.

Lemma never_aborts_lift {A} (o : outcome A) : no_abort o -> never_aborts (lift o).
Proof. intros H st. apply H. Qed.

Lemma never_aborts_emit (e : effect) : never_aborts (emit e).
Proof. intros st. discriminate. Qed.

Lemma never_aborts_ret {A} (a : A) : never_aborts (ret a).
Proof. intros st. discriminate. Qed.

Lemma never_aborts_logging lvl msg : never_aborts (logging lvl msg).
Proof. intros st. discriminate. Qed.

Lemma no_abort_contains key v : no_abort (Py.contains key v).
Proof. intros st. destruct v; discriminate. Qed.

Lemma no_abort_getitem v key : no_abort (Py.getitem v key).
Proof. intros st. destruct v; try discriminate. simpl. destruct (_ !! _); discriminate. Qed.

Lemma no_abort_split v sep n : no_abort (Py.split v sep n).
Proof. intros st. destruct v; discriminate. Qed.

Lemma no_abort_item pieces i : no_abort (Py.item pieces i).
Proof. intros st. unfold Py.item. destruct (_ !! _); discriminate. Qed.

Lemma no_abort_get d key dflt : no_abort (Py.get d key dflt).
Proof. intros st. destruct d; discriminate. Qed.

Lemma no_abort_Ok {A} (a : A) : no_abort (Ok a).
Proof. intros st. discriminate. Qed.

Lemma no_abort_decode raw : no_abort (Utf8.decode raw).
Proof. intros st. unfold Utf8.decode. destruct (Utf8.valid raw); discriminate. Qed.

Create HintDb aborts.

#[local] Hint Resolve no_abort_contains no_abort_getitem no_abort_split no_abort_item
  no_abort_get no_abort_Ok no_abort_decode never_aborts_emit never_aborts_ret
  never_aborts_lift never_aborts_logging : aborts.

Ltac no_aborts :=
  repeat first
    [ apply no_abort_obind; [|intros ?]
    | apply never_aborts_bind; [|intros ?]
    | progress auto with aborts
    | match goal with
      | |- no_abort (if ?c then _ else _) => destruct c
      | |- never_aborts (if ?c then _ else _) => destruct c
      end ].

Lemma no_abort_derive_branch ev payload : no_abort (derive_branch ev payload).
Proof.
  unfold derive_branch, except_KeyError.
  match goal with |- no_abort (match ?c with _ => _ end) => assert (no_abort c) as H end.
  { no_aborts. }
  match goal with |- no_abort (match ?c with _ => _ end) => destruct c as [v| |[]] end;
    try discriminate; try apply H; intros st; discriminate.
Qed.

Lemma no_abort_derive_name payload : no_abort (derive_name payload).
Proof. unfold derive_name. no_aborts. Qed.

Lemma no_abort_is_push_delete ev payload : no_abort (is_push_delete ev payload).
Proof. unfold is_push_delete. no_aborts. Qed.

Lemma no_abort_join_hooks hooks leaf : no_abort (join_hooks hooks leaf).
Proof. intros st. destruct hooks; discriminate. Qed.

#[local] Hint Resolve no_abort_derive_branch no_abort_derive_name no_abort_is_push_delete
  no_abort_join_hooks : aborts.

Lemma never_aborts_append_tier announce hooks leaf scripts :
  never_aborts (append_tier announce hooks leaf scripts).
Proof. unfold append_tier, logging. no_aborts. Qed.

#[local] Hint Resolve never_aborts_append_tier : aborts.

Lemma never_aborts_possible_hooks w hooks m : never_aborts (possible_hooks w hooks m).
Proof. unfold possible_hooks. no_aborts. Qed.

Lemma never_aborts_popen w i s file m : never_aborts (popen w i s file m).
Proof.
  unfold popen. intros st.
  destruct (existsb _ _); [discriminate|]. destruct (w_spawn w i s); discriminate.
Qed.

#[local] Hint Resolve never_aborts_popen : aborts.

Lemma never_aborts_run_script w payload m shared i next s ran :
  never_aborts (run_script w payload m shared i next s ran).
Proof. unfold run_script, logging. no_aborts. Qed.

#[local] Hint Resolve never_aborts_possible_hooks never_aborts_run_script : aborts.

Lemma never_aborts_run_scripts w payload m shared scripts :
  forall i next ran, never_aborts (run_scripts w payload m shared i next scripts ran).
Proof.
  induction scripts as [|s rest IH]; intros i next ran; cbn [run_scripts]; no_aborts.
Qed.

#[local] Hint Resolve never_aborts_run_scripts : aborts.

Lemma never_aborts_dispatch w config payload m scripts :
  never_aborts (dispatch w config payload m scripts).
Proof. unfold dispatch, logging. no_aborts. Qed.

#[local] Hint Resolve never_aborts_dispatch : aborts.

(** Once the payload is parsed, nothing turns the request away. *)
Lemma never_aborts_handle_event w config hooks ev payload :
  never_aborts (handle_event w config hooks ev payload).
Proof.
  unfold handle_event, resolve_and_dispatch, logging. no_aborts.
Qed.

(** The checks log, and do nothing else; when they abort, it is with one
    of their own status codes. *)
Lemma check_origin_quiet w r :
  only_logs (fst (check_origin w r))
  /\ forall st, snd (check_origin w r) = Abort st -> st = 403%Z.
Proof.
  unfold check_origin. destruct (w_ip_address w (r_remote r)).
  - destruct (w_whitelist w) as [whitelist|].
    + destruct (existsb _ whitelist); simpl; split;
        try (repeat constructor); intros st H; now inversion H.
    + split; [constructor | discriminate].
  - split; [constructor | discriminate].
Qed.

Lemma github_ips_only_quiet w config r :
  only_logs (fst (github_ips_only w config r))
  /\ forall st, snd (github_ips_only w config r) = Abort st -> st = 403%Z.
Proof.
  unfold github_ips_only.
  pose proof (no_abort_get config "github_ips_only" (JBool true)) as Hget.
  destruct (Py.get config "github_ips_only" (JBool true)) as [enabled|st'|e].
  - rewrite bind_lift_Ok. destruct (Py.truthy enabled).
    + apply check_origin_quiet.
    + split; [constructor | discriminate].
  - exfalso. now apply (Hget st').
  - split; [constructor | discriminate].
Qed.

Lemma check_signature_quiet secret r :
  only_logs (fst (check_signature secret r))
  /\ forall st, snd (check_signature secret r) = Abort st -> st = 403%Z \/ st = 501%Z.
Proof.
  unfold check_signature. destruct (r_signature r) as [header|].
  - destruct (PyStr.split "=" None header) as [|sha_name [|signature [|? ?]]];
      try (split; [constructor | discriminate]).
    destruct (negb (String.eqb sha_name "sha1")).
    + split; [repeat constructor | intros st H; inversion H; tauto].
    + destruct (bytes_utf8 secret) as [key| |] eqn:Hkey;
        try (split; [constructor | destruct secret; discriminate]).
      rewrite bind_lift_Ok. unfold constant_time_compare.
      destruct (PyStr.isascii _ && PyStr.isascii signature);
        [|split; [constructor | discriminate]].
      rewrite bind_lift_Ok. destruct (String.eqb _ signature); simpl.
      * split; [constructor | discriminate].
      * split; [repeat constructor | intros st H; inversion H; tauto].
  - split; [repeat constructor | intros st H; inversion H; tauto].
Qed.

Lemma enforce_secret_quiet config r :
  only_logs (fst (enforce_secret config r))
  /\ forall st, snd (enforce_secret config r) = Abort st -> st = 403%Z \/ st = 501%Z.
Proof.
  unfold enforce_secret.
  pose proof (no_abort_get config "enforce_secret" (JStr "")) as Hget.
  destruct (Py.get config "enforce_secret" (JStr "")) as [secret|st'|e].
  - rewrite bind_lift_Ok. destruct (Py.truthy secret).
    + apply check_signature_quiet.
    + split; [constructor | discriminate].
  - exfalso. now apply (Hget st').
  - split; [constructor | discriminate].
Qed.

(** Lines 117-127 either answer the ping, or turn an unreadable body away
    with 400, or hand over to [handle_event], which never aborts. *)
Lemma answer_quiet w config hooks r (st : Z) :
  snd (answer w config hooks r) = Abort st ->
  answer w config hooks r = ([Log WARNING ParsingFailed], Abort 400).
Proof.
  unfold answer. destruct (String.eqb _ "ping"); [discriminate|].
  unfold get_json. destruct (r_json r) as [payload|]; [|reflexivity].
  rewrite bind_ret. intros H.
  exfalso. exact (never_aborts_handle_event w config hooks _ payload st H).
Qed.

(** The rejections, one by one (those of the signature check are
    [signature_verification]). *)
Lemma other_methods_are_405 (w : world) (r : request) :
  r_method r <> "POST" -> index w r = ([], Abort 405).
Proof.
  intros H. unfold index. now destruct (String.eqb_spec (r_method r) "POST").
Qed.

Lemma foreign_origin_is_403 (w : world) (r : request) (cfg : gmap string json)
    (whitelist : list string) :
  r_method r = "POST" -> load_config w = Ok (JDict cfg) ->
  Py.truthy (default (JBool true) (cfg !! "github_ips_only")) = true ->
  w_ip_address w (r_remote r) = true ->
  w_whitelist w = Some whitelist ->
  (forall valid_ip, valid_ip ∈ whitelist -> w_in_network w (r_remote r) valid_ip = false) ->
  index w r = ([Log ERROR (IpNotAllowed (r_remote r))], Abort 403).
Proof.
  intros Hm Hc Hon Hip Hlist Hout. unfold index. rewrite Hm. simpl negb. cbv iota.
  rewrite Hc, bind_lift_Ok. simpl Py.get. rewrite bind_lift_Ok.
  unfold github_ips_only. simpl Py.get. rewrite bind_lift_Ok, Hon.
  unfold check_origin. rewrite Hip, Hlist.
  assert (existsb (w_in_network w (r_remote r)) whitelist = false) as ->; [|reflexivity].
  clear Hlist. induction whitelist as [|valid_ip rest IH]; [reflexivity|].
  simpl. rewrite (Hout valid_ip) by left. apply IH.
  intros valid_ip' Hin. apply Hout. now right.
Qed.

Lemma unreadable_body_is_400 (w : world) (r : request) (cfg : gmap string json)
    (ev : string) :
  reaches_signature w r cfg -> snd (enforce_secret (JDict cfg) r) = Ok tt ->
  r_event r = Some ev -> ev <> "ping" -> r_json r = None ->
  index w r = ([Log WARNING ParsingFailed], Abort 400).
Proof.
  intros Hsig Hsec Hev Hping Hjson.
  rewrite (index_reaches_signature _ _ _ Hsig), (enforce_secret_silent _ _ Hsec), bind_ret.
  unfold answer. rewrite Hev. simpl default.
  destruct (String.eqb_spec ev "ping"); [contradiction|].
  unfold get_json. now rewrite Hjson.
Qed.

(** C9.  A request that is turned away -- whatever the status, which is
    one of 405 (method), 403 (origin, missing or wrong signature), 501
    (signature algorithm) and 400 (body that does not parse) -- leaves a
    trace of log lines only: no temporary file was created and no process
    started before the rejection, nor after. *)
Theorem rejected_requests_touch_nothing (w : world) (r : request) (st : Z) :
  snd (index w r) = Abort st ->
  only_logs (fst (index w r))
  /\ created (fst (index w r)) = []
  /\ invoked (fst (index w r)) = []
  /\ st ∈ [405; 403; 501; 400]%Z.
Proof.
  intros Hrejected.
  enough (only_logs (fst (index w r)) /\ st ∈ [405; 403; 501; 400]%Z) as [Hlogs Hst].
  { repeat split; [exact Hlogs | now apply only_logs_created
                   | now apply only_logs_invoked | exact Hst]. }
  revert Hrejected. unfold index.
  destruct (negb (String.eqb (r_method r) "POST")).
  { simpl. intros [= <-]. split; [constructor | set_solver]. }
  pose proof (no_abort_get) as Hget.
  destruct (load_config w) as [config|st'|e] eqn:Hconfig; try discriminate.
  { rewrite bind_lift_Ok.
    destruct (Py.get config "hooks_path" _) as [hooks|st'|e] eqn:Hhooks; try discriminate.
    - rewrite bind_lift_Ok.
      destruct (github_ips_only_quiet w config r) as [Hlog1 Hst1].
      destruct (github_ips_only w config r) as [t1 [[]|st1|e1]]; simpl in Hlog1, Hst1.
      + rewrite bind_Ok.
        destruct (enforce_secret_quiet config r) as [Hlog2 Hst2].
        destruct (enforce_secret config r) as [t2 [[]|st2|e2]]; simpl in Hlog2, Hst2.
        * rewrite bind_Ok. simpl. intros Habort.
          pose proof (answer_quiet _ _ _ _ _ Habort) as Hanswer.
          rewrite Hanswer in Habort |- *. simpl in Habort |- *.
          injection Habort as <-. split; [|set_solver].
          apply only_logs_app; [assumption|].
          apply only_logs_app; [assumption | repeat constructor].
        * simpl. intros [= <-]. split.
          -- apply only_logs_app; assumption.
          -- destruct (Hst2 st2 eq_refl) as [-> | ->]; set_solver.
        * discriminate.
      + simpl. intros [= <-]. split; [assumption|].
        rewrite (Hst1 st1 eq_refl). set_solver.
      + discriminate.
    - intros _. exfalso. now apply (Hget config "hooks_path"
                                    (JStr (OsPath.join (w_path w) "hooks")) st'). }
  exfalso. unfold load_config in Hconfig. destruct (w_config w); discriminate.
Qed.

(** A [GET] is turned away with 405 before anything else happens. *)
Lemma rejected_requests_touch_nothing_witness :
  snd (index (Sample.host (JDict (Sample.settings "" false)) ["/hooks/all"])
         {| r_method := "GET"; r_remote := "192.30.252.1"; r_signature := None;
            r_event := Some "push"; r_data := "(body)";
            r_json := Some (JDict Sample.push_main) |}) = Abort 405
  /\ only_logs (fst (index (Sample.host (JDict (Sample.settings "" false)) ["/hooks/all"])
         {| r_method := "GET"; r_remote := "192.30.252.1"; r_signature := None;
            r_event := Some "push"; r_data := "(body)";
            r_json := Some (JDict Sample.push_main) |})).
Proof.
  split; [reflexivity|].
  apply (rejected_requests_touch_nothing _ _ 405). reflexivity.
Defined.

(** ** Requests that get as far as dispatch *)

Lemma possible_hooks_only_logs w hooks m : only_logs (fst (possible_hooks w hooks m)).
Proof.
  unfold possible_hooks, append_tier.
  destruct hooks, (Py.truthy (branch m)), (Py.truthy (name m)); cbn;
    repeat constructor.
Qed.

Lemma only_logs_omap {B} (f : effect -> option B) (t : list effect) :
  (forall lvl msg, f (Log lvl msg) = None) -> only_logs t -> omap f t = [].
Proof.
  intros Hf. induction 1 as [|[] t He _ IH]; cbn in *; try discriminate; [reflexivity|].
  now rewrite Hf.
Qed.

(** ** The loop, whatever the hooks do (lines 198-239) *)

Lemma fst_bind {A B} (c : act A) (k : A -> act B) :
  fst (bind c k)
  = fst c ++ match snd c with Ok a => fst (k a) | _ => [] end.
Proof.
  destruct c as [t [a| |]]; simpl; [|now rewrite app_nil_r..].
  now destruct (k a).
Qed.

Lemma snd_bind {A B} (c : act A) (k : A -> act B) :
  snd (bind c k)
  = match snd c with
    | Ok a => snd (k a)
    | Abort st => Abort st
    | Raise e => Raise e
    end.
Proof. destruct c as [t [a| |]]; simpl; [now destruct (k a) | reflexivity..]. Qed.

Lemma invoked_of_processes (t : list effect) :
  invoked t = (fun p => fst (fst p)) <$> processes t.
Proof.
  unfold invoked, processes. induction t as [|[] t IH]; cbn; congruence.
Qed.

Lemma launches_of_processes (t : list effect) :
  launches t = fst <$> processes t.
Proof.
  unfold launches, processes. induction t as [|[] t IH]; cbn; congruence.
Qed.

Lemma processes_app (t1 t2 : list effect) : processes (t1 ++ t2) = processes t1 ++ processes t2.
Proof. apply omap_app. Qed.

Lemma only_logs_processes (t : list effect) : only_logs t -> processes t = [].
Proof. intros H. now apply only_logs_omap. Qed.

Section AnyHooks.

Variables (w : world) (payload : json) (m : metadata) (shared : tmpfile).

(** One turn of the loop: at most one process, on the file that belongs
    to the kind of the script, and no way out but the end of the turn, a
    [Popen] that raises, or a failed [decode]. *)
Lemma run_script_any (i next : nat) (s : string) (ran : gmap string json) :
  let c := run_script w payload m shared i next s ran in
  (processes (fst c)
   = [(s, (if is_background s then next else shared),
       (event m, py_str w (name m), py_str w (branch m)))]
   \/ (processes (fst c) = [] /\ exists e, snd c = Raise e))
  /\ created (fst c) = (if is_background s then [next] else [])
  /\ removed (fst c) = []
  /\ (forall st, snd c <> Abort st)
  /\ (forall e, snd c = Raise e ->
        e = UnicodeDecodeError \/ e = ValueError \/ e = OSError).
Proof.
  unfold run_script, popen, is_background, Utf8.decode.
  destruct (PyStr.endswith "-background" s);
    destruct (existsb PyStr.has_nul _);
    try destruct (w_spawn w i s);
    try (destruct (Utf8.valid (stdout _));
         [destruct (Utf8.valid (stderr _)); [destruct (returncode _ =? 0)%Z|]|]);
    cbn;
    (split; [first [left; reflexivity
                   | right; split; [reflexivity | eexists; reflexivity]]|]);
    repeat split; try discriminate; intros e [= <-]; tauto.
Qed.

(** The loop starts the scripts in the order of the list, skipping none,
    until the list ends, a [Popen] raises or a [decode] fails. *)
Lemma run_scripts_any (scripts : list string) :
  forall (i next : nat) (ran : gmap string json),
  let c := run_scripts w payload m shared i next scripts ran in
  (exists rest, scripts = invoked (fst c) ++ rest)
  /\ (forall ran', snd c = Ok ran' -> invoked (fst c) = scripts)
  /\ (forall e, snd c = Raise e ->
        e = UnicodeDecodeError \/ e = ValueError \/ e = OSError)
  /\ (forall s f args, (s, f, args) ∈ processes (fst c) ->
        s ∈ scripts
        /\ args = (event m, py_str w (name m), py_str w (branch m))
        /\ if is_background s
           then (next <= f)%nat /\ f ∈ created (fst c)
           else f = shared)
  /\ (exists k, created (fst c) = seq next k).
Proof.
  induction scripts as [|s rest IH]; intros i next ran c.
  - subst c. cbn. repeat split; try discriminate.
    + now exists [].
    + inversion H.
    + inversion H.
    + inversion H.
    + now exists 0%nat.
  - subst c. cbn [run_scripts].
    destruct (run_script_any i next s ran) as (Hproc & Hcre & _ & Habort & Hraise).
    cbv zeta in *.
    rewrite fst_bind, snd_bind, !invoked_of_processes.
    unfold created in *. rewrite processes_app, omap_app, fmap_app, Hcre.
    destruct (snd (run_script w payload m shared i next s ran)) as [ran1|st|e] eqn:Hsnd.
    + destruct Hproc as [Hproc | [_ [e0 He0]]]; [|discriminate He0].
      rewrite Hproc. cbn [fmap list_fmap fst app].
      destruct (IH (S i) (next + files_of s)%nat ran1)
        as ((rest' & Hrest) & Hall & Hexn & Hargs & (k & Hk)).
      rewrite !invoked_of_processes in *.
      split; [|split; [|split; [|split]]].
      * exists rest'. cbn [app]. now rewrite <- Hrest.
      * intros ran' Hok. now rewrite (Hall ran' Hok).
      * exact Hexn.
      * intros s' f args Hin. apply elem_of_cons in Hin as [Heq|Hin].
        -- injection Heq as -> -> ->. split; [left|split; [reflexivity|]].
           destruct (is_background s); [|reflexivity].
           split; [lia | left].
        -- destruct (Hargs s' f args Hin) as (Hs & Ha & Hf).
           split; [now right|split; [exact Ha|]].
           destruct (is_background s'); [|exact Hf].
           destruct Hf as [Hle Hin']. split; [lia|].
           apply elem_of_app. now right.
      * rewrite Hk. unfold files_of, is_background.
        destruct (PyStr.endswith "-background" s).
        -- exists (S k). cbn. now replace (next + 1)%nat with (S next) by lia.
        -- exists k. cbn. now rewrite Nat.add_0_r.
    + exfalso. exact (Habort st eq_refl).
    + assert (omap (fun e0 : effect => match e0 with MkStemp f => Some f | _ => None end) []
              = @nil tmpfile) as -> by reflexivity.
      assert (processes [] = []) as -> by reflexivity.
      rewrite !app_nil_r.
      split; [|split; [|split; [|split]]].
      * destruct Hproc as [-> | [-> _]]; [now exists rest | now exists (s :: rest)].
      * discriminate.
      * intros e' [= <-]. now apply Hraise.
      * intros s' f args Hin. destruct Hproc as [Hproc | [Hproc _]];
          rewrite Hproc in Hin; [|inversion Hin].
        apply list_elem_of_singleton in Hin. injection Hin as -> -> ->.
        split; [left|split; [reflexivity|]].
        destruct (is_background s); [|reflexivity].
        split; [lia | left].
      * destruct (is_background s); [now exists 1%nat | now exists 0%nat].
Qed.

End AnyHooks.

Lemma run_script_removes_nothing w payload m shared i next s ran :
  removed (fst (run_script w payload m shared i next s ran)) = [].
Proof. now destruct (run_script_any w payload m shared i next s ran) as (_ & _ & H & _). Qed.

Lemma run_scripts_removes_nothing w payload m shared scripts :
  forall i next ran,
  removed (fst (run_scripts w payload m shared i next scripts ran)) = [].
Proof.
  induction scripts as [|s rest IH]; intros i next ran; [reflexivity|].
  cbn [run_scripts]. rewrite fst_bind. unfold removed in *.
  rewrite omap_app. fold (removed (fst (run_script w payload m shared i next s ran))).
  rewrite run_script_removes_nothing.
  destruct (snd (run_script w payload m shared i next s ran)); [apply IH | reflexivity..].
Qed.

(** Whatever the hooks do, [dispatch] removes nothing but the shared
    file. *)
Lemma dispatch_removes_shared_only w config payload m scripts (f : tmpfile) :
  f ∈ removed (fst (dispatch w config payload m scripts)) -> f = 0%nat.
Proof.
  unfold dispatch.
  pose proof (run_scripts_removes_nothing w payload m 0 scripts 0 1 ∅) as Hloop.
  unfold removed in *.
  destruct (run_scripts w payload m 0 0 1 scripts ∅) as [loop [ran| |]];
    destruct (Py.get config "return_scripts_info" (JBool false)) as [info| |];
    cbn in *; try destruct (Py.truthy info);
    cbn in *; rewrite ?omap_app, ?Hloop; cbn;
    intros H; try (apply list_elem_of_singleton in H; exact H); inversion H.
Qed.

(** The whole of a dispatch in terms of its loop. *)
Lemma dispatch_unfolded (w : world) (cfg : gmap string json) (payload : json)
    (m : metadata) (scripts : list string) :
  dispatch w (JDict cfg) payload m scripts
  = match snd (run_scripts w payload m 0 0 1 scripts ∅) with
    | Ok ran =>
      (MkStemp 0 :: Write 0 payload :: fst (run_scripts w payload m 0 0 1 scripts ∅)
         ++ Remove 0
         :: (if Py.truthy (default (JBool false) (cfg !! "return_scripts_info"))
             then [Log INFO (Output ran)] else []),
       Ok (if Py.truthy (default (JBool false) (cfg !! "return_scripts_info"))
           then DumpsSorted ran else Dumps (status "done")))
    | Abort st =>
      (MkStemp 0 :: Write 0 payload :: fst (run_scripts w payload m 0 0 1 scripts ∅),
       Abort st)
    | Raise e =>
      (MkStemp 0 :: Write 0 payload :: fst (run_scripts w payload m 0 0 1 scripts ∅),
       Raise e)
    end.
Proof.
  unfold dispatch. rewrite !bind_emit.
  destruct (run_scripts w payload m 0 0 1 scripts ∅) as [loop [ran| |]]; try reflexivity.
  rewrite bind_Ok, bind_emit. simpl Py.get. rewrite bind_lift_Ok.
  destruct (Py.truthy (default (JBool false) (cfg !! "return_scripts_info"))); reflexivity.
Qed.

Section Resolved.

Variables (w : world) (r : request) (cfg : gmap string json).
Variables (ev : string) (payload b n : json) (candidates : list string).
Hypothesis reaches : reaches_extraction w r cfg ev payload.
Hypothesis branch_is : derive_branch ev payload = Ok b.
Hypothesis name_is : derive_name payload = Ok n.
Hypothesis not_deleted : is_push_delete ev payload = Ok false.
Hypothesis candidates_are :
  snd (possible_hooks w (hooks_of w cfg) (Metadata n b ev)) = Ok candidates.

(** Up to the permission check the handler only logs. *)
Lemma index_resolves :
  exists logs : list effect,
    only_logs logs
    /\ index w r
       = match check_permissions w candidates with
         | [] => (logs, Ok (Dumps (status "nop")))
         | _ :: _ =>
           (logs ++ fst (dispatch w (JDict cfg) payload (Metadata n b ev)
                           (check_permissions w candidates)),
            snd (dispatch w (JDict cfg) payload (Metadata n b ev)
                   (check_permissions w candidates)))
         end.
Proof.
  pose proof (possible_hooks_only_logs w (hooks_of w cfg) (Metadata n b ev)) as Hlogs.
  rewrite (index_reaches_extraction _ _ _ _ _ reaches).
  rewrite (handle_event_resolves w (JDict cfg) (hooks_of w cfg) ev payload b n
             branch_is name_is not_deleted).
  unfold resolve_and_dispatch.
  destruct (possible_hooks w (hooks_of w cfg) (Metadata n b ev)) as [logs o].
  simpl in candidates_are, Hlogs. subst o. rewrite bind_Ok.
  exists (Log INFO (MetadataIs (Metadata n b ev)) :: logs). split.
  - constructor; [reflexivity | exact Hlogs].
  - destruct (check_permissions w candidates); simpl; [now rewrite app_nil_r | reflexivity].
Qed.

(** With hooks that can be started and print text, the whole request. *)
Lemma index_dispatches :
  hooks_start w (Metadata n b ev) 0 (check_permissions w candidates) ->
  hooks_print_text w 0 (check_permissions w candidates) ->
  check_permissions w candidates <> [] ->
  exists logs loop closing : list effect,
    index w r
    = (logs ++ MkStemp 0 :: Write 0 payload :: loop ++ Remove 0 :: closing,
       Ok (done_or_results w cfg (check_permissions w candidates)))
    /\ only_logs logs /\ only_logs closing
    /\ went_through w payload (check_permissions w candidates) loop.
Proof.
  intros Hstart Htext Hsome.
  destruct index_resolves as (logs & Hlogs & Hindex).
  destruct (dispatch_completes w cfg payload (Metadata n b ev) _ Hstart Htext)
    as (loop & closing & Hdispatch & Hclosing & _ & Hloop).
  exists logs, loop, closing.
  split; [|split; [exact Hlogs | split; [exact Hclosing | exact Hloop]]].
  rewrite Hindex. destruct (check_permissions w candidates) eqn:Hscripts; [contradiction|].
  now rewrite Hdispatch.
Qed.

End Resolved.

(** Projections of the trace of a request that was dispatched. *)
Lemma omap_dispatched {B} (f : effect -> option B)
    (logs loop closing : list effect) (payload : json) :
  (forall lvl msg, f (Log lvl msg) = None) ->
  only_logs logs -> only_logs closing ->
  omap f (logs ++ MkStemp 0 :: Write 0 payload :: loop ++ Remove 0 :: closing)
  = option_list (f (MkStemp 0)) ++ option_list (f (Write 0 payload))
      ++ omap f loop ++ option_list (f (Remove 0)).
Proof.
  intros Hf Hlogs Hclosing.
  rewrite omap_app, (only_logs_omap f logs Hf Hlogs). cbn [app omap list_omap].
  rewrite omap_app. cbn [omap list_omap]. rewrite (only_logs_omap f closing Hf Hclosing).
  destruct (f (MkStemp 0)), (f (Write 0 payload)), (f (Remove 0)); cbn;
    now rewrite ?app_nil_r.
Qed.





Lemma dispatch_processes (w : world) (cfg : gmap string json) (payload : json)
    (m : metadata) (scripts : list string) :
  processes (fst (dispatch w (JDict cfg) payload m scripts))
  = processes (fst (run_scripts w payload m 0 0 1 scripts ∅)).
Proof.
  rewrite dispatch_unfolded.
  destruct (snd (run_scripts w payload m 0 0 1 scripts ∅)); simpl fst;
    unfold processes; cbn [omap list_omap]; [|reflexivity..].
  rewrite omap_app. destruct (Py.truthy _); cbn; now rewrite app_nil_r.
Qed.

Lemma dispatch_created (w : world) (cfg : gmap string json) (payload : json)
    (m : metadata) (scripts : list string) :
  created (fst (dispatch w (JDict cfg) payload m scripts))
  = 0%nat :: created (fst (run_scripts w payload m 0 0 1 scripts ∅)).
Proof.
  rewrite dispatch_unfolded.
  destruct (snd (run_scripts w payload m 0 0 1 scripts ∅)); simpl fst;
    unfold created; cbn [omap list_omap]; [|reflexivity..].
  rewrite omap_app. destruct (Py.truthy _); cbn; now rewrite app_nil_r.
Qed.

(** Whatever the hooks do, the file of a backgrounded hook that was
    started is one the loop created, is not the shared file, and is not
    removed. *)
Lemma dispatch_background_files (w : world) (cfg : gmap string json) (payload : json)
    (m : metadata) (scripts : list string) (s : string) (f : tmpfile) :
  (s, f) ∈ launches (fst (dispatch w (JDict cfg) payload m scripts)) ->
  is_background s = true ->
  f ∈ created (fst (dispatch w (JDict cfg) payload m scripts))
  /\ f <> 0%nat
  /\ (f ∉ removed (fst (dispatch w (JDict cfg) payload m scripts))).
Proof.
  intros Hin Hbg.
  destruct (run_scripts_any w payload m 0 scripts 0 1 ∅) as (_ & _ & _ & Hargs & _).
  rewrite launches_of_processes, dispatch_processes in Hin.
  apply list_elem_of_fmap in Hin as ([[s' f'] args] & Heq & Hin).
  cbn in Heq. injection Heq as <- <-.
  destruct (Hargs s f args Hin) as (_ & _ & Hfile). rewrite Hbg in Hfile.
  destruct Hfile as [Hle Hcreated].
  split; [rewrite dispatch_created; now right|].
  split; [lia|]. intros Hremoved.
  apply dispatch_removes_shared_only in Hremoved. lia.
Qed.



(** ** Backgrounded hooks *)

Lemma bind_ext {A B} (c : act A) (k1 k2 : A -> act B) :
  (forall a, k1 a = k2 a) -> bind c k1 = bind c k2.
Proof. intros H. destruct c as [t [a| |]]; simpl; [now rewrite H | reflexivity..]. Qed.

Lemma backgrounds_cons (s : string) (rest : list string) :
  backgrounds (s :: rest) = (files_of s + backgrounds rest)%nat.
Proof.
  unfold backgrounds, files_of, is_background. cbn [List.filter].
  now destruct (PyStr.endswith "-background" s).
Qed.

(** The loop over a list cut in two. *)
Lemma run_scripts_app w payload m shared (before after : list string) :
  forall i next ran,
  run_scripts w payload m shared i next (before ++ after) ran
  = bind (run_scripts w payload m shared i next before ran)
         (fun ran' => run_scripts w payload m shared (i + List.length before)
                        (next + backgrounds before) after ran').
Proof.
  induction before as [|s rest IH]; intros i next ran.
  - cbn [app run_scripts List.length]. rewrite bind_ret.
    unfold backgrounds. cbn. now rewrite !Nat.add_0_r.
  - cbn [app run_scripts]. rewrite bind_assoc. apply bind_ext. intros ran'.
    rewrite IH, backgrounds_cons. cbn [List.length].
    now replace (S i + List.length rest)%nat with (i + S (List.length rest))%nat by lia;
      rewrite Nat.add_assoc.
Qed.




(** * Further properties of the handler *)

(** Case analysis on the innermost scrutinee of the goal. *)
Ltac break_inner :=
  match goal with
  | |- context [match ?x with _ => _ end] =>
    lazymatch x with
    | context [match _ with _ => _ end] => fail
    | _ => destruct x eqn:?
    end
  end.

(** ** The two definitions of [constant_time_compare] (lines 34-44) *)

(** X1.  The loop that Pythons before 2.7.7 get (lines 38-44) answers
    [True] exactly when the two strings are equal; in particular strings
    of different lengths compare unequal, whatever they hold. *)
Theorem legacy_compare_decides_equality (val1 val2 : string) :
  (constant_time_compare_legacy val1 val2 = true <-> val1 = val2)
  /\ (String.length val1 <> String.length val2 ->
      constant_time_compare_legacy val1 val2 = false).
Proof.
  rewrite constant_time_compare_legacy_eqb. split.
  - apply String.eqb_eq.
  - intros Hlen. apply String.eqb_neq. intros ->. contradiction.
Qed.

(** X2.  On ASCII strings -- which is what [hexdigest()] returns -- the
    two definitions of [constant_time_compare] give the same answer: the
    choice made at line 34 does not change what is accepted. *)
Theorem compare_versions_agree (val1 val2 : string) :
  PyStr.isascii val1 = true -> PyStr.isascii val2 = true ->
  constant_time_compare val1 val2 = Ok (constant_time_compare_legacy val1 val2).
Proof.
  intros H1 H2. unfold constant_time_compare.
  now rewrite H1, H2, constant_time_compare_legacy_eqb.
Qed.

Lemma compare_versions_agree_witness :
  constant_time_compare "e7e0" "e7e1" = Ok (constant_time_compare_legacy "e7e0" "e7e1").
Proof. apply (compare_versions_agree "e7e0" "e7e1"); reflexivity. Defined.

(** ** The configuration (lines 65-78) *)

Lemma index_without_config (w : world) (r : request) :
  w_config w = NoFile -> r_method r = "POST" ->
  index w r = answer w default_config (JStr "/missing") r.
Proof.
  intros Hc Hm. unfold index, load_config. rewrite Hm, Hc. simpl negb. cbv iota.
  rewrite bind_lift_Ok.
  assert (forall d, Py.get default_config "hooks_path" d = Ok (JStr "/missing")) as ->
    by (intros d; vm_compute; reflexivity).
  rewrite bind_lift_Ok.
  assert (github_ips_only w default_config r = ret tt) as -> by (vm_compute; reflexivity).
  rewrite bind_ret.
  assert (enforce_secret default_config r = ret tt) as -> by (vm_compute; reflexivity).
  now rewrite bind_ret.
Qed.

(** X3.  Without a [config.json] beside the program the handler checks
    neither the origin nor the signature: two POST requests with the same
    event header and the same parsed body are treated alike, whatever
    their addresses, signature headers and raw bodies; and hooks are
    looked for in [/missing]. *)
Theorem no_config_file_no_checks (w : world) (r r' : request) :
  w_config w = NoFile ->
  r_method r = "POST" -> r_method r' = "POST" ->
  r_event r' = r_event r -> r_json r' = r_json r ->
  index w r' = index w r
  /\ index w r = answer w default_config (JStr "/missing") r.
Proof.
  intros Hc Hm Hm' Hev Hjson.
  rewrite !index_without_config by assumption. split; [|reflexivity].
  unfold answer, get_json. now rewrite Hev, Hjson.
Qed.

Lemma no_config_file_no_checks_witness :
  index (Cases.unconfigured ["/missing/all"])
        (Cases.stranger (Some "md5=bogus") (Some "fork") (Some (JDict ∅)))
  = index (Cases.unconfigured ["/missing/all"])
          (Sample.post None "fork" "(other body)" (Some (JDict ∅))).
Proof.
  exact (proj1 (no_config_file_no_checks (Cases.unconfigured ["/missing/all"])
                  (Sample.post None "fork" "(other body)" (Some (JDict ∅)))
                  (Cases.stranger (Some "md5=bogus") (Some "fork") (Some (JDict ∅)))
                  eq_refl eq_refl eq_refl eq_refl eq_refl)).
Defined.

(** X4.  A [config.json] that holds JSON other than an object (a list, a
    string, a number, ...) makes every POST end with [AttributeError] at
    line 78, before any check, with nothing logged. *)
Theorem config_must_be_an_object (w : world) (r : request) (config : json) :
  r_method r = "POST" -> load_config w = Ok config -> is_object config = false ->
  index w r = ([], Raise AttributeError).
Proof.
  intros Hm Hc Hobj. unfold index. rewrite Hm, Hc. simpl negb. cbv iota.
  rewrite bind_lift_Ok. destruct config; try discriminate; reflexivity.
Qed.

Lemma config_must_be_an_object_witness :
  index (Sample.host (JList [JStr "hooks_path"]) ["/hooks/all"])
        (Sample.post None "ping" "(body)" None)
  = ([], Raise AttributeError).
Proof.
  apply (config_must_be_an_object _ _ (JList [JStr "hooks_path"])); reflexivity.
Defined.

(** ** The origin check (lines 80-94) *)

(** X5.  When [config.json] is an object in which [github_ips_only] is
    true or absent (the default of line 81 is [True]), the origin is
    checked before the signature header, the event and the body are looked
    at: an address that [ip_address] refuses ends the request with
    [ValueError], and an address in none of the published ranges -- in
    particular when no range is published -- is answered 403 after one
    error line. *)
Theorem origin_is_checked_first (w : world) (r : request) (cfg : gmap string json) :
  r_method r = "POST" -> load_config w = Ok (JDict cfg) ->
  Py.truthy (default (JBool true) (cfg !! "github_ips_only")) = true ->
  (w_ip_address w (r_remote r) = false -> index w r = ([], Raise ValueError))
  /\ (forall whitelist : list string,
        w_ip_address w (r_remote r) = true -> w_whitelist w = Some whitelist ->
        (forall valid_ip, valid_ip ∈ whitelist ->
                          w_in_network w (r_remote r) valid_ip = false) ->
        index w r = ([Log ERROR (IpNotAllowed (r_remote r))], Abort 403)).
Proof.
  intros Hm Hc Hon. split.
  - intros Hip. unfold index. rewrite Hm. simpl negb. cbv iota.
    rewrite Hc, bind_lift_Ok. simpl Py.get. rewrite bind_lift_Ok.
    unfold github_ips_only. simpl Py.get. rewrite bind_lift_Ok, Hon.
    unfold check_origin. now rewrite Hip.
  - intros whitelist Hip Hlist Hout.
    now apply (foreign_origin_is_403 w r cfg whitelist).
Qed.

Lemma origin_is_checked_first_witness :
  index (Cases.deaf (JDict ∅)) (Cases.stranger None (Some "push") None)
  = ([], Raise ValueError)
  /\ index (Sample.host (JDict ∅) ["/hooks/all"])
           (Cases.stranger (Some "sha1") (Some "ping") None)
     = ([Log ERROR (IpNotAllowed "203.0.113.7")], Abort 403).
Proof.
  split.
  - apply (origin_is_checked_first (Cases.deaf (JDict ∅))
             (Cases.stranger None (Some "push") None) ∅); reflexivity.
  - apply (origin_is_checked_first (Sample.host (JDict ∅) ["/hooks/all"])
             (Cases.stranger (Some "sha1") (Some "ping") None) ∅)
      with (whitelist := ["192.30.252.0/22"]);
      reflexivity.
Defined.

(** ** Ping (lines 117-120) *)

(** X6.  A request that passed the checks and whose event is [ping], or
    that names no event at all, is answered [{"msg": "pong"}] at once:
    the body is not parsed, nothing is logged, no hook is looked for. *)
Theorem ping_is_answered_unread (w : world) (r : request) (cfg : gmap string json) :
  reaches_signature w r cfg -> snd (enforce_secret (JDict cfg) r) = Ok tt ->
  r_event r = None \/ r_event r = Some "ping" ->
  index w r = ([], Ok (Dumps pong)).
Proof.
  intros Hsig Hsec Hev.
  rewrite (index_reaches_signature _ _ _ Hsig), (enforce_secret_silent _ _ Hsec), bind_ret.
  unfold answer. now destruct Hev as [-> | ->].
Qed.

Lemma ping_is_answered_unread_witness :
  index (Sample.host (JDict (Sample.settings "" false)) ["/hooks/all"; "/hooks/ping"])
        {| r_method := "POST"; r_remote := "192.30.252.1"; r_signature := None;
           r_event := None; r_data := "not JSON"; r_json := None |}
  = ([], Ok (Dumps pong)).
Proof.
  apply (ping_is_answered_unread _ _ (Sample.settings "" false));
    [split; reflexivity | reflexivity | left; reflexivity].
Defined.

(** ** The branch (lines 129-153) *)

(** X7.  When the payload has a [ref_type] (create and delete events),
    whatever the event header says: the branch is the payload's [ref],
    taken as it is, if [ref_type] is ["branch"], and [None] otherwise (a
    tag) or when there is no [ref]; neither [pull_request] nor the rule
    for pushes is consulted. *)
Theorem branch_of_ref_type (ev : string) (fields : gmap string json) (ref_type : json) :
  fields !! "ref_type" = Some ref_type ->
  derive_branch ev (JDict fields)
  = Ok (if Py.eq_str ref_type "branch" then default JNull (fields !! "ref") else JNull).
Proof.
  intros H. unfold derive_branch. cbn [Py.contains Py.getitem obind]. rewrite H.
  rewrite bool_decide_eq_true_2 by eauto. cbn [obind].
  destruct (Py.eq_str ref_type "branch"); [|reflexivity].
  now destruct (fields !! "ref").
Qed.

Lemma branch_of_ref_type_witness :
  derive_branch "push" (JDict (<["pull_request" := JNull]> Cases.create_branch))
  = Ok (JStr "dev").
Proof.
  rewrite (branch_of_ref_type "push" (<["pull_request" := JNull]> Cases.create_branch)
             (JStr "branch"));
    vm_compute; reflexivity.
Defined.

(** X8.  When the payload has a [pull_request] and no [ref_type],
    whatever the event: the branch is [pull_request.base.ref], the target
    of the pull request; a missing [base] or [ref] gives no branch, as the
    [except KeyError] provides; but a [pull_request] or a [base] that is
    not an object raises [TypeError], which nothing catches. *)
Theorem branch_of_pull_request (ev : string) (fields : gmap string json)
    (pull_request : json) :
  fields !! "ref_type" = None -> fields !! "pull_request" = Some pull_request ->
  derive_branch ev (JDict fields)
  = match pull_request with
    | JDict inside =>
      match inside !! "base" with
      | Some (JDict base) => Ok (default JNull (base !! "ref"))
      | Some _ => Raise TypeError
      | None => Ok JNull
      end
    | _ => Raise TypeError
    end.
Proof.
  intros Hrt Hpr. unfold derive_branch. cbn [Py.contains Py.getitem obind].
  rewrite Hrt, Hpr.
  rewrite bool_decide_eq_false_2 by (intros [? ?]; discriminate).
  rewrite bool_decide_eq_true_2 by eauto. cbn [obind].
  destruct pull_request as [| | | | | |inside]; try reflexivity.
  cbn [Py.getitem obind]. destruct (inside !! "base") as [[| | | | | |base]|]; try reflexivity.
  cbn [Py.getitem obind]. now destruct (base !! "ref").
Qed.

Lemma branch_of_pull_request_witness :
  derive_branch "pull_request" (JDict Cases.pull_request_to_main) = Ok (JStr "main")
  /\ derive_branch "issue_comment" (JDict {[ "pull_request" := JNull ]}) = Raise TypeError.
Proof.
  split.
  - rewrite (branch_of_pull_request "pull_request" Cases.pull_request_to_main
               (JDict {[ "base" := JDict {[ "ref" := JStr "main" ]};
                         "head" := JDict {[ "ref" := JStr "feature" ]} ]}));
      vm_compute; reflexivity.
  - rewrite (branch_of_pull_request "issue_comment" {[ "pull_request" := JNull ]} JNull);
      vm_compute; reflexivity.
Defined.

(** A limited split gives one piece more than it found separators to cut
    at. *)
Lemma split_length_exact (sep : ascii) (s : string) :
  forall n : nat,
  List.length (PyStr.split sep (Some n) s) = S (Nat.min n (PyStr.count sep s)).
Proof.
  induction s as [|c s IH]; intros [|n]; simpl; try reflexivity.
  destruct (Ascii.eqb c sep); simpl.
  - now rewrite IH.
  - pose proof (PyStrFacts.split_nonempty sep (Some (S n)) s) as Hne.
    specialize (IH (S n)).
    destruct (PyStr.split sep (Some (S n)) s); [contradiction|]. exact IH.
Qed.

(** X9.  A push whose [ref] holds fewer than two slashes (["main"],
    ["heads/main"], the empty string) has no third piece: line 148 raises
    [IndexError], which the [except KeyError] of line 150 does not catch,
    and the request ends there with nothing logged. *)
Theorem short_push_ref_raises_IndexError (w : world) (r : request)
    (cfg fields : gmap string json) (ref : string) :
  reaches_extraction w r cfg "push" (JDict fields) ->
  fields !! "ref_type" = None -> fields !! "pull_request" = None ->
  fields !! "ref" = Some (JStr ref) -> (PyStr.count "/" ref < 2)%nat ->
  derive_branch "push" (JDict fields) = Raise IndexError
  /\ index w r = ([], Raise IndexError).
Proof.
  intros Hreach Hrt Hpr Href Hshort.
  assert (derive_branch "push" (JDict fields) = Raise IndexError) as Hbranch.
  { rewrite (push_branch_line_148 fields Hrt Hpr). cbn [Py.getitem obind].
    rewrite Href. cbn [obind Py.split]. unfold Py.item.
    pose proof (split_length_exact "/" ref 2) as Hlen.
    rewrite lookup_ge_None_2; [reflexivity|].
    rewrite Hlen. lia. }
  split; [exact Hbranch|].
  rewrite (index_reaches_extraction _ _ _ _ _ Hreach).
  unfold handle_event. now rewrite Hbranch.
Qed.

Lemma short_push_ref_raises_IndexError_witness :
  index (Sample.host (JDict (Sample.settings "" false)) ["/hooks/push"])
        (Sample.post None "push" "(body)" (Some (JDict Cases.push_bare_ref)))
  = ([], Raise IndexError).
Proof.
  apply (short_push_ref_raises_IndexError _ _ (Sample.settings "" false)
           Cases.push_bare_ref "main").
  - repeat split; try reflexivity. discriminate.
  - vm_compute; reflexivity.
  - vm_compute; reflexivity.
  - vm_compute; reflexivity.
  - simpl; lia.
Defined.

(** X10.  The branch of a push is what follows the second slash of its
    [ref], whatever the first two pieces are: [refs/heads/b] gives [b],
    slashes of [b] included, and a pushed tag [refs/tags/t] gives [t] as
    its branch. *)
Theorem push_branch_follows_the_second_slash (fields : gmap string json)
    (first second rest : string) :
  fields !! "ref_type" = None -> fields !! "pull_request" = None ->
  PyStr.count "/" first = 0%nat -> PyStr.count "/" second = 0%nat ->
  fields !! "ref" = Some (JStr (first +:+ "/" +:+ second +:+ "/" +:+ rest)) ->
  derive_branch "push" (JDict fields) = Ok (JStr rest).
Proof.
  intros Hrt Hpr H1 H2 Href.
  now apply (push_branch_after_second_slash fields Hrt Hpr first second rest).
Qed.

Lemma push_branch_follows_the_second_slash_witness :
  derive_branch "push" (JDict Cases.push_tag) = Ok (JStr "v1").
Proof.
  apply (push_branch_follows_the_second_slash Cases.push_tag "refs" "tags" "v1");
    vm_compute; reflexivity.
Defined.

(** X11.  The branch derivation never ends in [KeyError] nor in an
    abort: the only exceptions that leave lines 131-153 are [TypeError]
    (a payload, [pull_request] or [base] that cannot be searched or
    subscripted), [AttributeError] (a [ref] of a push that is not a
    string) and [IndexError] (a [ref] of a push with fewer than two
    slashes). *)
Theorem derive_branch_failures (ev : string) (payload : json) :
  (forall st : Z, derive_branch ev payload <> Abort st)
  /\ forall e : exn,
       derive_branch ev payload = Raise e ->
       e = TypeError \/ e = AttributeError \/ e = IndexError.
Proof.
  split; [apply no_abort_derive_branch|].
  intros e.
  unfold derive_branch, except_KeyError, obind, Py.contains, Py.getitem, Py.split, Py.item.
  repeat (break_inner; cbv beta iota); intros Heq; try discriminate Heq;
    injection Heq as <-; tauto.
Qed.

(** X12.  A body that parses to [null], a boolean or a number is not
    turned away with 400: the first [in] of line 135 raises [TypeError],
    which the [except KeyError] does not catch, and the request ends there
    with nothing logged. *)
Theorem scalar_payload_raises_TypeError (w : world) (r : request)
    (cfg : gmap string json) (ev : string) (payload : json) :
  reaches_extraction w r cfg ev payload -> is_scalar payload = true ->
  index w r = ([], Raise TypeError).
Proof.
  intros Hreach Hscalar. rewrite (index_reaches_extraction _ _ _ _ _ Hreach).
  destruct payload; try discriminate; reflexivity.
Qed.

Lemma scalar_payload_raises_TypeError_witness :
  index (Sample.host (JDict (Sample.settings "" false)) ["/hooks/all"])
        (Sample.post None "push" "null" (Some JNull))
  = ([], Raise TypeError).
Proof.
  apply (scalar_payload_raises_TypeError _ _ (Sample.settings "" false) "push" JNull);
    [repeat split; try reflexivity; discriminate | reflexivity].
Defined.

(** ** The order of the hooks, their arguments and their files *)

(** X13.  Whatever the hooks do, a dispatch starts the scripts of its
    list in the order of the list and skips none: the scripts started are
    always an initial piece of the list, and the whole list when the
    dispatch ends with an answer.  The only exceptions that can end a
    dispatch are the [ValueError] and the [OSError] of [Popen] (lines 210
    and 220) and the [UnicodeDecodeError] of lines 228-229, and a dispatch
    never aborts. *)
Theorem hooks_start_in_list_order (w : world) (cfg : gmap string json) (payload : json)
    (m : metadata) (scripts : list string) :
  (exists rest : list string,
     scripts = invoked (fst (dispatch w (JDict cfg) payload m scripts)) ++ rest)
  /\ (forall resp : response,
        snd (dispatch w (JDict cfg) payload m scripts) = Ok resp ->
        invoked (fst (dispatch w (JDict cfg) payload m scripts)) = scripts)
  /\ (forall e : exn,
        snd (dispatch w (JDict cfg) payload m scripts) = Raise e ->
        e = UnicodeDecodeError \/ e = ValueError \/ e = OSError)
  /\ (forall st : Z, snd (dispatch w (JDict cfg) payload m scripts) <> Abort st).
Proof.
  destruct (run_scripts_any w payload m 0 scripts 0 1 ∅)
    as ((rest & Hrest) & Hall & Hexn & _ & _).
  pose proof (never_aborts_run_scripts w payload m 0 scripts 0 1 ∅) as Habort.
  rewrite dispatch_unfolded.
  destruct (snd (run_scripts w payload m 0 0 1 scripts ∅)) as [ran|st|e] eqn:Hsnd;
    simpl fst; simpl snd.
  - assert (invoked (MkStemp 0 :: Write 0 payload
                       :: fst (run_scripts w payload m 0 0 1 scripts ∅)
                       ++ Remove 0
                       :: (if Py.truthy (default (JBool false) (cfg !! "return_scripts_info"))
                           then [Log INFO (Output ran)] else []))
            = scripts) as Hinv.
    { unfold invoked in *. cbn [omap list_omap]. rewrite omap_app.
      rewrite (Hall ran eq_refl). destruct (Py.truthy _); cbn; now rewrite app_nil_r. }
    rewrite Hinv. split; [|split; [|split]].
    + exists []. now rewrite app_nil_r.
    + reflexivity.
    + discriminate.
    + discriminate.
  - exfalso. exact (Habort st Hsnd).
  - repeat split; try discriminate.
    + exists rest. exact Hrest.
    + intros e' [= <-]. now apply Hexn.
Qed.

(** X14.  Every process a dispatch starts is a script of its list,
    started with a payload file, the event, [str(name)] and [str(branch)]
    and nothing else; a script that is waited for gets the shared file, a
    backgrounded one a file created after it.  A name or a branch that is
    [None] reaches the hook as the text [None]. *)
Theorem every_process_is_a_listed_hook (w : world) (cfg : gmap string json)
    (payload : json) (m : metadata) (scripts : list string)
    (s : string) (f : tmpfile) (args : string * string * string) :
  (s, f, args) ∈ processes (fst (dispatch w (JDict cfg) payload m scripts)) ->
  s ∈ scripts
  /\ args = (event m, py_str w (name m), py_str w (branch m))
  /\ (if is_background s then (1 <= f)%nat else f = 0%nat)
  /\ py_str w JNull = "None".
Proof.
  destruct (run_scripts_any w payload m 0 scripts 0 1 ∅) as (_ & _ & _ & Hargs & _).
  intros Hin. rewrite dispatch_processes in Hin.
  destruct (Hargs s f args Hin) as (Hs & Ha & Hf).
  split; [exact Hs|]. split; [exact Ha|]. split; [|reflexivity].
  destruct (is_background s); [apply Hf | exact Hf].
Qed.

Lemma every_process_is_a_listed_hook_witness :
  "/hooks/all" ∈ ["/hooks/fork-background"; "/hooks/all"]
  /\ ("fork", "None", "None")
     = (event (Metadata JNull JNull "fork"),
        py_str (Sample.host (JDict (Sample.settings "" false)) []) JNull,
        py_str (Sample.host (JDict (Sample.settings "" false)) []) JNull).
Proof.
  destruct (every_process_is_a_listed_hook
              (Sample.host (JDict (Sample.settings "" false)) [])
              (Sample.settings "" false) (JDict ∅) (Metadata JNull JNull "fork")
              ["/hooks/fork-background"; "/hooks/all"]
              "/hooks/all" 0%nat ("fork", "None", "None"))
    as (Hs & Ha & _).
  - vm_compute. right. left.
  - split; [exact Hs | exact Ha].
Defined.

(** X15.  The shared payload file is the first file a dispatch creates,
    and it is removed exactly when the dispatch ends with an answer: a
    dispatch that ends with an exception leaves it behind, and no other
    file is ever removed. *)
Theorem shared_file_is_removed_on_success_only (w : world) (cfg : gmap string json)
    (payload : json) (m : metadata) (scripts : list string) :
  (exists k : nat,
     created (fst (dispatch w (JDict cfg) payload m scripts)) = 0%nat :: seq 1 k)
  /\ removed (fst (dispatch w (JDict cfg) payload m scripts))
     = match snd (dispatch w (JDict cfg) payload m scripts) with
       | Ok _ => [0%nat]
       | _ => []
       end.
Proof.
  destruct (run_scripts_any w payload m 0 scripts 0 1 ∅) as (_ & _ & _ & _ & (k & Hk)).
  pose proof (run_scripts_removes_nothing w payload m 0 scripts 0 1 ∅) as Hrem.
  rewrite dispatch_unfolded. unfold created, removed in *.
  destruct (snd (run_scripts w payload m 0 0 1 scripts ∅)); simpl fst; simpl snd;
    cbn [omap list_omap]; rewrite ?omap_app, ?Hk, ?Hrem.
  - destruct (Py.truthy _); cbn; rewrite ?app_nil_r; split; try reflexivity; now exists k.
  - split; [now exists k | reflexivity].
  - split; [now exists k | reflexivity].
Qed.

(** ASCII text is valid UTF-8. *)
Lemma ascii_is_utf8 (s : string) : PyStr.isascii s = true -> Utf8.valid s = true.
Proof.
  unfold Utf8.valid, Sha1.bytes_of_string.
  induction s as [|c s IH]; [reflexivity|].
  cbn [PyStr.isascii list_ascii_of_string fmap list_fmap].
  intros H. apply andb_true_iff in H as [Hc Hs].
  cbn [Utf8.valid_bytes].
  assert ((Z.of_N (N_of_ascii c) <=? 127)%Z = true) as ->.
  { apply Z.leb_le. apply N.ltb_lt in Hc. lia. }
  now apply IH.
Qed.



(** ** Base names of the scripts (lines 176-186, 215 and 226) *)

Lemma basename_from_app (a : string) :
  forall piece b : string,
  OsPath.basename_from piece (a +:+ b)
  = OsPath.basename_from (OsPath.basename_from piece a) b.
Proof.
  induction a as [|c a IH]; intros piece b.
  - now rewrite PathFacts.app_nil.
  - rewrite PathFacts.app_cons. cbn [OsPath.basename_from].
    destruct (Ascii.eqb c "/"); apply IH.
Qed.

Lemma basename_after_slash (x rest : string) :
  OsPath.basename (x +:+ "/" +:+ rest) = OsPath.basename rest.
Proof. unfold OsPath.basename. now rewrite basename_from_app. Qed.

Lemma basename_from_plain (leaf : string) :
  forall piece : string,
  PyStr.count "/" leaf = 0%nat -> OsPath.basename_from piece leaf = piece +:+ leaf.
Proof.
  induction leaf as [|c leaf IH]; intros piece Hfree.
  - cbn. now rewrite PathFacts.app_empty.
  - cbn [OsPath.basename_from PyStr.count] in *.
    destruct (Ascii.eqb c "/"); [discriminate|].
    rewrite IH by exact Hfree. now rewrite PathFacts.app_assoc.
Qed.

(** X17.  The key under which the loop records the result of a hook,
    [basename(join(hooks, leaf))], does not depend on the hooks directory:
    it is the base name of the leaf, and the leaf itself when the leaf
    holds no slash. *)
Theorem results_are_keyed_by_leaf (dir leaf : string) :
  OsPath.basename (OsPath.join dir leaf) = OsPath.basename leaf
  /\ (PyStr.count "/" leaf = 0%nat -> OsPath.basename (OsPath.join dir leaf) = leaf).
Proof.
  assert (OsPath.basename (OsPath.join dir leaf) = OsPath.basename leaf) as Hbase.
  { unfold OsPath.join. destruct (PyStr.startswith "/" leaf); [reflexivity|].
    destruct (String.eqb_spec dir "") as [->|_]; [reflexivity|].
    cbn [orb]. destruct (PyStr.endswith "/" dir) eqn:Hend.
    - apply PathFacts.endswith_spec in Hend as [p ->].
      rewrite PathFacts.app_assoc. apply basename_after_slash.
    - apply basename_after_slash. }
  split; [exact Hbase|].
  intros Hfree. rewrite Hbase. unfold OsPath.basename.
  now rewrite basename_from_plain.
Qed.

(** ** Which scripts a request starts (lines 171-189) *)

Lemma not_push_not_deleted (ev : string) (payload : json) :
  ev <> "push" -> is_push_delete ev payload = Ok false.
Proof. intros H. unfold is_push_delete. now destruct (String.eqb_spec ev "push"). Qed.

Lemma text_everywhere (w : world) (first : nat) (scripts : list string) :
  (forall i s, prints_text (w_communicate w i s)) -> hooks_print_text w first scripts.
Proof. intros H i s _ _. apply H. Qed.

Lemma starts_all_checked (w : world) (m : metadata) (first : nat)
    (candidates : list string) :
  starts_all w m -> hooks_start w m first (check_permissions w candidates).
Proof.
  intros [Hargs Hfiles] i s Hi.
  assert (s ∈ check_permissions w candidates) as Hin
    by (apply list_elem_of_lookup; now exists i).
  unfold check_permissions in Hin. apply list_elem_of_filter in Hin as [Hrun _].
  destruct (Hfiles (first + i)%nat s Hrun) as [Hnul Hspawn].
  split; [|exact Hspawn]. cbn [existsb] in *. now rewrite Hnul.
Qed.

(** With hooks that can be started and print text, the scripts started
    are those that passed the permission check. *)
Lemma index_invokes (w : world) (r : request) (cfg : gmap string json)
    (ev : string) (payload b n : json) (candidates : list string) :
  reaches_extraction w r cfg ev payload ->
  derive_branch ev payload = Ok b ->
  derive_name payload = Ok n ->
  is_push_delete ev payload = Ok false ->
  snd (possible_hooks w (hooks_of w cfg) (Metadata n b ev)) = Ok candidates ->
  hooks_start w (Metadata n b ev) 0 (check_permissions w candidates) ->
  hooks_print_text w 0 (check_permissions w candidates) ->
  invoked (fst (index w r)) = check_permissions w candidates.
Proof.
  intros Hreach Hb Hn Hskip Hcand Hstart Htext.
  destruct (check_permissions w candidates) as [|s0 rest] eqn:Hscripts.
  - destruct (index_resolves w r cfg ev payload b n candidates Hreach Hb Hn Hskip Hcand)
      as (logs & Hlogs & Hindex).
    rewrite Hscripts in Hindex. rewrite Hindex. now apply only_logs_invoked.
  - destruct (index_dispatches w r cfg ev payload b n candidates Hreach Hb Hn Hskip Hcand)
      as (logs & loop & closing & Hindex & Hlogs & Hclosing & Hloop);
      rewrite ?Hscripts; [exact Hstart | exact Htext | discriminate |].
    rewrite Hscripts in *. destruct Hloop as [Hinv _ _ _ _ _ _ _]. rewrite Hindex. simpl fst.
    unfold invoked in *. rewrite omap_dispatched by (reflexivity || assumption).
    cbn. now rewrite app_nil_r.
Qed.





Lemma possible_hooks_need_text (w : world) (hooks : json) (m : metadata) :
  is_text hooks = false -> snd (possible_hooks w hooks m) = Raise TypeError.
Proof.
  intros H. unfold possible_hooks, append_tier, join_hooks.
  destruct hooks; try discriminate;
    destruct (Py.truthy (branch m)), (Py.truthy (name m)); reflexivity.
Qed.

(** X20.  A [hooks_path] that is not a string ([null], a number, a
    list, ...) is found out only when the first candidate is built:
    [join] raises [TypeError] after the metadata were logged, and no
    process is started. *)
Theorem hooks_path_must_be_text (w : world) (r : request) (cfg : gmap string json)
    (ev : string) (payload b n : json) :
  reaches_extraction w r cfg ev payload ->
  derive_branch ev payload = Ok b ->
  derive_name payload = Ok n ->
  is_push_delete ev payload = Ok false ->
  is_text (hooks_of w cfg) = false ->
  snd (index w r) = Raise TypeError /\ only_logs (fst (index w r)).
Proof.
  intros Hreach Hb Hn Hskip Htext.
  rewrite (index_reaches_extraction _ _ _ _ _ Hreach).
  rewrite (handle_event_resolves w (JDict cfg) (hooks_of w cfg) ev payload b n Hb Hn Hskip).
  simpl fst. simpl snd. unfold resolve_and_dispatch.
  rewrite snd_bind, fst_bind, possible_hooks_need_text by exact Htext.
  split; [reflexivity|]. rewrite app_nil_r.
  constructor; [reflexivity | apply possible_hooks_only_logs].
Qed.

Lemma hooks_path_must_be_text_witness :
  snd (index (Sample.host (JDict {[ "github_ips_only" := JBool false; "hooks_path" := JNull ]})
                []) (Sample.post None "fork" "(body)" (Some (JDict ∅))))
  = Raise TypeError.
Proof.
  apply (hooks_path_must_be_text
           (Sample.host (JDict {[ "github_ips_only" := JBool false; "hooks_path" := JNull ]}) [])
           (Sample.post None "fork" "(body)" (Some (JDict ∅)))
           {[ "github_ips_only" := JBool false; "hooks_path" := JNull ]}
           "fork" (JDict ∅) JNull JNull).
  - repeat split; try reflexivity. discriminate.
  - vm_compute; reflexivity.
  - vm_compute; reflexivity.
  - reflexivity.
  - vm_compute; reflexivity.
Defined.

(** ** The signature check, off the expected path (lines 96-115) *)

(** X21.  With a secret that is true but not a string (a number,
    [true], a list, ...), a request whose header is [sha1=...] makes line
    111 raise [TypeError], whatever the digest: such a request is neither
    let through nor answered 403. *)
Theorem secret_must_be_text (w : world) (r : request) (cfg : gmap string json)
    (secret : json) (signature : string) :
  reaches_signature w r cfg ->
  cfg !! "enforce_secret" = Some secret ->
  Py.truthy secret = true -> is_text secret = false ->
  r_signature r = Some ("sha1=" +:+ signature) ->
  PyStr.count "=" signature = 0%nat ->
  index w r = ([], Raise TypeError).
Proof.
  intros Hsig Hcfg Htrue Htext Hheader Hfree.
  rewrite (index_reaches_signature _ _ _ Hsig).
  unfold enforce_secret. simpl Py.get. rewrite Hcfg. simpl default.
  rewrite bind_lift_Ok, Htrue. unfold check_signature. rewrite Hheader.
  change ("sha1=" +:+ signature) with ("sha1" +:+ "=" +:+ signature).
  rewrite SplitFacts.split_pair by (reflexivity || assumption).
  simpl negb. cbv iota.
  destruct secret; try discriminate; reflexivity.
Qed.

Lemma secret_must_be_text_witness :
  index (Sample.host (JDict {[ "github_ips_only" := JBool false;
                               "enforce_secret" := JInt 1234 ]}) [])
        (Sample.post (Some "sha1=e7e0225292f975eab7d48999ea520020ef91b18d") "ping" "{}" None)
  = ([], Raise TypeError).
Proof.
  apply (secret_must_be_text _ _
           {[ "github_ips_only" := JBool false; "enforce_secret" := JInt 1234 ]}
           (JInt 1234) "e7e0225292f975eab7d48999ea520020ef91b18d");
    [split; reflexivity | reflexivity..].
Defined.

(** X22.  With a secret configured, a header [sha1=...] whose digest
    holds a character that is not ASCII is not answered 403:
    [hmac.compare_digest] refuses such a string and the request ends with
    [TypeError], nothing logged. *)
Theorem non_ascii_digest_raises_TypeError (w : world) (r : request)
    (cfg : gmap string json) (secret signature : string) :
  reaches_signature w r cfg ->
  cfg !! "enforce_secret" = Some (JStr secret) -> secret <> "" ->
  r_signature r = Some ("sha1=" +:+ signature) ->
  PyStr.count "=" signature = 0%nat ->
  PyStr.isascii signature = false ->
  index w r = ([], Raise TypeError).
Proof.
  intros Hsig Hcfg Hsecret Hheader Hfree Hascii.
  rewrite (index_reaches_signature _ _ _ Hsig).
  rewrite (enforce_secret_checks r cfg secret Hcfg Hsecret).
  unfold check_signature. rewrite Hheader.
  change ("sha1=" +:+ signature) with ("sha1" +:+ "=" +:+ signature).
  rewrite SplitFacts.split_pair by (reflexivity || assumption).
  simpl negb. cbv iota. simpl bytes_utf8. rewrite bind_lift_Ok.
  unfold constant_time_compare. rewrite Hascii, andb_false_r. reflexivity.
Qed.

Lemma non_ascii_digest_raises_TypeError_witness :
  index (Sample.host (JDict (Sample.settings "s3cret" false)) [])
        (Sample.post (Some (String "s" (String "h" (String "a" (String "1" (String "="
                              (String "233" "")))))))
                     "ping" "{}" None)
  = ([], Raise TypeError).
Proof.
  apply (non_ascii_digest_raises_TypeError _ _ (Sample.settings "s3cret" false)
           "s3cret" (String "233" ""));
    [split; reflexivity | reflexivity | discriminate | reflexivity..].
Defined.

(** ** What an answer tells (lines 117-247) *)

Lemma status_inj (a b : string) : status a = status b -> a = b.
Proof.
  intros H.
  apply (f_equal (fun v => match v with JDict fields => fields !! "status" | _ => None end))
    in H.
  unfold status in H. rewrite !lookup_singleton_eq in H. now injection H.
Qed.

Lemma pong_is_no_status (s : string) : pong <> status s.
Proof.
  intros H.
  apply (f_equal (fun v => match v with JDict fields => fields !! "msg" | _ => None end))
    in H.
  unfold pong, status in H.
  rewrite lookup_singleton_eq, lookup_singleton_ne in H by discriminate.
  discriminate H.
Qed.

Lemma Dumps_inj (a b : json) : Dumps a = Dumps b -> a = b.
Proof.
  intros H.
  exact (f_equal (fun resp => match resp with Dumps doc => doc | DumpsSorted _ => a end) H).
Qed.

(** A request that is answered passed every check without a trace. *)
Lemma index_answered (w : world) (r : request) (resp : response) :
  snd (index w r) = Ok resp ->
  exists cfg : gmap string json,
    reaches_signature w r cfg
    /\ snd (enforce_secret (JDict cfg) r) = Ok tt
    /\ index w r = answer w (JDict cfg) (hooks_of w cfg) r.
Proof.
  intros Hok.
  destruct (String.eqb_spec (r_method r) "POST") as [Hm|Hm];
    [|rewrite (other_methods_are_405 w r Hm) in Hok; discriminate Hok].
  assert (exists cfg, load_config w = Ok (JDict cfg)) as [cfg Hc].
  { unfold index in Hok. rewrite Hm in Hok. simpl negb in Hok. cbv iota in Hok.
    destruct (load_config w) as [config| |]; try discriminate Hok.
    rewrite bind_lift_Ok in Hok.
    destruct config; try discriminate Hok. now eexists. }
  assert (snd (github_ips_only w (JDict cfg) r) = Ok tt) as Ho.
  { unfold index in Hok. rewrite Hm in Hok. simpl negb in Hok. cbv iota in Hok.
    rewrite Hc, bind_lift_Ok in Hok. simpl Py.get in Hok. rewrite bind_lift_Ok in Hok.
    rewrite snd_bind in Hok.
    destruct (snd (github_ips_only w (JDict cfg) r)) as [[]| |]; try discriminate Hok.
    reflexivity. }
  pose proof (ReachesSignature w r cfg Hm Hc Ho) as Hsig.
  rewrite (index_reaches_signature _ _ _ Hsig) in Hok |- *.
  rewrite snd_bind in Hok.
  destruct (snd (enforce_secret (JDict cfg) r)) as [[]| |] eqn:Hs; try discriminate Hok.
  exists cfg. split; [exact Hsig|]. split; [exact Hs|].
  now rewrite (enforce_secret_silent _ _ Hs), bind_ret.
Qed.

(** An event that is answered had its metadata extracted. *)
Lemma handle_event_answered (w : world) (config hooks : json) (ev : string)
    (payload : json) (resp : response) :
  snd (handle_event w config hooks ev payload) = Ok resp ->
  exists (b n : json) (skip : bool),
    derive_branch ev payload = Ok b /\ derive_name payload = Ok n
    /\ is_push_delete ev payload = Ok skip.
Proof.
  unfold handle_event. rewrite snd_bind. cbn [lift snd].
  destruct (derive_branch ev payload) as [b| |]; try discriminate.
  rewrite snd_bind. cbn [lift snd].
  destruct (derive_name payload) as [n| |]; try discriminate.
  rewrite snd_bind. cbn [logging emit snd]. rewrite snd_bind. cbn [lift snd].
  destruct (is_push_delete ev payload) as [skip| |]; try discriminate.
  intros _. now exists b, n, skip.
Qed.

(** Every way a request can be answered, with what the answer tells. *)
Lemma index_answers (w : world) (r : request) (resp : response) :
  snd (index w r) = Ok resp ->
  (resp = Dumps pong
   /\ (r_event r = None \/ r_event r = Some "ping")
   /\ fst (index w r) = [])
  \/ (resp = Dumps (status "skipped")
      /\ r_event r = Some "push"
      /\ only_logs (fst (index w r))
      /\ exists payload deleted : json,
           r_json r = Some payload
           /\ Py.getitem payload "deleted" = Ok deleted
           /\ Py.truthy deleted = true)
  \/ (resp = Dumps (status "nop")
      /\ only_logs (fst (index w r)))
  \/ ((resp = Dumps (status "done") \/ exists ran, resp = DumpsSorted ran)
      /\ invoked (fst (index w r)) <> []
      /\ removed (fst (index w r)) = [0%nat]).
Proof.
  intros Hok.
  destruct (index_answered w r resp Hok) as (cfg & _ & _ & Hindex).
  rewrite Hindex in Hok |- *. clear Hindex. unfold answer in Hok |- *.
  destruct (String.eqb_spec (default "ping" (r_event r)) "ping") as [Hping|Hping].
  { left. injection Hok as <-. split; [reflexivity|]. split; [|reflexivity].
    destruct (r_event r) as [ev|]; [right; simpl in Hping; now subst | now left]. }
  right. destruct (r_event r) as [ev|] eqn:Hev; [|contradiction]. simpl default in *.
  unfold get_json in Hok |- *.
  destruct (r_json r) as [payload|] eqn:Hjson; [|discriminate Hok].
  rewrite bind_ret in Hok |- *.
  destruct (handle_event_answered _ _ _ _ _ _ Hok) as (b & n & skip & Hb & Hn & Hskip).
  destruct skip.
  - left.
    rewrite (handle_event_skips w (JDict cfg) (hooks_of w cfg) ev payload b n Hb Hn Hskip)
      in Hok |- *.
    injection Hok as <-. unfold is_push_delete in Hskip.
    destruct (String.eqb_spec ev "push") as [->|]; [|discriminate Hskip].
    split; [reflexivity|]. split; [reflexivity|]. split; [repeat constructor|].
    exists payload.
    destruct (Py.getitem payload "deleted") as [deleted| |]; try discriminate Hskip.
    exists deleted. injection Hskip as Hskip. now repeat split.
  - right.
    rewrite (handle_event_resolves w (JDict cfg) (hooks_of w cfg) ev payload b n Hb Hn Hskip)
      in Hok |- *.
    simpl fst. simpl snd in Hok. unfold resolve_and_dispatch in Hok |- *.
    pose proof (possible_hooks_only_logs w (hooks_of w cfg) (Metadata n b ev)) as Hlogs.
    destruct (possible_hooks w (hooks_of w cfg) (Metadata n b ev)) as [logs [cands| |]];
      try discriminate Hok.
    simpl in Hlogs. rewrite bind_Ok in Hok |- *. simpl fst. simpl snd in Hok.
    destruct (check_permissions w cands) as [|s0 rest] eqn:Hperm.
    + left. injection Hok as <-. split; [reflexivity|].
      simpl fst. rewrite app_nil_r. constructor; [reflexivity | exact Hlogs].
    + right.
      destruct (run_scripts_any w payload (Metadata n b ev) 0 (s0 :: rest) 0 1 ∅)
        as (_ & Hall & _ & _ & _).
      pose proof (run_scripts_removes_nothing w payload (Metadata n b ev) 0 (s0 :: rest)
                    0 1 ∅) as Hrem.
      rewrite dispatch_unfolded in Hok |- *.
      destruct (snd (run_scripts w payload (Metadata n b ev) 0 0 1 (s0 :: rest) ∅))
        as [ran| |]; try discriminate Hok.
      cbn [fst snd] in Hok |- *. injection Hok as <-.
      specialize (Hall ran eq_refl).
      set (closing := if Py.truthy (default (JBool false) (cfg !! "return_scripts_info"))
                      then [Log INFO (Output ran)] else []).
      assert (only_logs closing) as Hclosing
        by (unfold closing; destruct (Py.truthy _); repeat constructor).
      assert (only_logs (Log INFO (MetadataIs (Metadata n b ev)) :: logs)) as Hlogs'
        by (constructor; [reflexivity | exact Hlogs]).
      split; [|split].
      * destruct (Py.truthy _); [right; now eexists | now left].
      * unfold invoked in *. rewrite (app_comm_cons logs).
        rewrite (omap_dispatched _ (Log INFO (MetadataIs (Metadata n b ev)) :: logs)
                   _ closing payload) by (reflexivity || assumption).
        cbn [option_list app]. rewrite Hall. discriminate.
      * unfold removed in *. rewrite (app_comm_cons logs).
        rewrite (omap_dispatched _ (Log INFO (MetadataIs (Metadata n b ev)) :: logs)
                   _ closing payload) by (reflexivity || assumption).
        cbn [option_list app]. now rewrite Hrem.
Qed.

(** X23.  Every answer the handler gives is one of five, and each tells
    what was done: [{"msg": "pong"}] only to a ping or a request without
    event header, with nothing done; [{"status": "skipped"}] and
    [{"status": "nop"}] only after log lines and nothing else;
    [{"status": "done"}] or the results of the hooks only after at least
    one hook was started and the shared payload file removed. *)
Theorem what_an_answer_tells (w : world) (r : request) (resp : response) :
  snd (index w r) = Ok resp ->
  (resp = Dumps pong
   /\ (r_event r = None \/ r_event r = Some "ping")
   /\ fst (index w r) = [])
  \/ ((resp = Dumps (status "skipped") \/ resp = Dumps (status "nop"))
      /\ only_logs (fst (index w r)))
  \/ ((resp = Dumps (status "done") \/ exists ran, resp = DumpsSorted ran)
      /\ invoked (fst (index w r)) <> []
      /\ removed (fst (index w r)) = [0%nat]).
Proof.
  intros Hok.
  destruct (index_answers w r resp Hok)
    as [Hpong | [(-> & _ & Hlogs & _) | [(-> & Hlogs) | Hdone]]].
  - now left.
  - right. left. split; [now left | exact Hlogs].
  - right. left. split; [now right | exact Hlogs].
  - right. now right.
Qed.

Lemma what_an_answer_tells_witness :
  (Dumps (status "nop") = Dumps pong
   /\ (r_event (Sample.post None "push" "(body)" (Some (JDict Sample.push_main))) = None
       \/ r_event (Sample.post None "push" "(body)" (Some (JDict Sample.push_main)))
          = Some "ping")
   /\ fst (index (Sample.host (JDict (Sample.settings "" false)) [])
                 (Sample.post None "push" "(body)" (Some (JDict Sample.push_main)))) = [])
  \/ ((Dumps (status "nop") = Dumps (status "skipped")
       \/ Dumps (status "nop") = Dumps (status "nop"))
      /\ only_logs (fst (index (Sample.host (JDict (Sample.settings "" false)) [])
                      (Sample.post None "push" "(body)" (Some (JDict Sample.push_main))))))
  \/ ((Dumps (status "nop") = Dumps (status "done")
       \/ exists ran, Dumps (status "nop") = DumpsSorted ran)
      /\ invoked (fst (index (Sample.host (JDict (Sample.settings "" false)) [])
                        (Sample.post None "push" "(body)" (Some (JDict Sample.push_main)))))
         <> []
      /\ removed (fst (index (Sample.host (JDict (Sample.settings "" false)) [])
                        (Sample.post None "push" "(body)" (Some (JDict Sample.push_main)))))
         = [0%nat]).
Proof.
  apply (what_an_answer_tells
           (Sample.host (JDict (Sample.settings "" false)) [])
           (Sample.post None "push" "(body)" (Some (JDict Sample.push_main)))
           (Dumps (status "nop"))).
  vm_compute; reflexivity.
Defined.

(** X24.  Only a deleted push is skipped: when the answer is
    [{"status": "skipped"}], the event header was [push], the body parsed
    to a payload whose [deleted] is true, and nothing but log lines was
    produced. *)
Theorem only_push_deletes_are_skipped (w : world) (r : request) :
  snd (index w r) = Ok (Dumps (status "skipped")) ->
  r_event r = Some "push"
  /\ (exists payload deleted : json,
        r_json r = Some payload
        /\ Py.getitem payload "deleted" = Ok deleted
        /\ Py.truthy deleted = true)
  /\ only_logs (fst (index w r)).
Proof.
  intros Hok.
  destruct (index_answers w r _ Hok)
    as [(Hresp & _) | [(_ & Hev & Hlogs & Hdeleted) | [(Hresp & _) | ([Hresp|[ran Hresp]] & _)]]].
  - exfalso. apply Dumps_inj in Hresp. symmetry in Hresp. exact (pong_is_no_status _ Hresp).
  - now repeat split.
  - exfalso. apply Dumps_inj, status_inj in Hresp. discriminate Hresp.
  - exfalso. apply Dumps_inj, status_inj in Hresp. discriminate Hresp.
  - discriminate Hresp.
Qed.

Lemma only_push_deletes_are_skipped_witness :
  r_event (Sample.post None "push" "(body)" (Some (JDict Sample.push_deleted))) = Some "push"
  /\ only_logs (fst (index (Sample.host (JDict (Sample.settings "" false)) ["/hooks/push"])
                      (Sample.post None "push" "(body)" (Some (JDict Sample.push_deleted))))).
Proof.
  destruct (only_push_deletes_are_skipped
              (Sample.host (JDict (Sample.settings "" false)) ["/hooks/push"])
              (Sample.post None "push" "(body)" (Some (JDict Sample.push_deleted))))
    as (Hev & _ & Hlogs).
  - vm_compute; reflexivity.
  - split; [exact Hev | exact Hlogs].
Defined.

(** ** What a dispatch sends back (lines 241-247) *)

(** X25.  A dispatch that ends with an answer discloses the results of
    the hooks only when [return_scripts_info] is set and true: then the
    answer is the [ran] of the loop, logged as the last line after the
    shared file was removed; otherwise -- also when the key is absent --
    the answer is [{"status": "done"}], whatever the hooks exited with,
    and removing the shared file is the last thing done. *)
Theorem results_are_returned_only_on_request (w : world) (cfg : gmap string json)
    (payload : json) (m : metadata) (scripts : list string) (resp : response) :
  snd (dispatch w (JDict cfg) payload m scripts) = Ok resp ->
  if Py.truthy (default (JBool false) (cfg !! "return_scripts_info"))
  then exists (ran : gmap string json) (before : list effect),
         snd (run_scripts w payload m 0 0 1 scripts ∅) = Ok ran
         /\ resp = DumpsSorted ran
         /\ fst (dispatch w (JDict cfg) payload m scripts)
            = before ++ [Remove 0; Log INFO (Output ran)]
  else exists before : list effect,
         resp = Dumps (status "done")
         /\ fst (dispatch w (JDict cfg) payload m scripts) = before ++ [Remove 0].
Proof.
  rewrite dispatch_unfolded.
  destruct (snd (run_scripts w payload m 0 0 1 scripts ∅)) as [ran| |]; try discriminate.
  cbn [fst snd].
  destruct (Py.truthy (default (JBool false) (cfg !! "return_scripts_info")));
    intros [= <-].
  - exists ran, (MkStemp 0 :: Write 0 payload :: fst (run_scripts w payload m 0 0 1 scripts ∅)).
    repeat split.
  - exists (MkStemp 0 :: Write 0 payload :: fst (run_scripts w payload m 0 0 1 scripts ∅)).
    repeat split.
Qed.

Lemma results_are_returned_only_on_request_witness :
  exists before : list effect,
    Dumps (status "done") = Dumps (status "done")
    /\ fst (dispatch (Sample.host (JDict ∅) []) (JDict ∅) (JDict Sample.push_main)
              (Metadata (JStr "repo1") (JStr "main") "push") ["/hooks/push"])
       = before ++ [Remove 0].
Proof.
  exact (results_are_returned_only_on_request
           (Sample.host (JDict ∅) []) ∅ (JDict Sample.push_main)
           (Metadata (JStr "repo1") (JStr "main") "push") ["/hooks/push"]
           (Dumps (status "done")) eq_refl).
Defined.

(** ** The shape of every request *)

Lemma dispatch_invokes_listed (w : world) (cfg : gmap string json) (payload : json)
    (m : metadata) (scripts : list string) (s : string) :
  s ∈ invoked (fst (dispatch w (JDict cfg) payload m scripts)) -> s ∈ scripts.
Proof.
  destruct (run_scripts_any w payload m 0 scripts 0 1 ∅) as ((rest & Hrest) & _).
  rewrite dispatch_unfolded. intros Hin.
  assert (s ∈ invoked (fst (run_scripts w payload m 0 0 1 scripts ∅))) as Hloop.
  { revert Hin. unfold invoked.
    destruct (snd (run_scripts w payload m 0 0 1 scripts ∅)); cbn [fst omap list_omap];
      [|tauto..].
    rewrite omap_app. destruct (Py.truthy _); cbn; now rewrite app_nil_r. }
  rewrite Hrest. apply elem_of_app. now left.
Qed.

Lemma dispatch_raises (w : world) (cfg : gmap string json) (payload : json)
    (m : metadata) (scripts : list string) (e : exn) :
  snd (dispatch w (JDict cfg) payload m scripts) = Raise e ->
  e = UnicodeDecodeError \/ e = ValueError \/ e = OSError.
Proof.
  destruct (run_scripts_any w payload m 0 scripts 0 1 ∅) as (_ & _ & Hexn & _).
  rewrite dispatch_unfolded.
  destruct (snd (run_scripts w payload m 0 0 1 scripts ∅)) as [ran| |e']; try discriminate.
  intros [= <-]. now apply Hexn.
Qed.

Section Shape.

Variables (w : world) (cfg : gmap string json).

(** What can be said of every stage of the handler: it has logged and
    done nothing else, or it has got as far as a dispatch. *)
Let shape (c : act response) : Prop := only_logs (fst c) \/ dispatched w cfg c.

Lemma shape_bind {A} (c : act A) (k : A -> act response) :
  only_logs (fst c) -> (forall a, shape (k a)) -> shape (bind c k).
Proof.
  intros Hlogs Hk. destruct c as [t [a| |]]; [|now left..].
  rewrite bind_Ok. simpl in Hlogs.
  destruct (Hk a) as [Hquiet | (logs & payload & m & scripts & Hl & Hrun & Heq)].
  - left. now apply only_logs_app.
  - right. exists (t ++ logs), payload, m, scripts.
    split; [now apply only_logs_app|]. split; [exact Hrun|].
    rewrite Heq. simpl fst. simpl snd. now rewrite app_assoc.
Qed.

Lemma shape_lift {A} (o : outcome A) (k : A -> act response) :
  (forall a, shape (k a)) -> shape (bind (lift o) k).
Proof. intros Hk. apply shape_bind; [constructor | exact Hk]. Qed.

Lemma shape_logging (lvl : level) (msg : message) (k : unit -> act response) :
  (forall a, shape (k a)) -> shape (bind (logging lvl msg) k).
Proof. intros Hk. apply shape_bind; [repeat constructor | exact Hk]. Qed.

Lemma shape_resolve_and_dispatch (hooks payload : json) (m : metadata) :
  shape (resolve_and_dispatch w (JDict cfg) hooks payload m).
Proof.
  unfold resolve_and_dispatch.
  apply shape_bind; [apply possible_hooks_only_logs|]. intros candidates.
  destruct (check_permissions w candidates) as [|s0 rest] eqn:Hperm.
  - left. constructor.
  - right. exists [], payload, m, (s0 :: rest). split; [constructor|]. split.
    + intros s Hin. rewrite <- Hperm in Hin. unfold check_permissions in Hin.
      now apply list_elem_of_filter in Hin as [Hrun _].
    + now destruct (dispatch w (JDict cfg) payload m (s0 :: rest)).
Qed.

Lemma shape_handle_event (hooks : json) (ev : string) (payload : json) :
  shape (handle_event w (JDict cfg) hooks ev payload).
Proof.
  unfold handle_event.
  apply shape_lift. intros b. apply shape_lift. intros n.
  apply shape_logging. intros _. apply shape_lift. intros [|].
  - apply shape_logging. intros _. left. constructor.
  - apply shape_resolve_and_dispatch.
Qed.

Lemma shape_answer (hooks : json) (r : request) : shape (answer w (JDict cfg) hooks r).
Proof.
  unfold answer. destruct (String.eqb _ "ping"); [left; constructor|].
  apply shape_bind.
  - unfold get_json. destruct (r_json r); repeat constructor.
  - intros payload. apply shape_handle_event.
Qed.

End Shape.

(** Every request has logged and done nothing else, or has got as far as
    a dispatch to scripts that passed the permission check. *)
Lemma index_shape (w : world) (r : request) :
  only_logs (fst (index w r)) \/ exists cfg, dispatched w cfg (index w r).
Proof.
  unfold index. destruct (negb (String.eqb (r_method r) "POST")); [left; constructor|].
  destruct (load_config w) as [config| |]; [|left; constructor..].
  rewrite bind_lift_Ok.
  destruct config as [| | | | | |cfg]; try (left; constructor).
  simpl Py.get. rewrite bind_lift_Ok.
  match goal with
  | |- only_logs (fst ?c) \/ _ =>
    assert (only_logs (fst c) \/ dispatched w cfg c) as [Hquiet|Hdone]
  end.
  { apply shape_bind; [apply github_ips_only_quiet|]. intros _.
    apply shape_bind; [apply enforce_secret_quiet|]. intros _. apply shape_answer. }
  - now left.
  - right. now exists cfg.
Qed.

(** X26.  The handler never starts a file that did not pass the check
    of line 189: whatever the request and whatever the hooks do, every
    process started is a regular file that the server may execute. *)
Theorem only_runnable_files_are_started (w : world) (r : request) (s : string) :
  s ∈ invoked (fst (index w r)) -> w_isfile w s = true /\ w_access w s = true.
Proof.
  intros Hin. apply andb_true_iff. change (runnable w s = true).
  destruct (index_shape w r)
    as [Hquiet | (cfg & logs & payload & m & scripts & Hlogs & Hrun & Heq)].
  - rewrite (only_logs_invoked _ Hquiet) in Hin. inversion Hin.
  - rewrite Heq in Hin. cbn [fst] in Hin. unfold invoked in Hin.
    rewrite omap_app, (only_logs_omap _ logs) in Hin by (reflexivity || assumption).
    apply Hrun. apply (dispatch_invokes_listed w cfg payload m scripts s). exact Hin.
Qed.

Lemma only_runnable_files_are_started_witness :
  w_isfile (Sample.host (JDict (Sample.settings "" false)) ["/hooks/all"]) "/hooks/all" = true
  /\ w_access (Sample.host (JDict (Sample.settings "" false)) ["/hooks/all"]) "/hooks/all"
     = true.
Proof.
  apply (only_runnable_files_are_started
           (Sample.host (JDict (Sample.settings "" false)) ["/hooks/all"])
           (Sample.post None "push" "(body)" (Some (JDict Sample.push_main)))
           "/hooks/all").
  vm_compute. left.
Defined.

(** X27.  The exceptions of the lookups -- [KeyError], [TypeError],
    [IndexError], [AttributeError]: any exception that is neither a
    [ValueError], nor an [OSError], nor a [UnicodeDecodeError] -- always
    strike before the first temporary file is created: the request has
    then logged and done nothing else, so that it leaves no file behind
    and has started no hook. *)
Theorem other_exceptions_strike_before_dispatch (w : world) (r : request) (e : exn) :
  snd (index w r) = Raise e ->
  e <> UnicodeDecodeError -> e <> ValueError -> e <> OSError ->
  only_logs (fst (index w r))
  /\ created (fst (index w r)) = []
  /\ invoked (fst (index w r)) = [].
Proof.
  intros Hraise Hdecode Hvalue Hos.
  enough (only_logs (fst (index w r))) as Hlogs
    by (repeat split;
        [assumption | now apply only_logs_created | now apply only_logs_invoked]).
  destruct (index_shape w r)
    as [Hquiet | (cfg & logs & payload & m & scripts & _ & _ & Heq)]; [assumption|].
  exfalso. rewrite Heq in Hraise. cbn [snd] in Hraise.
  destruct (dispatch_raises w cfg payload m scripts e Hraise) as [-> | [-> | ->]];
    contradiction.
Qed.

Lemma other_exceptions_strike_before_dispatch_witness :
  only_logs (fst (index (Sample.host (JDict (Sample.settings "" false)) ["/hooks/push"])
                    (Sample.post None "push" "(body)"
                       (Some (JDict Sample.push_without_deleted)))))
  /\ created (fst (index (Sample.host (JDict (Sample.settings "" false)) ["/hooks/push"])
                     (Sample.post None "push" "(body)"
                        (Some (JDict Sample.push_without_deleted))))) = []
  /\ invoked (fst (index (Sample.host (JDict (Sample.settings "" false)) ["/hooks/push"])
                     (Sample.post None "push" "(body)"
                        (Some (JDict Sample.push_without_deleted))))) = [].
Proof.
  apply (other_exceptions_strike_before_dispatch _ _ (KeyError "deleted"));
    [vm_compute; reflexivity | discriminate..].
Defined.

(** X28.  For an event other than [push], a payload in which [in] finds
    none of [ref_type], [pull_request] and [repository] -- an object
    without these keys, but also a JSON array or a string -- is taken as
    it is: branch and name are [None], the metadata are logged, and the
    handler goes on to look for the hooks of the event and the
    catch-all. *)
Theorem payload_without_the_keys_is_taken (w : world) (r : request)
    (cfg : gmap string json) (ev : string) (payload : json) :
  reaches_extraction w r cfg ev payload -> ev <> "push" ->
  Py.contains "ref_type" payload = Ok false ->
  Py.contains "pull_request" payload = Ok false ->
  Py.contains "repository" payload = Ok false ->
  derive_branch ev payload = Ok JNull
  /\ derive_name payload = Ok JNull
  /\ index w r
     = (Log INFO (MetadataIs (Metadata JNull JNull ev))
          :: fst (resolve_and_dispatch w (JDict cfg) (hooks_of w cfg) payload
                    (Metadata JNull JNull ev)),
        snd (resolve_and_dispatch w (JDict cfg) (hooks_of w cfg) payload
               (Metadata JNull JNull ev))).
Proof.
  intros Hreach Hpush Hrt Hpr Hrepo.
  assert (derive_branch ev payload = Ok JNull) as Hb.
  { unfold derive_branch. rewrite Hrt. cbn [obind]. rewrite Hpr. cbn [obind].
    now destruct (String.eqb_spec ev "push"). }
  assert (derive_name payload = Ok JNull) as Hn.
  { unfold derive_name. now rewrite Hrepo. }
  split; [exact Hb|]. split; [exact Hn|].
  rewrite (index_reaches_extraction _ _ _ _ _ Hreach).
  apply handle_event_resolves; [exact Hb | exact Hn |].
  now apply not_push_not_deleted.
Qed.

Lemma payload_without_the_keys_is_taken_witness :
  derive_branch "fork" (JList [JStr "forkee"]) = Ok JNull
  /\ derive_name (JList [JStr "forkee"]) = Ok JNull.
Proof.
  destruct (payload_without_the_keys_is_taken
              (Sample.host (JDict (Sample.settings "" false)) ["/hooks/all"])
              (Sample.post None "fork" "(body)" (Some (JList [JStr "forkee"])))
              (Sample.settings "" false) "fork" (JList [JStr "forkee"]))
    as (Hb & Hn & _).
  - repeat split; try reflexivity. discriminate.
  - discriminate.
  - reflexivity.
  - reflexivity.
  - reflexivity.
  - split; [exact Hb | exact Hn].
Defined.
